(** * The Sass plugin of the esbuild-based browser builder

    A shallow embedding of
    [packages/angular_devkit/build_angular/src/builders/browser-esbuild/stylesheets/sass-plugin.ts]
    and the properties its specification states about it.

    Conventions of the embedding.
    - A JavaScript string is a [string] holding its UTF-8 bytes, so
      [Buffer.from(s, 'utf-8')] is the list of its characters.
    - [undefined] in an optional position is [None].
    - A computation that may throw returns a [Completion]; [await] is
      sequencing (one load handler is followed from start to end).
    - The bundler, the compiler worker, the cache and the file system are
      the plugin's collaborators: records of operations and fields of the
      [World] the handlers run in. *)

From Stdlib Require Import ZArith NArith Ascii String List Bool Lia.
From stdpp Require Import base option list strings pretty gmap.

Import ListNotations.
Local Open Scope string_scope.
Local Open Scope list_scope.

(** ** Values and completions *)

(** [URL] objects: the parts of a WHATWG URL that [fileURLToPath] reads.
    [pathname] is kept as the URL holds it, percent-escaped. *)
Record URL := mkURL {
  protocol : string;
  hostname : string;
  pathname : string
}.

Module Sass.

(** [SourceLocation] and [SourceSpan] of the [sass] package. *)
Record SourceLocation := mkSourceLocation {
  offset : Z;
  line : Z;
  column : Z
}.

Record SourceSpan := mkSourceSpan {
  span_start : SourceLocation;
  span_end : SourceLocation;
  span_url : option URL;
  span_text : string;
  span_context : option string
}.

(** [class Exception extends Error]. *)
Record Exception := mkException {
  message : string;
  sassMessage : string;
  sassStack : string;
  span : SourceSpan
}.

Inductive Syntax := scss | indented | css.

End Sass.

(** What a [catch] clause can bind: [error: unknown].  The objects are
    sass's [Exception]s, which own a [sassMessage] property, and the other
    [Error] instances (named by their constructor), which do not; this is
    the reading the guard's declared type [error is Exception] gives to
    ['sassMessage' in error]. *)
Inductive unknown :=
| js_undefined
| js_null
| js_boolean (b : bool)
| js_number (n : Z)
| js_string (s : string)
| js_Exception (e : Sass.Exception)
| js_Error (name : string).

Inductive Completion (A : Type) :=
| Normal (a : A)
| Throw (e : unknown).
Arguments Normal {A} a.
Arguments Throw {A} e.

#[global] Instance Completion_ret : MRet Completion := fun A a => Normal a.

#[global] Instance Completion_bind : MBind Completion := fun A B k m =>
  match m with
  | Normal a => k a
  | Throw e => Throw e
  end.

Module Js.

(** [try { m } catch (error) { handler error }] *)
Definition try_catch {A} (m : Completion A) (handler : unknown -> Completion A)
  : Completion A :=
  match m with
  | Normal a => Normal a
  | Throw e => handler e
  end.

Definition TypeError : unknown := js_Error "TypeError".
Definition URIError : unknown := js_Error "URIError".
Definition AssertionError : unknown := js_Error "AssertionError".

(** [!!v] *)
Definition truthy (v : unknown) : bool :=
  match v with
  | js_undefined | js_null => false
  | js_boolean b => b
  | js_number n => negb (n =? 0)%Z
  | js_string s => negb (String.eqb s "")
  | js_Exception _ | js_Error _ => true
  end.

Definition typeof (v : unknown) : string :=
  match v with
  | js_undefined => "undefined"
  | js_null => "object"
  | js_boolean _ => "boolean"
  | js_number _ => "number"
  | js_string _ => "string"
  | js_Exception _ | js_Error _ => "object"
  end.

(** [key in v], for the keys that tell the objects of [unknown] apart:
    the properties of an [Error] and those an [Exception] adds.  The
    operator is only reached on a truthy value whose [typeof] is
    ["object"]. *)
Definition has_property (key : string) (v : unknown) : bool :=
  match v with
  | js_Exception _ =>
      existsb (String.eqb key)
        ["message"; "sassMessage"; "sassStack"; "span"; "name"; "stack"]
  | js_Error _ => existsb (String.eqb key) ["message"; "name"; "stack"]
  | _ => false
  end.

(** Truthiness of a string and of an optional string. *)
Definition nonempty (s : string) : bool := negb (String.eqb s "").

Definition truthy_str (s : option string) : bool :=
  match s with
  | Some s => nonempty s
  | None => false
  end.

(** [s.split(sep)] for a one-character separator: never empty. *)
Fixpoint split (sep : ascii) (s : string) : list string :=
  match s with
  | EmptyString => [EmptyString]
  | String c rest =>
      if Ascii.eqb c sep then EmptyString :: split sep rest
      else match split sep rest with
           | piece :: pieces => String c piece :: pieces
           | [] => [String c EmptyString]
           end
  end.

(** [s.split(sep, limit)] *)
Definition split_limit (sep : ascii) (limit : nat) (s : string) : list string :=
  firstn limit (split sep s).

(** [pieces.join(sep)] *)
Fixpoint join (sep : string) (pieces : list string) : string :=
  match pieces with
  | [] => ""
  | [piece] => piece
  | piece :: rest => piece +:+ sep +:+ join sep rest
  end.

(** [s.startsWith(prefix)] *)
Definition startsWith (prefix s : string) : bool := String.prefix prefix s.

(** [s.endsWith(suffix)] *)
Definition endsWith (suffix s : string) : bool :=
  bool_decide (list_ascii_of_string suffix `suffix_of` list_ascii_of_string s).

Definition lower (c : ascii) : ascii :=
  let n := nat_of_ascii c in
  if (65 <=? n)%nat && (n <=? 90)%nat then ascii_of_nat (n + 32) else c.

(** [s.toLowerCase()], on the ASCII letters. *)
Fixpoint toLowerCase (s : string) : string :=
  match s with
  | EmptyString => EmptyString
  | String c rest => String (lower c) (toLowerCase rest)
  end.

Definition contains (c : ascii) (s : string) : bool :=
  existsb (Ascii.eqb c) (list_ascii_of_string s).

End Js.

(** ** Node's [path] module, POSIX flavour

    The plugin imports [dirname], [extname], [join] and [relative].  They
    are given here by what Node computes, over the segments of a path. *)
Module NodePath.

Definition slash : ascii := "/"%char.
Definition dot : ascii := "."%char.

(** [normalizeString]: drop empty and ["."] segments, let [".."] cancel
    the segment before it; [res] is the output so far, last segment
    first. *)
Fixpoint normalizeSegments (allowAboveRoot : bool) (segs res : list string)
  : list string :=
  match segs with
  | [] => rev res
  | seg :: rest =>
      if String.eqb seg "" || String.eqb seg "." then
        normalizeSegments allowAboveRoot rest res
      else if String.eqb seg ".." then
        match res with
        | last :: res' =>
            if String.eqb last ".." then
              normalizeSegments allowAboveRoot rest
                (if allowAboveRoot then ".." :: res else res)
            else normalizeSegments allowAboveRoot rest res'
        | [] =>
            normalizeSegments allowAboveRoot rest
              (if allowAboveRoot then [".."] else [])
        end
      else normalizeSegments allowAboveRoot rest (seg :: res)
  end.

Definition isAbsolute (path : string) : bool := Js.startsWith "/" path.

Definition normalize (path : string) : string :=
  if String.eqb path "" then "."
  else
    let absolute := isAbsolute path in
    let trailingSeparator := Js.endsWith "/" path in
    let body :=
      Js.join "/" (normalizeSegments (negb absolute) (Js.split slash path) []) in
    if String.eqb body "" then
      if absolute then "/" else if trailingSeparator then "./" else "."
    else
      (if absolute then "/" else "") +:+ body
        +:+ (if trailingSeparator then "/" else "").

(** [join(...args)]: zero-length arguments are skipped. *)
Definition join (args : list string) : string :=
  match filter (fun arg => Js.nonempty arg = true) args with
  | [] => "."
  | joined => normalize (Js.join "/" joined)
  end.

(** [resolve(path)] against the working directory [cwd], itself absolute:
    an absolute, normalized path without trailing slash. *)
Definition resolve (cwd path : string) : string :=
  let full :=
    if isAbsolute path then path
    else if String.eqb path "" then cwd
    else cwd +:+ "/" +:+ path in
  "/" +:+ Js.join "/" (normalizeSegments false (Js.split slash full) []).

(** The loop of [dirname], from the last character down to index 1:
    the index of the slash that ends the directory part. *)
Fixpoint dirname_end (rev_tail : list ascii) (matchedSlash : bool) : option nat :=
  match rev_tail with
  | [] => None
  | c :: rest =>
      if Ascii.eqb c slash then
        if matchedSlash then dirname_end rest matchedSlash
        else Some (S (List.length rest))
      else dirname_end rest false
  end.

Definition dirname (path : string) : string :=
  match path with
  | EmptyString => "."
  | String c0 tail =>
      let hasRoot := Ascii.eqb c0 slash in
      match dirname_end (rev (list_ascii_of_string tail)) true with
      | None => if hasRoot then "/" else "."
      | Some e =>
          if hasRoot && Nat.eqb e 1 then "//" else String.substring 0 e path
      end
  end.

(** The last component of a path, trailing slashes aside, last character
    first. *)
Fixpoint rev_basename (rev_chars : list ascii) (matchedSlash : bool) : list ascii :=
  match rev_chars with
  | [] => []
  | c :: rest =>
      if Ascii.eqb c slash then
        if matchedSlash then rev_basename rest matchedSlash else []
      else c :: rev_basename rest false
  end.

(** Splits a reversed component at its last dot: the extension without
    its dot (reversed), and what comes before the dot (reversed). *)
Fixpoint split_last_dot (rev_base : list ascii) : option (list ascii * list ascii) :=
  match rev_base with
  | [] => None
  | c :: rest =>
      if Ascii.eqb c dot then Some ([], rest)
      else match split_last_dot rest with
           | Some (ext, before) => Some (c :: ext, before)
           | None => None
           end
  end.

(** [extname(path)]: from the last dot of the last component, unless that
    component has no dot, starts with its only dot, or is [".."]. *)
Definition extname (path : string) : string :=
  match split_last_dot (rev_basename (rev (list_ascii_of_string path)) true) with
  | None => ""
  | Some (rev_ext, rev_before) =>
      match rev_before, rev_ext with
      | [], _ => ""
      | [c], [] => if Ascii.eqb c dot then "" else "."
      | _, _ => string_of_list_ascii (dot :: rev rev_ext)
      end
  end.

Fixpoint drop_common (from to : list string) : list string * list string :=
  match from, to with
  | f :: from', t :: to' =>
      if String.eqb f t then drop_common from' to' else (from, to)
  | _, _ => (from, to)
  end.

(** [relative(from, to)]: both are resolved, the common leading segments
    dropped, and each remaining segment of [from] climbed with [".."]. *)
Definition relative (cwd from to : string) : string :=
  if String.eqb from to then ""
  else
    let from_segs := normalizeSegments false (Js.split slash (resolve cwd from)) [] in
    let to_segs := normalizeSegments false (Js.split slash (resolve cwd to)) [] in
    let '(up, down) := drop_common from_segs to_segs in
    Js.join "/" (map (fun _ => "..") up ++ down).

End NodePath.

(** ** Node's [url] module: [pathToFileURL] and [fileURLToPath] *)
Module NodeUrl.

Definition is_alpha (c : ascii) : bool :=
  let n := nat_of_ascii c in
  ((65 <=? n)%nat && (n <=? 90)%nat) || ((97 <=? n)%nat && (n <=? 122)%nat).

Definition is_digit (c : ascii) : bool :=
  let n := nat_of_ascii c in (48 <=? n)%nat && (n <=? 57)%nat.

Definition is_scheme_char (c : ascii) : bool :=
  is_alpha c || is_digit c
  || Ascii.eqb c "+"%char || Ascii.eqb c "-"%char || Ascii.eqb c "."%char.

Definition hex_digit (n : nat) : ascii :=
  nth n (list_ascii_of_string "0123456789ABCDEF") "0"%char.

Definition hex_value (c : ascii) : option nat :=
  let n := nat_of_ascii c in
  if is_digit c then Some (n - 48)
  else if (65 <=? n)%nat && (n <=? 70)%nat then Some (n - 55)
  else if (97 <=? n)%nat && (n <=? 102)%nat then Some (n - 87)
  else None.

(** The characters a file URL's path holds escaped: [%], the backslash
    and the path percent-encode set of the URL standard. *)
Definition escaped_in_path (c : ascii) : bool :=
  let n := nat_of_ascii c in
  (n <? 33)%nat || (126 <? n)%nat
  || existsb (Ascii.eqb c) ("034"%char :: list_ascii_of_string "%\#<>?`{}").

Fixpoint encodePath (s : string) : string :=
  match s with
  | EmptyString => EmptyString
  | String c rest =>
      if escaped_in_path c then
        let n := nat_of_ascii c in
        String "%"%char
          (String (hex_digit (n / 16)) (String (hex_digit (n mod 16)) (encodePath rest)))
      else String c (encodePath rest)
  end.

(** [decodeURIComponent], byte by byte; a [%] that does not start an
    escape is a [URIError]. *)
Fixpoint decodeURIComponent (s : string) : Completion string :=
  match s with
  | EmptyString => Normal EmptyString
  | String c rest =>
      if Ascii.eqb c "%"%char then
        match rest with
        | String h (String l rest') =>
            match hex_value h, hex_value l with
            | Some hi, Some lo =>
                decoded ← decodeURIComponent rest';
                Normal (String (ascii_of_nat (16 * hi + lo)) decoded)
            | _, _ => Throw Js.URIError
            end
        | _ => Throw Js.URIError
        end
      else
        decoded ← decodeURIComponent rest;
        Normal (String c decoded)
  end.

(** [pathToFileURL(filepath)]: the path is resolved, a trailing slash is
    kept, and the result escaped. *)
Definition pathToFileURL (cwd filepath : string) : URL :=
  let resolved := NodePath.resolve cwd filepath in
  let resolved :=
    if Js.endsWith "/" filepath && negb (Js.endsWith "/" resolved)
    then resolved +:+ "/" else resolved in
  {| protocol := "file:"; hostname := ""; pathname := encodePath resolved |}.

(** Whether the pathname holds an escaped slash, [%2F] or [%2f]. *)
Fixpoint has_encoded_slash (s : string) : bool :=
  match s with
  | EmptyString => false
  | String c rest =>
      (Ascii.eqb c "%"%char
       && (Js.startsWith "2F" rest || Js.startsWith "2f" rest))
      || has_encoded_slash rest
  end.

(** [fileURLToPath(url)] for a [URL] object. *)
Definition fileURLToPath (url : URL) : Completion string :=
  if negb (String.eqb (protocol url) "file:") then Throw Js.TypeError
  else if Js.nonempty (hostname url) then Throw Js.TypeError
  else if has_encoded_slash (pathname url) then Throw Js.TypeError
  else decodeURIComponent (pathname url).

(** The scheme of an absolute URL string and what follows its colon. *)
Fixpoint scan_scheme (s : string) : option (string * string) :=
  match s with
  | EmptyString => None
  | String c rest =>
      if Ascii.eqb c ":"%char then Some (EmptyString, rest)
      else if is_scheme_char c then
        match scan_scheme rest with
        | Some (scheme, after) => Some (String c scheme, after)
        | None => None
        end
      else None
  end.

(** Cuts a URL string at its query or fragment. *)
Fixpoint before_query (s : string) : string :=
  match s with
  | EmptyString => EmptyString
  | String c rest =>
      if Ascii.eqb c "?"%char || Ascii.eqb c "#"%char then EmptyString
      else String c (before_query rest)
  end.

(** Splits ["host/path"] at its first slash. *)
Fixpoint split_authority (s : string) : string * string :=
  match s with
  | EmptyString => (EmptyString, "/")
  | String c rest =>
      if Ascii.eqb c "/"%char then (EmptyString, s)
      else let '(host, path) := split_authority rest in (String c host, path)
  end.

Definition is_c0_or_space (c : ascii) : bool := (nat_of_ascii c <=? 32)%nat.

Definition is_tab_or_newline (c : ascii) : bool :=
  let n := nat_of_ascii c in Nat.eqb n 9 || Nat.eqb n 10 || Nat.eqb n 13.

Fixpoint drop_leading (chars : list ascii) : list ascii :=
  match chars with
  | c :: rest => if is_c0_or_space c then drop_leading rest else chars
  | [] => []
  end.

(** The input as the URL parser scans it: without leading and trailing
    control characters and spaces, and without tabs and line breaks. *)
Definition clean (input : string) : string :=
  string_of_list_ascii
    (List.filter (fun c => negb (is_tab_or_newline c))
       (rev (drop_leading (rev (drop_leading (list_ascii_of_string input)))))).

(** [new URL(input)] without a base: a string with no scheme is not a
    URL.  Of a [file:] URL the host and the path are read off as written,
    for URLs of the forms [file://host/path] and [file:/path] without dot
    segments, backslashes or characters the parser would escape; of any
    other URL only the protocol is kept. *)
Definition parseURL (input : string) : Completion URL :=
  let input := clean input in
  match input with
  | EmptyString => Throw Js.TypeError
  | String c0 _ =>
      if negb (is_alpha c0) then Throw Js.TypeError
      else
        match scan_scheme input with
        | None => Throw Js.TypeError
        | Some (scheme, after) =>
            let protocol := Js.toLowerCase scheme +:+ ":" in
            let rest := before_query after in
            if String.eqb protocol "file:" then
              if Js.startsWith "//" rest then
                let '(host, path) :=
                  split_authority (String.substring 2 (String.length rest - 2) rest) in
                let host := Js.toLowerCase host in
                Normal {| protocol := protocol;
                          hostname := if String.eqb host "localhost" then "" else host;
                          pathname := path |}
              else if Js.startsWith "/" rest then
                Normal {| protocol := protocol; hostname := ""; pathname := rest |}
              else
                Normal {| protocol := protocol; hostname := ""; pathname := "/" +:+ rest |}
            else
              Normal {| protocol := protocol; hostname := ""; pathname := rest |}
        end
  end.

(** [fileURLToPath(path)] for a string: it is parsed first. *)
Definition fileURLToPath_string (path : string) : Completion string :=
  url ← parseURL path;
  fileURLToPath url.

End NodeUrl.

(** ** [JSON.stringify] and [Buffer] *)
Module JSON.

(** The values [JSON.stringify] writes; an object keeps its properties
    in insertion order, a number is an integer that JavaScript prints in
    full. *)
#[warnings="-register-all"] Inductive value :=
| Null
| Bool (b : bool)
| Number (n : Z)
| Str (s : string)
| Array (items : list value)
| Object (props : list (string * value)).

Definition quote : ascii := "034"%char.
Definition backslash : ascii := "092"%char.

Definition lower_hex (n : nat) : ascii :=
  nth n (list_ascii_of_string "0123456789abcdef") "0"%char.

(** The escape of one character inside a JSON string. *)
Definition escape_char (c : ascii) : string :=
  let n := nat_of_ascii c in
  if Ascii.eqb c quote then String backslash (String quote EmptyString)
  else if Ascii.eqb c backslash then String backslash (String backslash EmptyString)
  else if Nat.eqb n 8 then String backslash "b"
  else if Nat.eqb n 12 then String backslash "f"
  else if Nat.eqb n 10 then String backslash "n"
  else if Nat.eqb n 13 then String backslash "r"
  else if Nat.eqb n 9 then String backslash "t"
  else if (n <? 32)%nat then
    String backslash
      ("u00" +:+ String (lower_hex (n / 16)) (String (lower_hex (n mod 16)) EmptyString))
  else String c EmptyString.

Fixpoint escape (s : string) : string :=
  match s with
  | EmptyString => EmptyString
  | String c rest => escape_char c +:+ escape rest
  end.

Definition quoted (s : string) : string :=
  String quote (escape s) +:+ String quote EmptyString.

Fixpoint stringify (v : value) : string :=
  match v with
  | Null => "null"
  | Bool b => if b then "true" else "false"
  | Number n => pretty n
  | Str s => quoted s
  | Array items =>
      "[" +:+ Js.join "," (map stringify items) +:+ "]"
  | Object props =>
      "{" +:+ Js.join "," (map (fun p => quoted (fst p) +:+ ":" +:+ stringify (snd p)) props)
          +:+ "}"
  end.

(** [object[key]] *)
Fixpoint get (key : string) (props : list (string * value)) : option value :=
  match props with
  | [] => None
  | (k, v) :: rest => if String.eqb k key then Some v else get key rest
  end.

(** [object[key] = v]: an existing property keeps its place, a new one
    goes last. *)
Fixpoint set (key : string) (v : value) (props : list (string * value))
  : list (string * value) :=
  match props with
  | [] => [(key, v)]
  | (k, old) :: rest =>
      if String.eqb k key then (k, v) :: rest else (k, old) :: set key v rest
  end.

End JSON.

Module Buffer.

(** [Buffer.from(s, 'utf-8')] *)
Definition from_utf8 (s : string) : list ascii := list_ascii_of_string s.

Definition alphabet : list ascii :=
  list_ascii_of_string
    "ABCDEFGHIJKLMNOPQRSTUVWXYZabcdefghijklmnopqrstuvwxyz0123456789+/".

Definition sextet (n : N) : ascii :=
  nth (N.to_nat (n mod 64)) alphabet "="%char.

(** [buffer.toString('base64')] *)
Fixpoint toString_base64 (bytes : list ascii) : string :=
  match bytes with
  | [] => EmptyString
  | [a] =>
      let x := (N_of_ascii a * 16)%N in
      String (sextet (x / 64)) (String (sextet x) "==")
  | [a; b] =>
      let x := ((N_of_ascii a * 256 + N_of_ascii b) * 4)%N in
      String (sextet (x / 4096)) (String (sextet (x / 64)) (String (sextet x) "="))
  | a :: b :: c :: rest =>
      let x := (N_of_ascii a * 65536 + N_of_ascii b * 256 + N_of_ascii c)%N in
      String (sextet (x / 262144))
        (String (sextet (x / 4096))
           (String (sextet (x / 64)) (String (sextet x) (toString_base64 rest))))
  end.

End Buffer.

(** ** The bundler's plugin API (esbuild) *)
Module Esbuild.

Record PartialLocation := mkLocation {
  file : option string;
  lineText : option string;
  line : option Z;
  column : option Z
}.

Record PartialNote := mkNote {
  note_text : option string
}.

Record PartialMessage := mkMessage {
  text : option string;
  location : option PartialLocation;
  notes : option (list PartialNote)
}.

Record OnLoadArgs := mkArgs {
  args_path : string;
  args_namespace : string
}.

Record OnLoadResult := mkOnLoadResult {
  loader : option string;
  contents : option string;
  errors : option (list PartialMessage);
  warnings : option (list PartialMessage);
  watchFiles : option (list string)
}.

Record ResolveOptions := mkResolveOptions {
  kind : string;
  resolveDir : option string
}.

(** Of a [ResolveResult] the plugin reads [path], empty when the
    resolution found nothing. *)
Record ResolveResult := mkResolveResult {
  path : string;
  resolve_errors : list PartialMessage
}.

Record BuildOptions := mkBuildOptions {
  absWorkingDir : option string
}.

(** [build.resolve] answers with a result and does not throw: a miss is an
    empty [path]. *)
Record PluginBuild := mkPluginBuild {
  initialOptions : BuildOptions;
  resolve : string -> ResolveOptions -> ResolveResult
}.

End Esbuild.

(** ** Resolutions asked of the bundler

    The importer is followed together with the calls of [build.resolve] it
    makes, in order. *)
Definition ResolveCall : Type := string * Esbuild.ResolveOptions.

Definition Resolving (A : Type) : Type := list ResolveCall * Completion A.

#[global] Instance Resolving_ret : MRet Resolving := fun A a => ([], Normal a).

#[global] Instance Resolving_bind : MBind Resolving := fun A B k m =>
  match m with
  | (calls, Normal a) => let '(calls', r) := k a in (calls ++ calls', r)
  | (calls, Throw e) => (calls, Throw e)
  end.

Definition completed {A} (c : Completion A) : Resolving A := ([], c).

Definition build_resolve (build : Esbuild.PluginBuild) (url : string)
  (options : Esbuild.ResolveOptions) : Resolving Esbuild.ResolveResult :=
  ([(url, options)], Normal (Esbuild.resolve build url options)).

(** ** The compiler worker's API *)
Module SassService.

Record LoggerWarnOptions := mkWarnOptions {
  deprecation : bool;
  span : option Sass.SourceSpan
}.

Record FileImporterWithRequestContextOptions := mkImporterOptions {
  fromImport : bool;
  previousResolvedModules : option (list string)
}.

Record FileImporter := mkFileImporter {
  findFileUrl : string -> FileImporterWithRequestContextOptions -> Resolving (option URL)
}.

Record StringOptions := mkStringOptions {
  url : URL;
  style : string;
  syntax : Sass.Syntax;
  loadPaths : option (list string);
  sourceMap : bool;
  sourceMapIncludeSources : bool;
  quietDeps : bool;
  importers : list FileImporter
}.

(** A source map is serialised whole, so it is the object the compiler
    returned: its properties, in order. *)
Definition RawSourceMap : Type := list (string * JSON.value).

Record CompileResult := mkCompileResult {
  css : string;
  result_sourceMap : option RawSourceMap;
  loadedUrls : list URL
}.

Inductive Settled :=
| Resolved (result : CompileResult)
| Rejected (error : unknown).

(** One run of the compiler: the calls of [logger.warn] it made, in
    order, and how its promise settled. *)
Record CompileRun := mkCompileRun {
  warned : list (string * LoggerWarnOptions);
  settled : Settled
}.

Record SassWorkerImplementation := mkWorker {
  compileStringAsync : string -> StringOptions -> CompileRun
}.

End SassService.

(** ** The load-result cache *)

(** [interface LoadResultCache], as the plugin uses it; [put] gives the
    cache after the write. *)
Class LoadResultCache (C : Type) := {
  get : C -> string -> option Esbuild.OnLoadResult;
  put : C -> string -> Esbuild.OnLoadResult -> C
}.

(** Modelled from the spec: the load-result cache itself
    ([load-result-cache.ts]), a key-to-result store with get/put
    semantics. *)
#[global] Instance MemoryLoadResultCache : LoadResultCache (gmap string Esbuild.OnLoadResult) := {
  get c key := c !! key;
  put c key result := <[key := result]> c
}.

(** ** The plugin *)

Record SassPluginOptions := mkOptions {
  sourcemap : bool;
  loadPaths : option (list string);
  inlineComponentData : option (gmap string string)
}.

(** What the load handlers act on: the module-level [sassWorkerPool], the
    cache given to [createSassPlugin] if any, the files [readFile] sees,
    and the compilations asked of the worker so far. *)
Record World (C : Type) := mkWorld {
  sassWorkerPool : option SassService.SassWorkerImplementation;
  cache : option C;
  files : gmap string string;
  compilations : list (string * SassService.StringOptions)
}.
Arguments mkWorld {C}.
Arguments sassWorkerPool {C}.
Arguments cache {C}.
Arguments files {C}.
Arguments compilations {C}.

Definition newline : string := String "010"%char EmptyString.

(** [const isSassException = (error: unknown): error is Exception] *)
Definition isSassException (error : unknown) : bool :=
  Js.truthy error
  && String.eqb (Js.typeof error) "object"
  && Js.has_property "sassMessage" error.

(** [String(v)] of an optional string, as a template literal or [+] does. *)
Definition to_string (v : option string) : string :=
  match v with
  | Some s => s
  | None => "undefined"
  end.

(** [v.method(...)]: a [TypeError] when [v] is [undefined]. *)
Definition invoke {A} (v : option string) (method : string -> A) : Completion A :=
  match v with
  | Some s => Normal (method s)
  | None => Throw Js.TypeError
  end.

Section Plugin.

(** [process.cwd()], against which Node resolves relative paths. *)
Variable cwd : string.

(** What [new sassService.SassWorkerImplementation(true)] builds. *)
Variable sassService : SassService.SassWorkerImplementation.

Context {C : Type} `{LoadResultCache C}.

(** A load handler: from the world before to its completion and the world
    after; what was written before a throw stays written. *)
Definition Handler (A : Type) : Type := World C -> Completion A * World C.

#[global] Instance Handler_ret : MRet Handler := fun A a w => (Normal a, w).

#[global] Instance Handler_bind : MBind Handler := fun A B k m w =>
  match m w with
  | (Normal a, w') => k a w'
  | (Throw e, w') => (Throw e, w')
  end.

Definition settle {A} (c : Completion A) : Handler A := fun w => (c, w).

(** [sassWorkerPool?.close(); sassWorkerPool = undefined;] *)
Definition shutdownSassWorkerPool : Handler unit := fun w =>
  (Normal tt,
   {| sassWorkerPool := None; cache := cache w; files := files w;
      compilations := compilations w |}).

(** The lazy start at the head of [compileString]. *)
Definition ensureWorkerPool : Handler SassService.SassWorkerImplementation := fun w =>
  match sassWorkerPool w with
  | Some pool => (Normal pool, w)
  | None =>
      (Normal sassService,
       {| sassWorkerPool := Some sassService; cache := cache w; files := files w;
          compilations := compilations w |})
  end.

(** [await sassWorkerPool.compileStringAsync(data, options)], up to the
    settling of the promise. *)
Definition compileStringAsync (pool : SassService.SassWorkerImplementation)
  (data : string) (options : SassService.StringOptions) : Handler SassService.CompileRun :=
  fun w =>
    (Normal (SassService.compileStringAsync pool data options),
     {| sassWorkerPool := sassWorkerPool w; cache := cache w; files := files w;
        compilations := compilations w ++ [(data, options)] |}).

(** [cache?.get(key)] *)
Definition cache_get (key : string) : Handler (option Esbuild.OnLoadResult) := fun w =>
  (Normal (c ← cache w; get c key), w).

(** [await cache?.put(key, result)] *)
Definition cache_put (key : string) (result : Esbuild.OnLoadResult) : Handler unit :=
  fun w =>
    (Normal tt,
     {| sassWorkerPool := sassWorkerPool w;
        cache := (fun c => put c key result) <$> cache w;
        files := files w; compilations := compilations w |}).

(** [await readFile(path, 'utf-8')] *)
Definition readFile (path : string) : Handler string := fun w =>
  (match files w !! path with
   | Some data => Normal data
   | None => Throw (js_Error "Error")
   end, w).

(** [sourceMapToUrlComment(sourceMap, root)]: the comment, and the source
    map object as the call leaves it. *)
Definition sourceMapToUrlComment (sourceMap : SassService.RawSourceMap) (root : string)
  : Completion (string * SassService.RawSourceMap) :=
  sources ← match JSON.get "sources" sourceMap with
            | Some (JSON.Array sources) =>
                mapM (fun source =>
                        match source with
                        | JSON.Str source =>
                            path ← NodeUrl.fileURLToPath_string source;
                            mret (JSON.Str (NodePath.relative cwd root path))
                        | _ => Throw Js.TypeError
                        end) sources
            | _ => Throw Js.TypeError
            end;
  let sourceMap := JSON.set "sources" (JSON.Array sources) sourceMap in
  let urlSourceMap :=
    Buffer.toString_base64 (Buffer.from_utf8 (JSON.stringify (JSON.Object sourceMap))) in
  mret ("/*# sourceMappingURL=data:application/json;charset=utf-8;base64,"
          +:+ urlSourceMap +:+ " */",
        sourceMap).

(** The [logger.warn] callback: [warnings.push({...})], on the array of
    the enclosing [compileString]. *)
Definition warn (text : string) (options : SassService.LoggerWarnOptions)
  (warnings : list Esbuild.PartialMessage) : Completion (list Esbuild.PartialMessage) :=
  let deprecation := SassService.deprecation options in
  location ← match SassService.span options with
             | None => mret None
             | Some span =>
                 file ← match Sass.span_url span with
                        | None => mret None
                        | Some url => path ← NodeUrl.fileURLToPath url; mret (Some path)
                        end;
                 mret (Some {| Esbuild.file := file;
                               Esbuild.lineText := Sass.span_context span;
                               Esbuild.line := Some (Sass.line (Sass.span_start span) + 1)%Z;
                               Esbuild.column := Some (Sass.column (Sass.span_start span)) |})
             end;
  mret (warnings ++
        [{| Esbuild.text := Some (if deprecation then "Deprecation" else text);
            Esbuild.location := location;
            Esbuild.notes :=
              if deprecation then Some [{| Esbuild.note_text := Some text |}] else None |}]).

(** The calls of [logger.warn] of one run, in order; a call that throws
    ends the run with what it threw. *)
Fixpoint logged (calls : list (string * SassService.LoggerWarnOptions))
  (warnings : list Esbuild.PartialMessage)
  : list Esbuild.PartialMessage * option unknown :=
  match calls with
  | [] => (warnings, None)
  | (text, options) :: rest =>
      match warn text options warnings with
      | Normal warnings' => logged rest warnings'
      | Throw e => (warnings, Some e)
      end
  end.

Section Setup.

Variable build : Esbuild.PluginBuild.

(** The retries of [resolveUrl] over the previously resolved modules:
    [for (const previous of previousResolvedModules)]. *)
Fixpoint resolvePrevious (url : string) (previous : list string)
  (result : Esbuild.ResolveResult) : Resolving Esbuild.ResolveResult :=
  match previous with
  | [] => mret result
  | previous :: rest =>
      result ← build_resolve build url
                 {| Esbuild.kind := "import-rule"; Esbuild.resolveDir := Some previous |};
      if Js.nonempty (Esbuild.path result) then mret result
      else resolvePrevious url rest result
  end.

Definition resolveUrl (url : string) (previousResolvedModules : option (list string))
  : Resolving Esbuild.ResolveResult :=
  result ← build_resolve build url
             {| Esbuild.kind := "import-rule";
                Esbuild.resolveDir :=
                  Esbuild.absWorkingDir (Esbuild.initialOptions build) |};
  match previousResolvedModules with
  | Some ((_ :: _) as previous) =>
      if negb (Js.nonempty (Esbuild.path result)) then resolvePrevious url previous result
      else mret result
  | _ => mret result
  end.

End Setup.

(** The importer [compileString] hands to the compiler. *)
Definition findFileUrl
  (resolveUrl : string -> option (list string) -> Resolving Esbuild.ResolveResult)
  (url : string) (options : SassService.FileImporterWithRequestContextOptions)
  : Resolving (option URL) :=
  let previousResolvedModules := SassService.previousResolvedModules options in
  result ← resolveUrl url None;
  if Js.nonempty (Esbuild.path result) then
    mret (Some (NodeUrl.pathToFileURL cwd (Esbuild.path result)))
  else
    (* package deep imports *)
    let parts := Js.split "/"%char url in
    hasScope ← completed (A := bool)
      (if (2 <=? List.length parts)%nat then invoke (parts !! 0%nat) (Js.startsWith "@")
       else Normal false);
    let nameOrScope := parts !! 0%nat in
    let nameOrFirstPath := parts !! 1%nat in
    let pathPart := drop 2 parts in
    let packageName :=
      if hasScope : bool then to_string nameOrScope +:+ "/" +:+ to_string nameOrFirstPath
      else to_string nameOrScope in
    let deepImport (manifest : string) :=
      NodeUrl.pathToFileURL cwd
        (NodePath.join
           (NodePath.dirname manifest
              :: (if negb hasScope && Js.truthy_str nameOrFirstPath
                  then to_string nameOrFirstPath else "")
              :: pathPart)) in
    packageResult ← resolveUrl (packageName +:+ "/package.json") None;
    if Js.nonempty (Esbuild.path packageResult) then
      mret (Some (deepImport (Esbuild.path packageResult)))
    else
      (* Yarn PnP workaround, using the previous resolved modules *)
      result ← resolveUrl url previousResolvedModules;
      if Js.nonempty (Esbuild.path result) then
        mret (Some (NodeUrl.pathToFileURL cwd (Esbuild.path result)))
      else
        packageResult ← resolveUrl (packageName +:+ "/package.json") previousResolvedModules;
        if Js.nonempty (Esbuild.path packageResult) then
          mret (Some (deepImport (Esbuild.path packageResult)))
        else
          (* Not found *)
          mret None.

(** The [catch] clause of [compileString], over the [warnings] pushed so
    far.  Past the guard, [error] is an [Exception]. *)
Definition compileString_catch (warnings : list Esbuild.PartialMessage) (error : unknown)
  : Completion Esbuild.OnLoadResult :=
  if isSassException error then
    match error with
    | js_Exception error =>
        file ← match Sass.span_url (Sass.span error) with
               | Some url => path ← NodeUrl.fileURLToPath url; mret (Some path)
               | None => mret None
               end;
        mret {| Esbuild.loader := Some "css";
                Esbuild.contents := None;
                Esbuild.errors :=
                  Some [{| Esbuild.text := Some (Sass.message error);
                           Esbuild.location := None;
                           Esbuild.notes := None |}];
                Esbuild.warnings := Some warnings;
                Esbuild.watchFiles :=
                  if Js.truthy_str file then Some [to_string file] else None |}
    | _ => Throw error
    end
  else Throw error.

(** The options object [compileString] passes to [compileStringAsync];
    the [logger] is followed through the calls the run makes of it. *)
Definition compileOptions (filePath : string) (syntax : Sass.Syntax)
  (options : SassPluginOptions)
  (resolveUrl : string -> option (list string) -> Resolving Esbuild.ResolveResult)
  : SassService.StringOptions :=
  {| SassService.url := NodeUrl.pathToFileURL cwd filePath;
     SassService.style := "expanded";
     SassService.syntax := syntax;
     SassService.loadPaths := loadPaths options;
     SassService.sourceMap := sourcemap options;
     SassService.sourceMapIncludeSources := sourcemap options;
     SassService.quietDeps := true;
     SassService.importers :=
       [{| SassService.findFileUrl := findFileUrl resolveUrl |}] |}.

(** [filePath] is [None] when the caller passes [undefined], which
    [pathToFileURL] refuses inside the [try] block.  A throw of
    [logger.warn] is taken to reject the compilation. *)
Definition compileString (data : string) (filePath : option string)
  (syntax : Sass.Syntax) (options : SassPluginOptions)
  (resolveUrl : string -> option (list string) -> Resolving Esbuild.ResolveResult)
  : Handler Esbuild.OnLoadResult :=
  (* Lazily load Sass when a Sass file is found *)
  pool ← ensureWorkerPool;
  match filePath with
  | None => settle (Js.try_catch (Throw Js.TypeError) (compileString_catch []))
  | Some filePath =>
      run ← compileStringAsync pool data
              (compileOptions filePath syntax options resolveUrl);
      let '(warnings, thrown) := logged (SassService.warned run) [] in
      settle
        (Js.try_catch
           match thrown, SassService.settled run with
           | Some error, _ => Throw error
           | None, SassService.Rejected error => Throw error
           | None, SassService.Resolved result =>
               contents ← match SassService.result_sourceMap result with
                          | Some sourceMap =>
                              comment ← sourceMapToUrlComment sourceMap
                                          (NodePath.dirname filePath);
                              mret (SassService.css result +:+ newline +:+ fst comment)
                          | None => mret (SassService.css result)
                          end;
               watchFiles ← mapM NodeUrl.fileURLToPath (SassService.loadedUrls result);
               mret {| Esbuild.loader := Some "css";
                       Esbuild.contents := Some contents;
                       Esbuild.errors := None;
                       Esbuild.warnings := Some warnings;
                       Esbuild.watchFiles := Some watchFiles |}
           end
           (compileString_catch warnings))
  end.

(** The handler of [build.onLoad({ filter: /^s[ac]ss;/, namespace:
    'angular:styles/component' }, ...)]. *)
Definition onLoad_component (options : SassPluginOptions)
  (resolveUrl : string -> option (list string) -> Resolving Esbuild.ResolveResult)
  (args : Esbuild.OnLoadArgs) : Handler Esbuild.OnLoadResult :=
  data ← settle
    match inlineComponentData options ≫= (fun entries => entries !! Esbuild.args_path args) with
    | Some data => Normal data
    | None => Throw Js.AssertionError
    end;
  result ← cache_get data;
  match result with
  | Some result => mret result
  | None =>
      let parts := Js.split_limit ";"%char 3 (Esbuild.args_path args) in
      let language := parts !! 0%nat in
      let filePath := parts !! 2%nat in
      let syntax :=
        if bool_decide (language = Some "sass") then Sass.indented else Sass.scss in
      result ← compileString data filePath syntax options resolveUrl;
      match Esbuild.errors result with
      | None =>
          (* Cache the result if there were no errors *)
          _ ← cache_put data result;
          mret result
      | Some _ => mret result
      end
  end.

(** The handler of [build.onLoad({ filter: /\.s[ac]ss$/ }, ...)]. *)
Definition onLoad_file (options : SassPluginOptions)
  (resolveUrl : string -> option (list string) -> Resolving Esbuild.ResolveResult)
  (args : Esbuild.OnLoadArgs) : Handler Esbuild.OnLoadResult :=
  result ← cache_get (Esbuild.args_path args);
  match result with
  | Some result => mret result
  | None =>
      data ← readFile (Esbuild.args_path args);
      let syntax :=
        if String.eqb (Js.toLowerCase (NodePath.extname (Esbuild.args_path args))) ".sass"
        then Sass.indented else Sass.scss in
      result ← compileString data (Some (Esbuild.args_path args)) syntax options resolveUrl;
      match Esbuild.errors result with
      | None =>
          (* Cache the result if there were no errors *)
          _ ← cache_put (Esbuild.args_path args) result;
          mret result
      | Some _ => mret result
      end
  end.

(** A rule registered with [build.onLoad]. *)
Record OnLoadRule := mkRule {
  rule_filter : string -> bool;
  rule_namespace : option string;
  callback : Esbuild.OnLoadArgs -> Handler Esbuild.OnLoadResult
}.

Record Plugin := mkPlugin {
  name : string;
  setup : Esbuild.PluginBuild -> list OnLoadRule
}.

Definition createSassPlugin (options : SassPluginOptions) : Plugin :=
  {| name := "angular-sass";
     setup build :=
       [ {| rule_filter path := Js.startsWith "sass;" path || Js.startsWith "scss;" path;
            rule_namespace := Some "angular:styles/component";
            callback := onLoad_component options (resolveUrl build) |};
         {| rule_filter path := Js.endsWith ".sass" path || Js.endsWith ".scss" path;
            rule_namespace := None;
            callback := onLoad_file options (resolveUrl build) |} ] |}.

End Plugin.

(** ** A small project to run the plugin on *)
Module Demo.

Definition cwd : string := "/proj".

(** What the bundler finds, by search root and specifier. *)
Definition resolutions : list (string * string * string) :=
  [ ("/proj", "./theme", "/proj/src/theme.scss");
    ("/proj", "@scope/pkg/package.json", "/proj/node_modules/@scope/pkg/package.json");
    ("/proj", "pkg/package.json", "/proj/node_modules/pkg/package.json");
    ("/proj/.yarn/dep", "hidden/package.json", "/proj/.yarn/hidden/package.json");
    ("/proj/.yarn/dep", "pnp/theme", "/proj/.yarn/pnp/theme.scss") ].

Definition bundler_resolve (url : string) (options : Esbuild.ResolveOptions)
  : Esbuild.ResolveResult :=
  match
    List.find
      (fun entry =>
         bool_decide (Some (fst (fst entry)) = Esbuild.resolveDir options)
         && String.eqb (snd (fst entry)) url)
      resolutions
  with
  | Some entry => {| Esbuild.path := snd entry; Esbuild.resolve_errors := [] |}
  | None =>
      {| Esbuild.path := "";
         Esbuild.resolve_errors :=
           [{| Esbuild.text := Some "Could not resolve"; Esbuild.location := None;
               Esbuild.notes := None |}] |}
  end.

Definition build : Esbuild.PluginBuild :=
  {| Esbuild.initialOptions := {| Esbuild.absWorkingDir := Some "/proj" |};
     Esbuild.resolve := bundler_resolve |}.

Definition origin : Sass.SourceLocation :=
  {| Sass.offset := 0; Sass.line := 0; Sass.column := 0 |}.

Definition span_at (url : URL) (line column : Z) : Sass.SourceSpan :=
  {| Sass.span_start := {| Sass.offset := 0; Sass.line := line; Sass.column := column |};
     Sass.span_end := {| Sass.offset := 0; Sass.line := line; Sass.column := column |};
     Sass.span_url := Some url;
     Sass.span_text := "";
     Sass.span_context := Some "a { b: c / d }" |}.

Definition division_warning (url : URL) : string * SassService.LoggerWarnOptions :=
  ("Using / for division is deprecated.",
   {| SassService.deprecation := true; SassService.span := Some (span_at url 0 7) |}).

Definition syntax_error (url : URL) : Sass.Exception :=
  {| Sass.message := "expected }.";
     Sass.sassMessage := "expected }.";
     Sass.sassStack := "";
     Sass.span := span_at url 0 3 |}.

(** A stand-in for the compiler: it rejects the text [a {] with a syntax
    error after one deprecation warning, rejects the text [crash] with a
    plain [Error], and otherwise answers the text itself as CSS, with a
    source map when asked for one. *)
Definition compiler : SassService.SassWorkerImplementation :=
  {| SassService.compileStringAsync data options :=
       let url := SassService.url options in
       if String.eqb data "a {" then
         {| SassService.warned := [division_warning url];
            SassService.settled := SassService.Rejected (js_Exception (syntax_error url)) |}
       else if String.eqb data "crash" then
         {| SassService.warned := [];
            SassService.settled := SassService.Rejected (js_Error "Error") |}
       else
         {| SassService.warned := [];
            SassService.settled :=
              SassService.Resolved
                {| SassService.css := data;
                   SassService.result_sourceMap :=
                     if SassService.sourceMap options then
                       Some [ ("version", JSON.Number 3);
                              ("sourceRoot", JSON.Str "");
                              ("sources", JSON.Array [JSON.Str ("file://" +:+ pathname url)]);
                              ("names", JSON.Array []);
                              ("mappings", JSON.Str "AAAA") ]
                     else None;
                   SassService.loadedUrls := [url] |} |} |}.

Definition options (sourcemap : bool) : SassPluginOptions :=
  {| sourcemap := sourcemap;
     loadPaths := None;
     inlineComponentData :=
       Some {[ "scss;comp-1;/proj/src/comp.ts" := "a { b: c }" ]} |}.

Definition world : World (gmap string Esbuild.OnLoadResult) :=
  {| sassWorkerPool := None;
     cache := Some ∅;
     files := {[ "/proj/src/a.scss" := "a {"; "/proj/src/ok.scss" := "a { b: c }" ]};
     compilations := [] |}.

Definition file_args (path : string) : Esbuild.OnLoadArgs :=
  {| Esbuild.args_path := path; Esbuild.args_namespace := "file" |}.

Definition component_args (path : string) : Esbuild.OnLoadArgs :=
  {| Esbuild.args_path := path; Esbuild.args_namespace := "angular:styles/component" |}.

Definition load_file (sourcemap : bool) (path : string) :=
  onLoad_file cwd compiler (options sourcemap) (resolveUrl build) (file_args path).

Definition load_component (sourcemap : bool) (path : string) :=
  onLoad_component cwd compiler (options sourcemap) (resolveUrl build) (component_args path).

Definition importer (url : string) (previous : option (list string)) :=
  findFileUrl cwd (resolveUrl build) url
    {| SassService.fromImport := false; SassService.previousResolvedModules := previous |}.

End Demo.

(** ** The importer's resolution order, in the specification's words

    These definitions follow the specification, not the code; the
    theorems below compare [findFileUrl] with them. *)
Module Order.

(** Asks the bundler for [url] from each root in turn and stops at the
    first that yields a path. *)
Fixpoint first_resolved (build : Esbuild.PluginBuild) (url : string)
  (roots : list (option string)) : Resolving (option string) :=
  match roots with
  | [] => mret None
  | root :: rest =>
      result ← build_resolve build url
                 {| Esbuild.kind := "import-rule"; Esbuild.resolveDir := root |};
      if Js.nonempty (Esbuild.path result) then mret (Some (Esbuild.path result))
      else first_resolved build url rest
  end.

(** A package name is scoped when its first segment starts with [@] and a
    second segment follows. *)
Definition scoped (url : string) : bool :=
  match Js.split "/"%char url with
  | scope :: _ :: _ => Js.startsWith "@" scope
  | _ => false
  end.

(** The first two segments of a scoped specifier, the first segment of an
    unscoped one. *)
Definition packageName (url : string) : string :=
  match Js.split "/"%char url with
  | scope :: name :: _ =>
      if Js.startsWith "@" scope then scope +:+ "/" +:+ name else scope
  | [name] => name
  | [] => ""
  end.

(** The segments after the package name. *)
Definition remainingSegments (url : string) : list string :=
  drop (if scoped url then 2 else 1) (Js.split "/"%char url).

Definition manifestOf (url : string) : string := packageName url +:+ "/package.json".

(** The join of the manifest's directory with the remaining segments. *)
Definition deepImport (cwd url manifest : string) : URL :=
  NodeUrl.pathToFileURL cwd
    (NodePath.join (NodePath.dirname manifest :: remainingSegments url)).

(** The strategies of the importer: the bundler's own resolution and the
    deep import through the package manifest, each from the working
    directory alone and then over the fallback roots. *)
Inductive Strategy :=
| Bundler
| Manifest
| BundlerOverFallback
| ManifestOverFallback.

(** The four strategies, in the order the specification gives. *)
Definition strategies : list Strategy :=
  [Bundler; Manifest; BundlerOverFallback; ManifestOverFallback].

(** One strategy.  A search over the fallback roots starts with the
    working directory again, as every call of the resolver does. *)
Definition attempt (cwd : string) (build : Esbuild.PluginBuild) (url : string)
  (fallback : list string) (strategy : Strategy) : Resolving (option URL) :=
  let primary := Esbuild.absWorkingDir (Esbuild.initialOptions build) in
  match strategy with
  | Bundler =>
      found ← first_resolved build url [primary];
      mret (NodeUrl.pathToFileURL cwd <$> found)
  | Manifest =>
      found ← first_resolved build (manifestOf url) [primary];
      mret (deepImport cwd url <$> found)
  | BundlerOverFallback =>
      found ← first_resolved build url (primary :: (Some <$> fallback));
      mret (NodeUrl.pathToFileURL cwd <$> found)
  | ManifestOverFallback =>
      found ← first_resolved build (manifestOf url) (primary :: (Some <$> fallback));
      mret (deepImport cwd url <$> found)
  end.

(** Tries the attempts in order and stops at the first that reports a
    URL; not-found when none does. *)
Fixpoint first_found (attempts : list (Resolving (option URL))) : Resolving (option URL) :=
  match attempts with
  | [] => mret None
  | attempt :: rest =>
      found ← attempt;
      match found with
      | Some url => mret (Some url)
      | None => first_found rest
      end
  end.

Definition resolution (cwd : string) (build : Esbuild.PluginBuild) (url : string)
  (fallback : option (list string)) : Resolving (option URL) :=
  first_found (attempt cwd build url (default [] fallback) <$> strategies).

(** An absolute, normalized path, by its segments. *)
Definition absolute (segments : list string) : string := "/" +:+ Js.join "/" segments.

(** A segment that [normalize] keeps as it is. *)
Definition plain (segment : string) : Prop :=
  segment <> "" /\ segment <> "." /\ segment <> ".."
  /\ Js.contains "/"%char segment = false.

Definition is_plain (segment : string) : bool :=
  Js.nonempty segment && negb (String.eqb segment ".") && negb (String.eqb segment "..")
  && negb (Js.contains "/"%char segment).

(** The name of a package as a deep import spells it: [@scope/name], or
    [name] alone. *)
Inductive Package :=
| Scoped (scope name : string)
| Unscoped (name : string).

Definition name_segments (package : Package) : list string :=
  match package with
  | Scoped scope name => [scope; name]
  | Unscoped name => [name]
  end.

Definition is_package (package : Package) : bool :=
  match package with
  | Scoped scope name =>
      Js.startsWith "@" scope
      && negb (Js.contains "/"%char scope) && negb (Js.contains "/"%char name)
  | Unscoped name => negb (Js.startsWith "@" name) && negb (Js.contains "/"%char name)
  end.

(** The specifier of [path] inside [package], and of the package's
    manifest. *)
Definition specifier (package : Package) (path : list string) : string :=
  Js.join "/" (name_segments package ++ path).

Definition manifest_specifier (package : Package) : string :=
  Js.join "/" (name_segments package) +:+ "/package.json".

(** The options of a bundler resolution from [root]. *)
Definition from (root : option string) : Esbuild.ResolveOptions :=
  {| Esbuild.kind := "import-rule"; Esbuild.resolveDir := root |}.

Definition primary (build : Esbuild.PluginBuild) : option string :=
  Esbuild.absWorkingDir (Esbuild.initialOptions build).

(** The path a bundler resolution found, if any. *)
Definition found_path (result : Esbuild.ResolveResult) : option string :=
  if Js.nonempty (Esbuild.path result) then Some (Esbuild.path result) else None.

End Order.

(** ** Diagnostics, in the specification's words *)

(** The diagnostic the specification asks for a warning of the compiler:
    the fixed text and the original message as a note for a deprecation,
    the original text otherwise; with a span, the line moved from 0-based
    to 1-based and the column kept. *)
Definition Translates (call : string * SassService.LoggerWarnOptions)
  (message : Esbuild.PartialMessage) : Prop :=
  let '(text, options) := call in
  (if SassService.deprecation options
   then Esbuild.text message = Some "Deprecation"
        /\ Esbuild.notes message = Some [{| Esbuild.note_text := Some text |}]
   else Esbuild.text message = Some text /\ Esbuild.notes message = None)
  /\ match SassService.span options with
     | None => Esbuild.location message = None
     | Some span =>
         exists location,
           Esbuild.location message = Some location
           /\ Esbuild.line location = Some (Sass.line (Sass.span_start span) + 1)%Z
           /\ Esbuild.column location = Some (Sass.column (Sass.span_start span))
           /\ Esbuild.lineText location = Sass.span_context span
     end.

(** The span of a warning, if it has a URL, has a file URL. *)
Definition locatable (options : SassService.LoggerWarnOptions) : Prop :=
  forall span url,
    SassService.span options = Some span ->
    Sass.span_url span = Some url ->
    exists file, NodeUrl.fileURLToPath url = Normal file.

(** ** Worlds around a compilation *)

(** The worker a compilation in [w] runs on: the started one, or the one
    the lazy start builds. *)
Definition worker {C} (sassService : SassService.SassWorkerImplementation)
  (w : World C) : SassService.SassWorkerImplementation :=
  default sassService (sassWorkerPool w).

(** The world after one more compilation, of [data] under [options]. *)
Definition compiled {C} (sassService : SassService.SassWorkerImplementation)
  (data : string) (options : SassService.StringOptions) (w : World C) : World C :=
  {| sassWorkerPool := Some (worker sassService w);
     cache := cache w;
     files := files w;
     compilations := compilations w ++ [(data, options)] |}.

(** The world after [key] was written to the cache, if there is one. *)
Definition stored {C} `{LoadResultCache C} (key : string) (result : Esbuild.OnLoadResult)
  (w : World C) : World C :=
  {| sassWorkerPool := sassWorkerPool w;
     cache := (fun store => put store key result) <$> cache w;
     files := files w;
     compilations := compilations w |}.

(** What the cache holds for [key], if there is a cache. *)
Definition cached {C} `{LoadResultCache C} (key : string) (w : World C)
  : option Esbuild.OnLoadResult :=
  store ← cache w; get store key.

(** A result without errors, and a result of one error. *)
Definition success (contents : string) (warnings : list Esbuild.PartialMessage)
  (watchFiles : list string) : Esbuild.OnLoadResult :=
  {| Esbuild.loader := Some "css";
     Esbuild.contents := Some contents;
     Esbuild.errors := None;
     Esbuild.warnings := Some warnings;
     Esbuild.watchFiles := Some watchFiles |}.

Definition failure (message : string) (warnings : list Esbuild.PartialMessage)
  (watchFiles : option (list string)) : Esbuild.OnLoadResult :=
  {| Esbuild.loader := Some "css";
     Esbuild.contents := None;
     Esbuild.errors :=
       Some [{| Esbuild.text := Some message; Esbuild.location := None;
                Esbuild.notes := None |}];
     Esbuild.warnings := Some warnings;
     Esbuild.watchFiles := watchFiles |}.

(** The inline comment that carries a serialised source map. *)
Definition urlComment (sourceMap : SassService.RawSourceMap) : string :=
  "/*# sourceMappingURL=data:application/json;charset=utf-8;base64,"
    +:+ Buffer.toString_base64 (Buffer.from_utf8 (JSON.stringify (JSON.Object sourceMap)))
    +:+ " */".

(** A source that is not a [file:] URL, as a relative path is not. *)
Definition relative_source (source : string) : bool :=
  negb (Js.startsWith "file:" (Js.toLowerCase (NodeUrl.clean source))).

(** ** The handlers around [compileString] *)

(** The text registered for an inline style. *)
Definition inline_data (options : SassPluginOptions) (args : Esbuild.OnLoadArgs)
  : option string :=
  inlineComponentData options ≫= fun entries => entries !! Esbuild.args_path args.

(** How a handler ends once [compileString] has completed in [w1]. *)
Definition finish {C} `{LoadResultCache C} (key : string)
  (completion : Completion Esbuild.OnLoadResult)
  (w1 : World C) : Completion Esbuild.OnLoadResult * World C :=
  match completion with
  | Normal result =>
      match Esbuild.errors result with
      | None => (Normal result, stored key result w1)
      | Some _ => (Normal result, w1)
      end
  | Throw error => (Throw error, w1)
  end.

(** The dialect of a file, by its extension, and of an inline style, by
    the tag its path starts with. *)
Definition file_syntax (path : string) : Sass.Syntax :=
  if String.eqb (Js.toLowerCase (NodePath.extname path)) ".sass"
  then Sass.indented else Sass.scss.

Definition component_syntax (path : string) : Sass.Syntax :=
  if bool_decide (Js.split_limit ";"%char 3 path !! 0%nat = Some "sass")
  then Sass.indented else Sass.scss.

(** The path an inline style names, if its path has a third piece. *)
Definition component_filePath (path : string) : option string :=
  Js.split_limit ";"%char 3 path !! 2%nat.

(** ** Runs of the demonstration project *)
Module Run.

(** The result of a completion that did not throw. *)
Definition value_of {A} (completion : Completion A) (otherwise : A) : A :=
  match completion with
  | Normal a => a
  | Throw _ => otherwise
  end.

Definition no_result : Esbuild.OnLoadResult :=
  {| Esbuild.loader := None; Esbuild.contents := None; Esbuild.errors := None;
     Esbuild.warnings := None; Esbuild.watchFiles := None |}.

Definition importer_options (previous : option (list string))
  : SassService.FileImporterWithRequestContextOptions :=
  {| SassService.fromImport := false; SassService.previousResolvedModules := previous |}.

Definition from_project : Esbuild.ResolveOptions := Order.from (Some "/proj").

(** The source map the stand-in compiler answers for [/proj/src/ok.scss],
    and that map once rewritten. *)
Definition ok_map : SassService.RawSourceMap :=
  [ ("version", JSON.Number 3);
    ("sourceRoot", JSON.Str "");
    ("sources", JSON.Array [JSON.Str "file:///proj/src/ok.scss"]);
    ("names", JSON.Array []);
    ("mappings", JSON.Str "AAAA") ].

Definition ok_map_rewritten : SassService.RawSourceMap :=
  [ ("version", JSON.Number 3);
    ("sourceRoot", JSON.Str "");
    ("sources", JSON.Array [JSON.Str "ok.scss"]);
    ("names", JSON.Array []);
    ("mappings", JSON.Str "AAAA") ].

(** The load of the file with a syntax error, and the world it leaves. *)
Definition failed_load :=
  Demo.load_file false "/proj/src/a.scss" Demo.world.

Definition failed_result : Esbuild.OnLoadResult := value_of failed_load.1 no_result.

(** The load of a file that compiles, and the world it leaves. *)
Definition good_load :=
  Demo.load_file false "/proj/src/ok.scss" Demo.world.

Definition good_result : Esbuild.OnLoadResult := value_of good_load.1 no_result.

(** The load of the registered inline style. *)
Definition inline_load :=
  Demo.load_component false "scss;comp-1;/proj/src/comp.ts" Demo.world.

Definition inline_result : Esbuild.OnLoadResult := value_of inline_load.1 no_result.

End Run.

(** ** Further vocabulary for the properties of the code *)

(** One call of [build.resolve]: [url] asked from [root]. *)
Definition asked (url : string) (root : option string) : ResolveCall :=
  (url, Order.from root).

(** The result the bundler gives for [url] from [root]. *)
Definition answer (build : Esbuild.PluginBuild) (url : string) (root : option string)
  : Esbuild.ResolveResult :=
  Esbuild.resolve build url (Order.from root).

(** Whether the bundler finds [url] from [root]. *)
Definition resolves (build : Esbuild.PluginBuild) (url : string) (root : option string)
  : bool :=
  Js.nonempty (Esbuild.path (answer build url root)).

(** The roots a call of [resolveUrl] may ask, in order. *)
Definition search_roots (build : Esbuild.PluginBuild) (previous : option (list string))
  : list (option string) :=
  Order.primary build :: (Some <$> default [] previous).

(** All the calls of [build.resolve] one call of the importer can make,
    in the order it makes them. *)
Definition importer_plan (build : Esbuild.PluginBuild) (url : string)
  (previous : option (list string)) : list ResolveCall :=
  [asked url (Order.primary build); asked (Order.manifestOf url) (Order.primary build)]
    ++ (asked url <$> search_roots build previous)
    ++ (asked (Order.manifestOf url) <$> search_roots build previous).

(** The absolute path [pathToFileURL] writes, escaped, into the URL of
    [filepath]. *)
Definition url_path (cwd filepath : string) : string :=
  let resolved := NodePath.resolve cwd filepath in
  if Js.endsWith "/" filepath && negb (Js.endsWith "/" resolved)
  then resolved +:+ "/" else resolved.

(** Whether [fileURLToPath] accepts a URL. *)
Definition convertible (url : URL) : bool :=
  match NodeUrl.fileURLToPath url with
  | Normal _ => true
  | Throw _ => false
  end.

(** The compilations one call of [compileString] asks of the worker. *)
Definition requested (cwd : string) (data : string) (filePath : option string)
  (syntax : Sass.Syntax) (options : SassPluginOptions)
  (resolveUrl : string -> option (list string) -> Resolving Esbuild.ResolveResult)
  : list (string * SassService.StringOptions) :=
  match filePath with
  | Some filePath => [(data, compileOptions cwd filePath syntax options resolveUrl)]
  | None => []
  end.

(** What the conversions of [fileURLToPath] throw. *)
Definition conversion_error (error : unknown) : Prop :=
  error = Js.TypeError \/ error = Js.URIError.

(** Whether a source map has an array of [sources]. *)
Definition has_sources (sourceMap : SassService.RawSourceMap) : bool :=
  match JSON.get "sources" sourceMap with
  | Some (JSON.Array _) => true
  | _ => false
  end.

(** ** A compiler whose output names a remote stylesheet *)
Module Remote.

Definition url : URL := mkURL "https:" "cdn.example" "/theme.scss".

(** A stand-in for the compiler: it rejects the text [a {] with a syntax
    error located in the remote stylesheet, answers the text [map] with a
    source map that has no [sources], and otherwise answers the text
    itself as CSS, the remote stylesheet among the loaded URLs. *)
Definition compiler : SassService.SassWorkerImplementation :=
  {| SassService.compileStringAsync data options :=
       if String.eqb data "a {" then
         {| SassService.warned := [];
            SassService.settled :=
              SassService.Rejected (js_Exception (Demo.syntax_error url)) |}
       else if String.eqb data "map" then
         {| SassService.warned := [];
            SassService.settled :=
              SassService.Resolved
                {| SassService.css := data;
                   SassService.result_sourceMap := Some [("version", JSON.Number 3)];
                   SassService.loadedUrls := [SassService.url options] |} |}
       else
         {| SassService.warned := [];
            SassService.settled :=
              SassService.Resolved
                {| SassService.css := data;
                   SassService.result_sourceMap := None;
                   SassService.loadedUrls := [SassService.url options; url] |} |} |}.

Definition compile (data : string) :=
  compileString Demo.cwd compiler data (Some "/proj/src/ok.scss") Sass.scss
    (Demo.options true) (resolveUrl Demo.build) Demo.world.

End Remote.

(** The world once the worker is started. *)
Definition started {C} (sassService : SassService.SassWorkerImplementation)
  (w : World C) : World C :=
  {| sassWorkerPool := Some (worker sassService w);
     cache := cache w;
     files := files w;
     compilations := compilations w |}.

(** ** Two inline styles with the same text *)
Module Twins.

Definition options : SassPluginOptions :=
  {| sourcemap := false;
     loadPaths := None;
     inlineComponentData :=
       Some {[ "scss;comp-1;/proj/src/one.ts" := "a { b: c }";
               "sass;comp-2;/proj/src/two.ts" := "a { b: c }" ]} |}.

Definition load (path : string) :=
  onLoad_component Demo.cwd Demo.compiler options (resolveUrl Demo.build)
    (Demo.component_args path).

Definition first_load := load "scss;comp-1;/proj/src/one.ts" Demo.world.

Definition first_result : Esbuild.OnLoadResult := Run.value_of first_load.1 Run.no_result.

End Twins.

(** What one load, followed alone from its start to its end, may change
    of the world: never the files; the worker only by starting it; the
    compilations by at most one more; the cache only by putting the result
    it returns, and only when that result has no errors. *)
Definition load_changes {C} `{LoadResultCache C}
  (sassService : SassService.SassWorkerImplementation) (w : World C)
  (outcome : Completion Esbuild.OnLoadResult * World C) : Prop :=
  let after := outcome.2 in
  files after = files w
  /\ (sassWorkerPool after = sassWorkerPool w
      \/ sassWorkerPool w = None /\ sassWorkerPool after = Some sassService)
  /\ (exists request,
        compilations after = compilations w ++ request /\ (List.length request <= 1)%nat)
  /\ (cache after = cache w
      \/ exists key result,
           outcome.1 = Normal result
           /\ Esbuild.errors result = None
           /\ cache after = (fun store => put store key result) <$> cache w).

(** Whether one of the rules registered for [namespace] has a filter that
    matches [path]. *)
Definition accepted {C} (rules : list (OnLoadRule (C := C))) (namespace : option string)
  (path : string) : bool :=
  existsb (fun rule => bool_decide (rule_namespace rule = namespace) && rule_filter rule path)
    rules.

(** The path of an inline style, from its pieces. *)
Definition component_path (language id file : string) : string :=
  language +:+ ";" +:+ id +:+ ";" +:+ file.

(** What comes before the payload of a source map comment. *)
Definition comment_head : string :=
  "/*# sourceMappingURL=data:application/json;charset=utf-8;base64,".
(** * Properties *)

(** ** The library functions on small inputs *)

Example join_skips_empty_argument :
  NodePath.join ["/nm/pkg"; ""; "sub"; "path"] = "/nm/pkg/sub/path".
Proof. reflexivity. Qed.

Example join_normalizes :
  NodePath.join ["/nm/pkg/"; "../x"] = "/nm/x".
Proof. reflexivity. Qed.

Example dirname_of_manifest :
  NodePath.dirname "/nm/pkg/package.json" = "/nm/pkg".
Proof. reflexivity. Qed.

Example dirname_edge_cases :
  NodePath.dirname "/a/b//c" = "/a/b/" /\ NodePath.dirname "//a" = "//"
  /\ NodePath.dirname "a" = "." /\ NodePath.dirname "/a" = "/"
  /\ NodePath.dirname "" = ".".
Proof. by repeat split. Qed.

Example extname_cases :
  NodePath.extname "/x/a.b.SASS/" = ".SASS" /\ NodePath.extname "/x/.sass" = ""
  /\ NodePath.extname "/x/.." = "" /\ NodePath.extname "/x/a." = "."
  /\ NodePath.extname "/x/..a" = ".a".
Proof. by repeat split. Qed.

Example relative_cases :
  NodePath.relative "/cwd" "/proj/src" "/proj/src/styles/a.scss" = "styles/a.scss"
  /\ NodePath.relative "/cwd" "/proj/src" "/proj/lib/a.scss" = "../lib/a.scss"
  /\ NodePath.relative "/cwd" "/proj/src" "a.scss" = "../../cwd/a.scss".
Proof. by repeat split. Qed.

Example fileURLToPath_cases :
  NodeUrl.fileURLToPath_string "file:///proj/src/a.scss" = Normal "/proj/src/a.scss"
  /\ NodeUrl.fileURLToPath_string "FILE://localhost/proj%20x" = Normal "/proj x"
  /\ NodeUrl.fileURLToPath_string " file:///proj/a.scss " = Normal "/proj/a.scss"
  /\ NodeUrl.fileURLToPath_string "a.scss" = Throw Js.TypeError
  /\ NodeUrl.fileURLToPath_string "../x/a.scss" = Throw Js.TypeError
  /\ NodeUrl.fileURLToPath_string "http://x/a.scss" = Throw Js.TypeError
  /\ NodeUrl.fileURLToPath_string "file:///proj/a%2Fb" = Throw Js.TypeError
  /\ NodeUrl.fileURLToPath_string "file://host/proj" = Throw Js.TypeError.
Proof. by repeat split. Qed.

Example pathToFileURL_cases :
  NodeUrl.pathToFileURL "/cwd" "/proj/my src/a%.scss"
  = mkURL "file:" "" "/proj/my%20src/a%25.scss"
  /\ NodeUrl.pathToFileURL "/cwd" "x/../y/" = mkURL "file:" "" "/cwd/y/"
  /\ NodeUrl.fileURLToPath (NodeUrl.pathToFileURL "/cwd" "/proj/my src/a%.scss")
     = Normal "/proj/my src/a%.scss".
Proof. by repeat split. Qed.

Example base64_cases :
  Buffer.toString_base64 (Buffer.from_utf8 "Man") = "TWFu"
  /\ Buffer.toString_base64 (Buffer.from_utf8 "Ma") = "TWE="
  /\ Buffer.toString_base64 (Buffer.from_utf8 "M") = "TQ=="
  /\ Buffer.toString_base64 (Buffer.from_utf8 "light work.") = "bGlnaHQgd29yay4=".
Proof. by repeat split. Qed.

Example stringify_source_map :
  Buffer.toString_base64
    (Buffer.from_utf8 (JSON.stringify (JSON.Object Run.ok_map_rewritten)))
  = "eyJ2ZXJzaW9uIjozLCJzb3VyY2VSb290IjoiIiwic291cmNlcyI6WyJvay5zY3NzIl0sIm5hbWVzIjpbXSwibWFwcGluZ3MiOiJBQUFBIn0=".
Proof. reflexivity. Qed.

Example split_cases :
  Js.split "/"%char "" = [""] /\ Js.split "/"%char "pkg" = ["pkg"]
  /\ Js.split "/"%char "@scope/pkg/sub/path" = ["@scope"; "pkg"; "sub"; "path"]
  /\ Js.split_limit ";"%char 3 "scss;comp-1;/proj/src/a;b.ts" = ["scss"; "comp-1"; "/proj/src/a"].
Proof. by repeat split. Qed.

(** ** The plugin on the demonstration project *)

(** The inline style [scss;comp-1;/proj/src/comp.ts], without source
    maps: the compiled rules and no comment. *)
Example inline_style_without_source_map :
  (Demo.load_component false "scss;comp-1;/proj/src/comp.ts" Demo.world).1
  = Normal (success "a { b: c }" [] ["/proj/src/comp.ts"]).
Proof. reflexivity. Qed.

(** An inline style that was not registered fails the assertion. *)
Example inline_style_not_registered :
  (Demo.load_component false "scss;comp-2;/proj/src/comp.ts" Demo.world).1
  = Throw Js.AssertionError.
Proof. reflexivity. Qed.

(** A rejection that is not an exception of the compiler is thrown again,
    and nothing is cached. *)
Example other_rejection_rethrown :
  let w := {| sassWorkerPool := None; cache := Some (∅ : gmap string Esbuild.OnLoadResult);
              files := {[ "/proj/src/c.scss" := "crash" ]}; compilations := [] |} in
  (Demo.load_file false "/proj/src/c.scss" w).1 = Throw (js_Error "Error")
  /\ cache (Demo.load_file false "/proj/src/c.scss" w).2 = Some ∅.
Proof. by split. Qed.

(** The fallback roots are asked in order, after the working directory,
    and the search stops at the first that answers. *)
Example importer_over_fallback_roots :
  Demo.importer "pnp/theme" (Some ["/proj/.yarn/other"; "/proj/.yarn/dep"; "/zzz"])
  = ([("pnp/theme", Order.from (Some "/proj"));
      ("pnp/package.json", Order.from (Some "/proj"));
      ("pnp/theme", Order.from (Some "/proj"));
      ("pnp/theme", Order.from (Some "/proj/.yarn/other"));
      ("pnp/theme", Order.from (Some "/proj/.yarn/dep"))],
     Normal (Some (mkURL "file:" "" "/proj/.yarn/pnp/theme.scss"))).
Proof. reflexivity. Qed.

Example importer_of_empty_specifier :
  (Demo.importer "" None).2 = Normal None.
Proof. reflexivity. Qed.

Example plugin_registers_two_rules :
  rule_namespace
    <$> setup (createSassPlugin Demo.cwd Demo.compiler
                 (C := gmap string Esbuild.OnLoadResult) (Demo.options false)) Demo.build
  = [Some "angular:styles/component"; None].
Proof. reflexivity. Qed.
(** ** Strings and segments *)

Lemma split_nonempty (sep : ascii) (s : string) :
  exists piece pieces, Js.split sep s = piece :: pieces.
Proof.
  induction s as [|c s IH]; simpl.
  - by eexists _, _.
  - destruct (Ascii.eqb c sep); [by eexists _, _|].
    destruct IH as (piece & pieces & ->). by eexists _, _.
Qed.

Lemma contains_cons (sep c : ascii) (s : string) :
  Js.contains sep (String c s) = Ascii.eqb sep c || Js.contains sep s.
Proof. reflexivity. Qed.

Lemma split_plain (sep : ascii) (s : string) :
  Js.contains sep s = false -> Js.split sep s = [s].
Proof.
  induction s as [|c s IH]; [done|].
  rewrite contains_cons. intros [Hc Hs]%orb_false_elim. simpl.
  rewrite Ascii.eqb_sym, Hc, IH; done.
Qed.

Lemma split_app (sep : ascii) (s t : string) :
  Js.contains sep s = false ->
  Js.split sep (s +:+ String sep t) = s :: Js.split sep t.
Proof.
  induction s as [|c s IH]; simpl.
  - intros _. by rewrite Ascii.eqb_refl.
  - rewrite contains_cons. intros [Hc Hs]%orb_false_elim.
    rewrite Ascii.eqb_sym, Hc, IH; done.
Qed.

Lemma split_join (sep : ascii) (pieces : list string) :
  pieces <> [] ->
  Forall (fun piece => Js.contains sep piece = false) pieces ->
  Js.split sep (Js.join (String sep EmptyString) pieces) = pieces.
Proof.
  induction pieces as [|piece rest IH]; [done|]. intros _ Hall.
  apply Forall_cons in Hall as [Hpiece Hrest].
  destruct rest as [|next rest]; simpl.
  - by apply split_plain.
  - change (Js.split sep (piece +:+ String sep (Js.join (String sep EmptyString) (next :: rest)))
            = piece :: next :: rest).
    rewrite split_app by done. f_equal. by apply IH.
Qed.

(** ** The resolution monad *)

Lemma Resolving_bind_ret {A B} (a : A) (k : A -> Resolving B) :
  mret a ≫= k = k a.
Proof. unfold mbind, mret, Resolving_bind, Resolving_ret. by destruct (k a). Qed.

Lemma Resolving_bind_assoc {A B D} (m : Resolving A) (k : A -> Resolving B)
  (k' : B -> Resolving D) :
  (m ≫= k) ≫= k' = m ≫= (fun a => k a ≫= k').
Proof.
  unfold mbind, Resolving_bind. destruct m as [calls [a|e]]; [|done].
  destruct (k a) as [calls1 [b|e]]; [|done].
  destruct (k' b) as [calls2 r]. by rewrite app_assoc.
Qed.

Lemma Resolving_bind_ask {B} (build : Esbuild.PluginBuild) (url : string)
  (options : Esbuild.ResolveOptions) (k : Esbuild.ResolveResult -> Resolving B) :
  build_resolve build url options ≫= k =
  ((url, options) :: fst (k (Esbuild.resolve build url options)),
   snd (k (Esbuild.resolve build url options))).
Proof. unfold mbind, Resolving_bind, build_resolve. by destruct (k _). Qed.

Lemma Resolving_bind_completed {A B} (a : A) (k : A -> Resolving B) :
  completed (Normal a) ≫= k = k a.
Proof. apply Resolving_bind_ret. Qed.

(** ** [resolveUrl] against the specification's search over roots *)

Lemma resolvePrevious_cons build url root rest result0 :
  resolvePrevious build url (root :: rest) result0
  = (build_resolve build url
       {| Esbuild.kind := "import-rule"; Esbuild.resolveDir := Some root |}
       ≫= fun result =>
            if Js.nonempty (Esbuild.path result) then mret result
            else resolvePrevious build url rest result).
Proof. reflexivity. Qed.

Lemma first_resolved_cons build url root rest :
  Order.first_resolved build url (root :: rest)
  = (build_resolve build url
       {| Esbuild.kind := "import-rule"; Esbuild.resolveDir := root |}
       ≫= fun result =>
            if Js.nonempty (Esbuild.path result) then mret (Some (Esbuild.path result))
            else Order.first_resolved build url rest).
Proof. reflexivity. Qed.

Lemma resolvePrevious_first_resolved build url previous result0 :
  Order.found_path result0 = None ->
  exists calls result,
    resolvePrevious build url previous result0 = (calls, Normal result)
    /\ Order.first_resolved build url (Some <$> previous) = (calls, Normal (Order.found_path result)).
Proof.
  revert result0. induction previous as [|root rest IH]; intros result0 Hmiss.
  - exists [], result0. by rewrite Hmiss.
  - rewrite fmap_cons, resolvePrevious_cons, first_resolved_cons, !Resolving_bind_ask.
    set (result := Esbuild.resolve build url _).
    destruct (Js.nonempty (Esbuild.path result)) eqn:Hfound.
    + exists [(url, {| Esbuild.kind := "import-rule"; Esbuild.resolveDir := Some root |})], result.
      unfold Order.found_path. by rewrite Hfound.
    + destruct (IH result) as (calls & result' & -> & ->).
      { unfold Order.found_path. by rewrite Hfound. }
      by eexists _, _.
Qed.

Lemma resolveUrl_first_resolved build url previous :
  exists calls result,
    resolveUrl build url previous = (calls, Normal result)
    /\ Order.first_resolved build url (Order.primary build :: (Some <$> default [] previous))
       = (calls, Normal (Order.found_path result)).
Proof.
  unfold resolveUrl. rewrite first_resolved_cons, !Resolving_bind_ask. fold (Order.primary build).
  set (result := Esbuild.resolve build url _).
  destruct (Js.nonempty (Esbuild.path result)) eqn:Hfound.
  - exists [(url, {| Esbuild.kind := "import-rule"; Esbuild.resolveDir := Order.primary build |})], result.
    unfold Order.found_path. rewrite Hfound.
    destruct previous as [[|root rest]|]; done.
  - destruct previous as [[|root rest]|]; simpl.
    + eexists _, result. unfold Order.found_path. by rewrite Hfound.
    + destruct (resolvePrevious_first_resolved build url (root :: rest) result)
        as (calls & result' & Hcode & Hspec).
      { unfold Order.found_path. by rewrite Hfound. }
      simpl in Hcode, Hspec. rewrite Hcode, Hspec. by eexists _, _.
    + eexists _, result. unfold Order.found_path. by rewrite Hfound.
Qed.

(** What follows a call of [resolveUrl] only reads whether a path was
    found, and which. *)
Lemma resolveUrl_bind {B} build url previous
  (found : string -> Resolving B) (missing : Resolving B) :
  (resolveUrl build url previous ≫= fun result =>
     if Js.nonempty (Esbuild.path result) then found (Esbuild.path result) else missing)
  = (Order.first_resolved build url (Order.primary build :: (Some <$> default [] previous))
       ≫= fun path => match path with Some path => found path | None => missing end).
Proof.
  destruct (resolveUrl_first_resolved build url previous) as (calls & result & -> & ->).
  unfold mbind, Resolving_bind, Order.found_path.
  by destruct (Js.nonempty (Esbuild.path result)).
Qed.

(** ** The importer against the specification's order *)

Lemma hasScope_scoped (url : string) :
  (if (2 <=? List.length (Js.split "/"%char url))%nat
   then invoke (Js.split "/"%char url !! 0%nat) (Js.startsWith "@")
   else Normal false) = Normal (Order.scoped url).
Proof.
  unfold Order.scoped. by destruct (Js.split "/"%char url) as [|scope [|name rest]].
Qed.

Lemma packageName_code (url : string) :
  (if Order.scoped url
   then to_string (Js.split "/"%char url !! 0%nat) +:+ "/"
          +:+ to_string (Js.split "/"%char url !! 1%nat)
   else to_string (Js.split "/"%char url !! 0%nat)) = Order.packageName url.
Proof.
  unfold Order.scoped, Order.packageName.
  destruct (split_nonempty "/"%char url) as (scope & rest & ->).
  destruct rest as [|name rest]; [done|]. simpl. by destruct (Js.startsWith "@" scope).
Qed.

Lemma join_skips_empty (args args' : list string) :
  filter (fun arg => Js.nonempty arg = true) args
  = filter (fun arg => Js.nonempty arg = true) args' ->
  NodePath.join args = NodePath.join args'.
Proof. unfold NodePath.join. by intros ->. Qed.

Lemma deepImport_code (url dir : string) :
  NodePath.join
    (dir
       :: (if negb (Order.scoped url) && Js.truthy_str (Js.split "/"%char url !! 1%nat)
           then to_string (Js.split "/"%char url !! 1%nat) else "")
       :: drop 2 (Js.split "/"%char url))
  = NodePath.join (dir :: Order.remainingSegments url).
Proof.
  apply join_skips_empty. unfold Order.remainingSegments, Order.scoped.
  destruct (Js.split "/"%char url) as [|scope [|name rest]]; [done..|].
  destruct (Js.startsWith "@" scope); simpl.
  - rewrite !filter_cons. repeat case_decide; done.
  - rewrite !filter_cons. destruct (Js.nonempty name) eqn:Hname;
      repeat case_decide; done || congruence.
Qed.

Lemma findFileUrl_resolution cwd build url options :
  findFileUrl cwd (resolveUrl build) url options
  = Order.resolution cwd build url (SassService.previousResolvedModules options).
Proof.
  destruct (resolveUrl_first_resolved build url None) as (c1 & r1 & E1 & S1).
  destruct (resolveUrl_first_resolved build (Order.manifestOf url) None)
    as (c2 & r2 & E2 & S2).
  destruct (resolveUrl_first_resolved build url (SassService.previousResolvedModules options))
    as (c3 & r3 & E3 & S3).
  destruct (resolveUrl_first_resolved build (Order.manifestOf url)
              (SassService.previousResolvedModules options)) as (c4 & r4 & E4 & S4).
  unfold Order.resolution, Order.strategies.
  rewrite !fmap_cons. cbn [Order.first_found Order.attempt fmap list_fmap].
  fold (Order.primary build).
  change (Order.primary build :: (Some <$> default [] None)) with [Order.primary build] in S1, S2.
  rewrite S1, S2, S3, S4.
  unfold findFileUrl. cbv zeta.
  rewrite hasScope_scoped, Resolving_bind_completed, packageName_code.
  fold (Order.manifestOf url). rewrite E1, E2, E3, E4.
  unfold Order.found_path, Order.deepImport, mbind, Resolving_bind, mret, Resolving_ret.
  destruct (Js.nonempty (Esbuild.path r1)); cbn [fmap option_fmap option_map];
    [by rewrite !app_nil_r|].
  destruct (Js.nonempty (Esbuild.path r2)); cbn [fmap option_fmap option_map];
    [by rewrite deepImport_code, !app_nil_r|].
  destruct (Js.nonempty (Esbuild.path r3)); cbn [fmap option_fmap option_map];
    [by rewrite !app_nil_r|].
  destruct (Js.nonempty (Esbuild.path r4)); cbn [fmap option_fmap option_map];
    by rewrite ?deepImport_code, !app_nil_r.
Qed.

(** ** [join] on plain segments *)

Lemma append_cons (c : ascii) (s t : string) : String c s +:+ t = String c (s +:+ t).
Proof. reflexivity. Qed.

Lemma append_nil_r (s : string) : s +:+ "" = s.
Proof. induction s as [|c s IH]; [done|by rewrite append_cons, IH]. Qed.

Lemma append_assoc (s t u : string) : (s +:+ t) +:+ u = s +:+ (t +:+ u).
Proof. induction s as [|c s IH]; [done|by rewrite !append_cons, IH]. Qed.

Lemma chars_append (s t : string) :
  list_ascii_of_string (s +:+ t) = list_ascii_of_string s ++ list_ascii_of_string t.
Proof. induction s as [|c s IH]; [done|rewrite append_cons; simpl; by rewrite IH]. Qed.

Lemma contains_elem_of (c : ascii) (s : string) :
  Js.contains c s = false -> c ∉ list_ascii_of_string s.
Proof.
  induction s as [|c' s IH]; simpl.
  - intros _. apply not_elem_of_nil.
  - rewrite contains_cons. intros [Hc Hs]%orb_false_elim.
    apply not_elem_of_cons. split; [|by apply IH].
    intros ->. by rewrite Ascii.eqb_refl in Hc.
Qed.

Lemma join_snoc (sep : string) (pieces : list string) (piece : string) :
  pieces <> [] ->
  Js.join sep (pieces ++ [piece]) = Js.join sep pieces +:+ sep +:+ piece.
Proof.
  induction pieces as [|first rest IH]; [done|]. intros _.
  destruct rest as [|next rest]; [done|].
  change (first +:+ sep +:+ Js.join sep ((next :: rest) ++ [piece])
          = (first +:+ sep +:+ Js.join sep (next :: rest)) +:+ sep +:+ piece).
  rewrite IH by done. by rewrite !append_assoc.
Qed.

Lemma join_cons (sep : string) (piece : string) (pieces : list string) :
  pieces <> [] ->
  Js.join sep (piece :: pieces) = piece +:+ sep +:+ Js.join sep pieces.
Proof. by destruct pieces. Qed.

(** A string that ends with a plain segment does not end with a slash. *)
Lemma endsWith_slash_plain (before segment : string) :
  Order.plain segment -> Js.endsWith "/" (before +:+ segment) = false.
Proof.
  intros (Hne & _ & _ & Hslash). unfold Js.endsWith.
  apply bool_decide_eq_false. intros [k Hk].
  rewrite chars_append in Hk. apply contains_elem_of in Hslash.
  destruct (decide (list_ascii_of_string segment = [])) as [Hnil|Hcons].
  - by destruct segment.
  - destruct (exists_last Hcons) as (cs & c & Hseg). rewrite Hseg in Hk, Hslash.
    rewrite app_assoc in Hk. apply app_inj_tail in Hk as [_ ->].
    apply Hslash. set_solver.
Qed.

Lemma normalizeSegments_plain (allowAboveRoot : bool) (segments res : list string) :
  Forall Order.plain segments ->
  NodePath.normalizeSegments allowAboveRoot segments res = rev res ++ segments.
Proof.
  revert res. induction segments as [|segment rest IH]; intros res Hall; simpl.
  - by rewrite app_nil_r.
  - apply Forall_cons in Hall as [(Hne & Hdot & Hdots & _) Hrest].
    destruct (String.eqb_spec segment ""); [done|].
    destruct (String.eqb_spec segment "."); [done|].
    destruct (String.eqb_spec segment ".."); [done|]. simpl.
    rewrite IH by done. simpl. by rewrite <- app_assoc.
Qed.

Lemma plain_slash_free (segments : list string) :
  Forall Order.plain segments ->
  Forall (fun piece => Js.contains "/"%char piece = false) segments.
Proof.
  intros Hall. eapply Forall_impl; [exact Hall|]. by intros segment (_ & _ & _ & ?).
Qed.

Lemma isAbsolute_slash (s : string) : NodePath.isAbsolute (String "/"%char s) = true.
Proof. unfold NodePath.isAbsolute, Js.startsWith. simpl. by destruct s. Qed.

Lemma normalizeSegments_empty (allowAboveRoot : bool) (empties segments res : list string) :
  Forall (eq "") empties ->
  NodePath.normalizeSegments allowAboveRoot (empties ++ segments) res
  = NodePath.normalizeSegments allowAboveRoot segments res.
Proof.
  induction 1 as [|empty empties <- _ IH]; [done|]. exact IH.
Qed.

Lemma join_app (sep : string) (pieces pieces' : list string) :
  pieces <> [] -> pieces' <> [] ->
  Js.join sep (pieces ++ pieces') = Js.join sep pieces +:+ sep +:+ Js.join sep pieces'.
Proof.
  intros Hne Hne'. induction pieces as [|first rest IH]; [done|].
  destruct rest as [|next rest].
  - by destruct pieces'.
  - change (first +:+ sep +:+ Js.join sep ((next :: rest) ++ pieces')
            = (first +:+ sep +:+ Js.join sep (next :: rest)) +:+ sep +:+ Js.join sep pieces').
    rewrite IH by done. by rewrite !append_assoc.
Qed.

(** Normalizing an absolute path whose segments are plain, after any
    number of empty ones, gives the plain segments. *)
Lemma normalize_absolute (empties segments : list string) :
  Forall (eq "") empties ->
  Forall Order.plain segments ->
  (segments = [] -> empties = []) ->
  NodePath.normalize (Order.absolute (empties ++ segments)) = Order.absolute segments.
Proof.
  intros Hempties Hall Hroot. unfold NodePath.normalize, Order.absolute.
  change ("/" +:+ Js.join "/" (empties ++ segments))
    with (String "/"%char (Js.join "/" (empties ++ segments))).
  rewrite isAbsolute_slash. cbn [String.eqb].
  destruct (decide (segments = [])) as [->|Hcons]; [by rewrite Hroot|].
  destruct (exists_last Hcons) as (rest & segment & ->). clear Hcons Hroot.
  assert (Hsplit :
    Js.split NodePath.slash (String "/"%char (Js.join "/" (empties ++ rest ++ [segment])))
    = "" :: empties ++ rest ++ [segment]).
  { cbn [Js.split]. unfold NodePath.slash. rewrite Ascii.eqb_refl. f_equal.
    apply (split_join "/"%char); [by destruct empties, rest|].
    apply Forall_app. split; [|by apply plain_slash_free].
    eapply Forall_impl; [exact Hempties|]. by intros ? <-. }
  rewrite Hsplit. cbn [NodePath.normalizeSegments String.eqb orb].
  rewrite normalizeSegments_empty, normalizeSegments_plain by done. cbn [rev app].
  apply Forall_app in Hall as [_ Hseg%Forall_inv].
  assert (Hend :
    Js.endsWith "/" (String "/"%char (Js.join "/" (empties ++ rest ++ [segment]))) = false).
  { rewrite app_assoc. destruct (empties ++ rest) as [|first before].
    - apply (endsWith_slash_plain "/" segment Hseg).
    - rewrite join_snoc, <- append_assoc, <- append_cons by done.
      by apply endsWith_slash_plain. }
  rewrite Hend.
  destruct (String.eqb_spec (Js.join "/" (rest ++ [segment])) "") as [Hempty|_].
  - exfalso. destruct Hseg as (Hne & _). destruct rest as [|first rest].
    + exact (Hne Hempty).
    + rewrite join_snoc in Hempty by done.
      destruct (Js.join "/" (first :: rest)); destruct segment; done.
  - by rewrite append_nil_r.
Qed.

Lemma plain_nonempty (segments : list string) :
  Forall Order.plain segments ->
  filter (fun arg => Js.nonempty arg = true) segments = segments.
Proof.
  induction 1 as [|segment rest (Hne & _) _ IH]; [done|].
  rewrite filter_cons, IH. unfold Js.nonempty.
  destruct (String.eqb_spec segment ""); [done|]. by case_decide.
Qed.

(** [join] of a normalized absolute directory and plain segments appends
    the segments to the directory. *)
Lemma join_absolute (dir segments : list string) :
  Forall Order.plain dir ->
  Forall Order.plain segments ->
  NodePath.join (Order.absolute dir :: segments) = Order.absolute (dir ++ segments).
Proof.
  intros Hdir Hsegments. unfold NodePath.join.
  rewrite filter_cons, plain_nonempty by done.
  change (Js.nonempty (Order.absolute dir)) with true. case_decide; [|done].
  destruct dir as [|first dir].
  - destruct segments as [|segment rest].
    + apply (normalize_absolute [] []); done.
    + change (Js.join "/" (Order.absolute [] :: segment :: rest))
        with (Order.absolute ([""] ++ segment :: rest)).
      apply normalize_absolute; [by repeat constructor|done..].
  - destruct segments as [|segment rest].
    + rewrite app_nil_r. apply (normalize_absolute []); done.
    + rewrite join_cons by done. unfold Order.absolute at 1.
      rewrite append_assoc, <- join_app by done.
      apply (normalize_absolute [] ((first :: dir) ++ segment :: rest)); [done| |done].
      by apply Forall_app.
Qed.

(** ** The searches never throw *)

Lemma first_resolved_returns build url roots :
  exists calls found, Order.first_resolved build url roots = (calls, Normal found).
Proof.
  induction roots as [|root rest (calls & found & IH)]; [by eexists _, _|].
  rewrite first_resolved_cons, Resolving_bind_ask.
  destruct (Js.nonempty _); [by eexists _, _|]. rewrite IH. by eexists _, _.
Qed.

Lemma first_resolved_single build url root :
  Order.first_resolved build url [root]
  = ([(url, Order.from root)],
     Normal (Order.found_path (Esbuild.resolve build url (Order.from root)))).
Proof.
  rewrite first_resolved_cons, Resolving_bind_ask. unfold Order.found_path, Order.from.
  by destruct (Js.nonempty _).
Qed.

Lemma first_resolved_miss build url roots :
  (forall root, Esbuild.path (Esbuild.resolve build url (Order.from root)) = "") ->
  Order.first_resolved build url roots
  = ((fun root => (url, Order.from root)) <$> roots, Normal None).
Proof.
  intros Hmiss. induction roots as [|root rest IH]; [done|].
  rewrite first_resolved_cons, Resolving_bind_ask. fold (Order.from root).
  by rewrite Hmiss, IH.
Qed.

Lemma attempt_returns cwd build url fallback strategy :
  exists calls found,
    Order.attempt cwd build url fallback strategy = (calls, Normal found).
Proof.
  destruct strategy; unfold Order.attempt;
    match goal with
    | |- context [Order.first_resolved ?b ?u ?r] =>
        destruct (first_resolved_returns b u r) as (calls & found & ->)
    end; by eexists _, _.
Qed.

Lemma first_found_returns attempts :
  Forall (fun attempt => exists calls found, attempt = (calls, Normal found)) attempts ->
  exists calls found, Order.first_found attempts = (calls, Normal found).
Proof.
  induction 1 as [|attempt rest (calls & found & ->) _ (calls' & found' & IH)];
    [by eexists _, _|].
  cbn [Order.first_found]. unfold mbind, Resolving_bind.
  destruct found; [by eexists _, _|]. rewrite IH. by eexists _, _.
Qed.

Lemma resolution_returns cwd build url fallback :
  exists calls found, Order.resolution cwd build url fallback = (calls, Normal found).
Proof.
  apply first_found_returns, Forall_fmap, Forall_forall.
  intros strategy _. apply attempt_returns.
Qed.

(** ** What the importer reports from a manifest *)

Lemma findFileUrl_manifest cwd build url options manifest calls1 calls2 :
  Order.first_resolved build url [Order.primary build] = (calls1, Normal None) ->
  Order.first_resolved build (Order.manifestOf url) [Order.primary build]
    = (calls2, Normal (Some manifest)) ->
  findFileUrl cwd (resolveUrl build) url options
  = (calls1 ++ calls2, Normal (Some (Order.deepImport cwd url manifest))).
Proof.
  intros H1 H2. rewrite findFileUrl_resolution.
  unfold Order.resolution, Order.strategies. rewrite !fmap_cons.
  cbn [Order.first_found Order.attempt]. fold (Order.primary build).
  rewrite H1, H2. unfold mbind, Resolving_bind, mret, Resolving_ret.
  cbn [fmap option_fmap option_map]. by rewrite !app_nil_r.
Qed.

Lemma findFileUrl_manifest_fallback cwd build url options manifest
  calls1 calls2 calls3 calls4 :
  let roots :=
    Order.primary build
      :: (Some <$> default [] (SassService.previousResolvedModules options)) in
  Order.first_resolved build url [Order.primary build] = (calls1, Normal None) ->
  Order.first_resolved build (Order.manifestOf url) [Order.primary build]
    = (calls2, Normal None) ->
  Order.first_resolved build url roots = (calls3, Normal None) ->
  Order.first_resolved build (Order.manifestOf url) roots
    = (calls4, Normal (Some manifest)) ->
  findFileUrl cwd (resolveUrl build) url options
  = (calls1 ++ calls2 ++ calls3 ++ calls4,
     Normal (Some (Order.deepImport cwd url manifest))).
Proof.
  intros roots H1 H2 H3 H4. rewrite findFileUrl_resolution.
  unfold Order.resolution, Order.strategies. rewrite !fmap_cons.
  cbn [Order.first_found Order.attempt]. fold (Order.primary build). fold roots.
  rewrite H1, H2, H3, H4. unfold mbind, Resolving_bind, mret, Resolving_ret.
  cbn [fmap option_fmap option_map]. by rewrite !app_nil_r.
Qed.

Lemma is_plain_plain (segments : list string) :
  forallb Order.is_plain segments = true -> Forall Order.plain segments.
Proof.
  induction segments as [|segment rest IH]; [done|]. cbn [forallb].
  intros [Hseg Hrest]%andb_true_iff. constructor; [|by apply IH].
  unfold Order.is_plain, Js.nonempty in Hseg.
  apply andb_true_iff in Hseg as [[[H1 H2]%andb_true_iff H3]%andb_true_iff H4].
  apply negb_true_iff in H1, H2, H3, H4.
  repeat split; try (by apply String.eqb_neq); done.
Qed.

Lemma specifier_segments (package : Order.Package) (path : list string) :
  Order.is_package package = true ->
  Forall Order.plain path ->
  Order.manifestOf (Order.specifier package path) = Order.manifest_specifier package
  /\ Order.remainingSegments (Order.specifier package path) = path.
Proof.
  intros Hpackage Hpath%plain_slash_free.
  unfold Order.manifestOf, Order.manifest_specifier, Order.packageName,
    Order.remainingSegments, Order.scoped, Order.specifier.
  rewrite (split_join "/"%char).
  - destruct package as [scope name|name]; simpl in *.
    + apply andb_true_iff in Hpackage as [[-> _]%andb_true_iff _]. done.
    + apply andb_true_iff in Hpackage as [->%negb_true_iff _].
      by destruct path.
  - by destruct package.
  - apply Forall_app. split; [|done].
    destruct package as [scope name|name]; simpl in Hpackage.
    + apply andb_true_iff in Hpackage as [[_ ?%negb_true_iff]%andb_true_iff ?%negb_true_iff].
      by repeat constructor.
    + apply andb_true_iff in Hpackage as [_ ?%negb_true_iff]. by repeat constructor.
Qed.

(** ** The importer: claims C3, C4 and C9 *)

(** C4.  For every import URL the importer tries, in this order and
    stopping at the first that yields a path: the bundler from the working
    directory, the package manifest from the working directory, the bundler
    again over the fallback roots, the package manifest over the fallback
    roots.  It never throws, and when no strategy yields a path it
    reports not-found. *)
Theorem importer_tries_strategies_in_order cwd build url options :
  let fallback := default [] (SassService.previousResolvedModules options) in
  findFileUrl cwd (resolveUrl build) url options
  = Order.first_found
      (Order.attempt cwd build url fallback
         <$> [Order.Bundler; Order.Manifest;
              Order.BundlerOverFallback; Order.ManifestOverFallback])
  /\ (exists calls found,
        findFileUrl cwd (resolveUrl build) url options = (calls, Normal found))
  /\ ((forall strategy, snd (Order.attempt cwd build url fallback strategy) = Normal None) ->
      snd (findFileUrl cwd (resolveUrl build) url options) = Normal None).
Proof.
  intros fallback. split; [apply findFileUrl_resolution|]. split.
  - rewrite findFileUrl_resolution. apply resolution_returns.
  - intros Hnone. rewrite findFileUrl_resolution.
    unfold Order.resolution, Order.strategies. rewrite !fmap_cons. fold fallback.
    cbn [Order.first_found fmap list_fmap].
    pose proof (Hnone Order.Bundler) as H1. pose proof (Hnone Order.Manifest) as H2.
    pose proof (Hnone Order.BundlerOverFallback) as H3.
    pose proof (Hnone Order.ManifestOverFallback) as H4.
    destruct (Order.attempt cwd build url fallback Order.Bundler) as [c1 r1].
    destruct (Order.attempt cwd build url fallback Order.Manifest) as [c2 r2].
    destruct (Order.attempt cwd build url fallback Order.BundlerOverFallback) as [c3 r3].
    destruct (Order.attempt cwd build url fallback Order.ManifestOverFallback) as [c4 r4].
    simpl in H1, H2, H3, H4. by subst.
Qed.

(** C3.  A deep import of a package whose manifest the bundler finds in
    directory D is reported as the join of D with the path segments after
    the package name - D/sub/path for [@scope/pkg/sub/path] and for
    [pkg/sub/path] alike, nothing inserted - whether the manifest is found
    from the working directory or over the fallback roots; the bundler is
    asked for the specifier and the manifest only, so the reported path is
    not checked to exist. *)
Theorem deep_import_reports_join_with_manifest_directory
  cwd build options package path dir manifest calls1 calls2 :
  let url := Order.specifier package path in
  let roots :=
    Order.primary build
      :: (Some <$> default [] (SassService.previousResolvedModules options)) in
  let reported := NodePath.join (NodePath.dirname manifest :: path) in
  Order.is_package package = true ->
  forallb Order.is_plain path = true ->
  forallb Order.is_plain dir = true ->
  NodePath.dirname manifest = Order.absolute dir ->
  Order.first_resolved build url [Order.primary build] = (calls1, Normal None) ->
  reported = Order.absolute (dir ++ path)
  /\ (Order.first_resolved build (Order.manifest_specifier package) [Order.primary build]
        = (calls2, Normal (Some manifest)) ->
      findFileUrl cwd (resolveUrl build) url options
      = (calls1 ++ calls2, Normal (Some (NodeUrl.pathToFileURL cwd reported))))
  /\ (forall calls3 calls4,
        Order.first_resolved build (Order.manifest_specifier package) [Order.primary build]
          = (calls2, Normal None) ->
        Order.first_resolved build url roots = (calls3, Normal None) ->
        Order.first_resolved build (Order.manifest_specifier package) roots
          = (calls4, Normal (Some manifest)) ->
        findFileUrl cwd (resolveUrl build) url options
        = (calls1 ++ calls2 ++ calls3 ++ calls4,
           Normal (Some (NodeUrl.pathToFileURL cwd reported)))).
Proof.
  intros url roots reported Hpackage Hpath%is_plain_plain Hdir%is_plain_plain Hmanifest Hmiss.
  destruct (specifier_segments package path Hpackage Hpath) as [Hname Hrest].
  fold url in Hname, Hrest. split; [|split].
  - unfold reported. rewrite Hmanifest. by apply join_absolute.
  - intros Hfound. rewrite <- Hname in Hfound.
    rewrite (findFileUrl_manifest _ _ _ _ _ _ _ Hmiss Hfound).
    unfold Order.deepImport. by rewrite Hrest.
  - intros calls3 calls4 Hmiss2 Hmiss3 Hfound. rewrite <- Hname in Hmiss2, Hfound.
    rewrite (findFileUrl_manifest_fallback _ _ _ _ _ _ _ _ _ Hmiss Hmiss2 Hmiss3 Hfound).
    unfold Order.deepImport. by rewrite Hrest.
Qed.

Lemma first_resolved_origin build url roots calls found :
  Order.first_resolved build url roots = (calls, Normal (Some found)) ->
  exists root,
    root ∈ roots /\ resolves build url root = true
    /\ found = Esbuild.path (answer build url root).
Proof.
  revert calls. induction roots as [|root rest IH]; intros calls; [done|].
  rewrite first_resolved_cons, Resolving_bind_ask.
  fold (Order.from root). fold (answer build url root). fold (resolves build url root).
  destruct (resolves build url root) eqn:Hroot.
  - intros [= _ <-]. exists root. split; [by left|done].
  - destruct (Order.first_resolved build url rest) as [calls' completion] eqn:Hrest.
    cbn [fst snd]. intros [= _ ->].
    destruct (IH calls' eq_refl) as (root' & Hin & Hfound & ->).
    exists root'. split; [by right|done].
Qed.

Lemma first_resolved_after_misses build url missed rest :
  Forall (fun root => resolves build url root = false) missed ->
  Order.first_resolved build url (missed ++ rest)
  = ((asked url <$> missed) ++ (Order.first_resolved build url rest).1,
     (Order.first_resolved build url rest).2).
Proof.
  induction 1 as [|root missed Hroot _ IH]; [by destruct (Order.first_resolved _ _ _)|].
  cbn [app]. rewrite first_resolved_cons, Resolving_bind_ask.
  fold (Order.from root). fold (answer build url root). fold (resolves build url root).
  by rewrite Hroot, IH.
Qed.

Lemma first_resolved_hit build url root later :
  resolves build url root = true ->
  Order.first_resolved build url (root :: later)
  = ([asked url root], Normal (Some (Esbuild.path (answer build url root)))).
Proof.
  intros Hroot. rewrite first_resolved_cons, Resolving_bind_ask.
  fold (Order.from root). fold (answer build url root). fold (resolves build url root).
  by rewrite Hroot.
Qed.

Lemma first_resolved_missed build url root :
  resolves build url root = false ->
  Order.first_resolved build url [root] = ([asked url root], Normal None).
Proof.
  intros Hmiss. rewrite first_resolved_single. unfold Order.found_path.
  fold (answer build url root). fold (resolves build url root). by rewrite Hmiss.
Qed.

(** C9.  The importer never throws, the empty specifier included, and
    reports not-found when the bundler resolves neither the specifier nor
    its manifest from any root.  For a specifier without a slash the
    manifest looked up is [<specifier>/package.json] itself, and what the
    importer reports is either a path the bundler found for the specifier
    or the directory of a manifest the bundler found, with no segment
    appended: never a deep-imported subpath.  It reports that directory
    when the manifest is found from the working directory, and when it is
    found only from a previously resolved module. *)
Theorem plain_package_reports_manifest_directory cwd build url options :
  let importer := findFileUrl cwd (resolveUrl build) url options in
  let primary := Order.primary build in
  let previous := default [] (SassService.previousResolvedModules options) in
  let roots := search_roots build (SassService.previousResolvedModules options) in
  let manifest := url +:+ "/package.json" in
  let directory root :=
    NodeUrl.pathToFileURL cwd
      (NodePath.join [NodePath.dirname (Esbuild.path (answer build manifest root))]) in
  (exists calls found, importer = (calls, Normal found))
  /\ ((forall root, Esbuild.path (Esbuild.resolve build url (Order.from root)) = "") ->
      (forall root,
         Esbuild.path (Esbuild.resolve build (Order.manifestOf url) (Order.from root)) = "") ->
      importer.2 = Normal None)
  /\ (Js.contains "/"%char url = false ->
      (forall reported,
         importer.2 = Normal (Some reported) ->
         (exists root,
            root ∈ roots /\ resolves build url root = true
            /\ reported = NodeUrl.pathToFileURL cwd (Esbuild.path (answer build url root)))
         \/ (exists root,
               root ∈ roots /\ resolves build manifest root = true
               /\ reported = directory root))
      /\ (resolves build url primary = false ->
          resolves build manifest primary = true ->
          importer
          = ([asked url primary; asked manifest primary], Normal (Some (directory primary))))
      /\ (forall missed root later,
            previous = missed ++ root :: later ->
            Forall (fun root => resolves build url root = false) roots ->
            resolves build manifest primary = false ->
            Forall (fun root => resolves build manifest (Some root) = false) missed ->
            resolves build manifest (Some root) = true ->
            importer
            = ([asked url primary; asked manifest primary]
                 ++ (asked url <$> roots)
                 ++ (asked manifest <$> primary :: (Some <$> (missed ++ [root]))),
               Normal (Some (directory (Some root))))))
  /\ (forall file dir,
        forallb Order.is_plain dir = true ->
        NodePath.dirname file = Order.absolute dir ->
        NodePath.join [NodePath.dirname file] = Order.absolute dir).
Proof.
  intros importer primary previous roots manifest directory.
  split; [|split; [|split]].
  - subst importer. rewrite findFileUrl_resolution. apply resolution_returns.
  - intros Hurl Hmanifest. subst importer. rewrite findFileUrl_resolution.
    unfold Order.resolution, Order.strategies. rewrite !fmap_cons.
    cbn [Order.first_found Order.attempt fmap list_fmap].
    by rewrite !(first_resolved_miss _ _ _ Hurl), !(first_resolved_miss _ _ _ Hmanifest).
  - intros Hslash.
    assert (Hname : Order.manifestOf url = manifest).
    { unfold Order.manifestOf, Order.packageName. by rewrite split_plain. }
    assert (Hrest : Order.remainingSegments url = []).
    { unfold Order.remainingSegments, Order.scoped. by rewrite split_plain. }
    assert (Hprimary : primary ∈ roots) by (by left).
    split; [|split].
    + intros reported. subst importer. rewrite findFileUrl_resolution.
      unfold Order.resolution, Order.strategies. rewrite !fmap_cons.
      cbn [Order.first_found Order.attempt fmap list_fmap].
      fold (Order.primary build). fold primary. fold previous. rewrite Hname.
      change (primary :: (Some <$> previous)) with roots.
      unfold Order.deepImport. rewrite Hrest. fold (directory primary).
      destruct (Order.first_resolved build url [primary]) as [calls1 [[found1|]|error1]]
        eqn:H1; [| |by destruct (first_resolved_returns build url [primary])
                         as (? & ? & [=])].
      { apply first_resolved_origin in H1 as (root & ->%list_elem_of_singleton & Hroot & ->).
        cbn. intros [= <-]. left. by exists primary. }
      destruct (Order.first_resolved build manifest [primary])
        as [calls2 [[found2|]|error2]] eqn:H2;
        [| |by destruct (first_resolved_returns build manifest [primary]) as (? & ? & [=])].
      { apply first_resolved_origin in H2 as (root & ->%list_elem_of_singleton & Hroot & ->).
        cbn. intros [= <-]. right. by exists primary. }
      destruct (Order.first_resolved build url roots) as [calls3 [[found3|]|error3]]
        eqn:H3; [| |by destruct (first_resolved_returns build url roots) as (? & ? & [=])].
      { apply first_resolved_origin in H3 as (root & Hin & Hroot & ->).
        cbn. intros [= <-]. left. by exists root. }
      destruct (Order.first_resolved build manifest roots) as [calls4 [[found4|]|error4]]
        eqn:H4; [| |by destruct (first_resolved_returns build manifest roots)
                         as (? & ? & [=])].
      { apply first_resolved_origin in H4 as (root & Hin & Hroot & ->).
        cbn. intros [= <-]. right. by exists root. }
      done.
    + intros Hmiss Hfound. subst importer.
      rewrite (findFileUrl_manifest cwd build url options
                 (Esbuild.path (answer build manifest primary))
                 [asked url primary] [asked manifest primary]).
      * unfold Order.deepImport. by rewrite Hrest.
      * by apply first_resolved_missed.
      * rewrite Hname. by apply first_resolved_hit.
    + intros missed root later Hprevious Hurls Hmiss Hmissed Hfound. subst importer.
      rewrite (findFileUrl_manifest_fallback cwd build url options
                 (Esbuild.path (answer build manifest (Some root)))
                 [asked url primary] [asked manifest primary] (asked url <$> roots)
                 (asked manifest <$> primary :: (Some <$> (missed ++ [root])))).
      * unfold Order.deepImport. by rewrite Hrest.
      * apply first_resolved_missed. by apply Forall_inv in Hurls.
      * rewrite Hname. by apply first_resolved_missed.
      * fold (Order.primary build). fold primary. fold previous.
        change (primary :: (Some <$> previous)) with roots.
        rewrite <- (app_nil_r roots) at 1. rewrite first_resolved_after_misses by done.
        cbn [Order.first_resolved mret Resolving_ret fst snd]. by rewrite app_nil_r.
      * fold (Order.primary build). fold primary. fold previous.
        rewrite Hname, Hprevious, !fmap_app, !fmap_cons, app_comm_cons.
        rewrite first_resolved_after_misses.
        -- rewrite (first_resolved_hit build manifest (Some root)) by done.
           cbn [fst snd]. by rewrite fmap_app, !fmap_cons, <- list_fmap_compose.
        -- constructor; [done|]. by apply Forall_fmap.
  - intros file dir Hdir%is_plain_plain ->.
    rewrite (join_absolute dir []) by done. by rewrite app_nil_r.
Qed.

(** ** Warnings: claim C6 *)

Lemma warn_translates text options warnings :
  locatable options ->
  exists message,
    warn text options warnings = Normal (warnings ++ [message])
    /\ Translates (text, options) message.
Proof.
  intros Hurl. unfold warn, Translates.
  destruct options as [deprecation [span|]]; cbn [SassService.span SassService.deprecation].
  - destruct (Sass.span_url span) as [url|] eqn:Hspan.
    + destruct (Hurl span url eq_refl Hspan) as [file Hfile]. rewrite Hfile.
      eexists. split; [reflexivity|]. cbn.
      split; [by destruct deprecation|]. by eexists.
    + eexists. split; [reflexivity|]. cbn.
      split; [by destruct deprecation|]. by eexists.
  - eexists. split; [reflexivity|]. cbn. split; [by destruct deprecation|done].
Qed.


(** C6.  Every warning of the compiler is pushed as one diagnostic: for a
    deprecation its text is exactly [Deprecation] and its one note carries
    the original message; otherwise the text is the original message; with
    a span, the line is the compiler's plus one and the column the
    compiler's. *)
Theorem warnings_translated text options warnings calls :
  locatable options ->
  Forall (fun call => locatable (snd call)) calls ->
  (exists message,
     warn text options warnings = Normal (warnings ++ [message])
     /\ Translates (text, options) message)
  /\ (exists messages,
        logged calls warnings = (warnings ++ messages, None)
        /\ Forall2 Translates calls messages).
Proof.
  intros Hurl Hcalls. split; [by apply warn_translates|].
  revert warnings. induction Hcalls as [|[text' options'] rest Hcall _ IH]; intros warnings.
  - exists []. by rewrite app_nil_r.
  - destruct (warn_translates text' options' warnings Hcall) as (message & Hwarn & Hmessage).
    destruct (IH (warnings ++ [message])) as (messages & Hlogged & Hmessages).
    exists (message :: messages). cbn [logged]. rewrite Hwarn, Hlogged.
    split; [by rewrite <- app_assoc|by constructor].
Qed.

(** ** [compileString] *)

Lemma compileString_Some cwd sassService {C} data filePath syntax options resolveUrl
  (w : World C) :
  let stringOptions := compileOptions cwd filePath syntax options resolveUrl in
  let run := SassService.compileStringAsync (worker sassService w) data stringOptions in
  compileString cwd sassService data (Some filePath) syntax options resolveUrl w
  = (Js.try_catch
       match (logged (SassService.warned run) []).2, SassService.settled run with
       | Some error, _ => Throw error
       | None, SassService.Rejected error => Throw error
       | None, SassService.Resolved result =>
           contents ← match SassService.result_sourceMap result with
                      | Some sourceMap =>
                          comment ← sourceMapToUrlComment cwd sourceMap
                                      (NodePath.dirname filePath);
                          mret (SassService.css result +:+ newline +:+ comment.1)
                      | None => mret (SassService.css result)
                      end;
           watchFiles ← mapM NodeUrl.fileURLToPath (SassService.loadedUrls result);
           mret (success contents (logged (SassService.warned run) []).1 watchFiles)
       end
       (compileString_catch (logged (SassService.warned run) []).1),
     compiled sassService data stringOptions w).
Proof.
  intros stringOptions run. subst run. unfold compileString, compiled, worker.
  unfold mbind at 1, Handler_bind, ensureWorkerPool.
  destruct w as [[pool|] store fs done]; cbn [sassWorkerPool cache files compilations default];
    unfold mbind at 1, Handler_bind, compileStringAsync;
    cbn [sassWorkerPool cache files compilations]; fold stringOptions;
    by destruct (logged _ _) as [warnings [error|]].
Qed.

Lemma compileString_None cwd sassService {C} data syntax options resolveUrl (w : World C) :
  exists w',
    compileString cwd sassService data None syntax options resolveUrl w
    = (Throw Js.TypeError, w')
    /\ cache w' = cache w /\ compilations w' = compilations w.
Proof.
  unfold compileString, mbind, Handler_bind, ensureWorkerPool.
  destruct (sassWorkerPool w); (eexists; split; [reflexivity|done]).
Qed.

Lemma isSassException_Exception error :
  isSassException error = true <-> exists exception, error = js_Exception exception.
Proof.
  split; [|by intros [exception ->]].
  unfold isSassException. intros [[_ Htype]%andb_true_iff Hproperty]%andb_true_iff.
  destruct error; try (by vm_compute in Htype); try (by vm_compute in Hproperty).
  by eexists.
Qed.

(** A result of [compileString] has no [errors] or exactly one. *)
Lemma compileString_errors cwd sassService {C} data filePath syntax options resolveUrl
  (w : World C) result :
  (compileString cwd sassService data filePath syntax options resolveUrl w).1
    = Normal result ->
  Esbuild.errors result = None \/ exists error, Esbuild.errors result = Some [error].
Proof.
  destruct filePath as [filePath|].
  - rewrite compileString_Some. cbn [fst].
    set (run := SassService.compileStringAsync _ _ _).
    destruct (logged (SassService.warned run) []) as [warnings thrown]. cbn [fst snd].
    assert (Hcatch : forall error,
      compileString_catch warnings error = Normal result ->
      Esbuild.errors result = None \/ exists error, Esbuild.errors result = Some [error]).
    { intros error. unfold compileString_catch.
      destruct (isSassException error); [|done].
      destruct error as [| | | | |exception|]; try done.
      destruct (Sass.span_url (Sass.span exception)) as [url|]; cbn.
      - destruct (NodeUrl.fileURLToPath url); cbn; [|done].
        intros [= <-]. right. by eexists.
      - intros [= <-]. right. by eexists. }
    destruct thrown as [error|]; [apply Hcatch|].
    destruct (SassService.settled run) as [compileResult|error]; [|apply Hcatch].
    destruct (SassService.result_sourceMap compileResult) as [sourceMap|]; cbn.
    + destruct (sourceMapToUrlComment _ _ _) as [comment|error]; cbn; [|apply Hcatch].
      destruct (mapM _ _); cbn; [|apply Hcatch]. intros [= <-]. by left.
    + destruct (mapM _ _); cbn; [|apply Hcatch]. intros [= <-]. by left.
  - destruct (compileString_None cwd sassService data syntax options resolveUrl w)
      as (w'' & -> & _). done.
Qed.

(** ** The source map: claims C8 and C10 *)

Lemma get_set (key : string) (v : JSON.value) (props : list (string * JSON.value)) :
  JSON.get key (JSON.set key v props) = Some v.
Proof.
  induction props as [|[k old] rest IH]; simpl.
  - by rewrite String.eqb_refl.
  - destruct (String.eqb k key) eqn:Hk; simpl; by rewrite Hk.
Qed.

Lemma get_set_other (key key' : string) (v : JSON.value)
  (props : list (string * JSON.value)) :
  key' <> key -> JSON.get key' (JSON.set key v props) = JSON.get key' props.
Proof.
  intros Hne. induction props as [|[k old] rest IH]; simpl.
  - by destruct (String.eqb_spec key key'); [subst|].
  - destruct (String.eqb_spec k key) as [->|]; simpl.
    + by destruct (String.eqb_spec key key'); [subst|].
    + by rewrite IH.
Qed.

Lemma set_keys (key : string) (v old : JSON.value) (props : list (string * JSON.value)) :
  JSON.get key props = Some old -> (JSON.set key v props).*1 = props.*1.
Proof.
  induction props as [|[k old'] rest IH]; cbn [JSON.get JSON.set]; [done|].
  destruct (String.eqb_spec k key) as [->|]; [done|].
  intros Hget. by rewrite !fmap_cons, IH.
Qed.

(** The sources as the callback of [sources.map] leaves them. *)
Lemma sources_mapped cwd root (sources paths : list string) :
  mapM NodeUrl.fileURLToPath_string sources = Normal paths ->
  mapM (fun source =>
          match source with
          | JSON.Str source =>
              path ← NodeUrl.fileURLToPath_string source;
              mret (JSON.Str (NodePath.relative cwd root path))
          | _ => Throw Js.TypeError
          end) (JSON.Str <$> sources)
  = Normal (JSON.Str <$> (NodePath.relative cwd root <$> paths)).
Proof.
  revert paths. induction sources as [|source rest IH]; intros paths.
  - by intros [= <-].
  - rewrite fmap_cons. cbn [mapM].
    destruct (NodeUrl.fileURLToPath_string source) as [path|]; [|done].
    cbn. destruct (mapM NodeUrl.fileURLToPath_string rest) as [paths'|]; [|done].
    cbn. intros [= <-]. by rewrite (IH paths').
Qed.

Lemma sourceMapToUrlComment_rewrites cwd sourceMap root sources paths :
  JSON.get "sources" sourceMap = Some (JSON.Array (JSON.Str <$> sources)) ->
  mapM NodeUrl.fileURLToPath_string sources = Normal paths ->
  let rewritten :=
    JSON.set "sources" (JSON.Array (JSON.Str <$> (NodePath.relative cwd root <$> paths)))
      sourceMap in
  sourceMapToUrlComment cwd sourceMap root = Normal (urlComment rewritten, rewritten).
Proof.
  intros Hsources Hpaths. unfold sourceMapToUrlComment.
  by rewrite Hsources, (sources_mapped cwd root sources paths Hpaths).
Qed.

(** C10.  [sourceMapToUrlComment] leaves the source map object with its
    [sources] replaced, each file URL by its path relative to the given
    directory, and every other property as it was, in the same order; the
    payload of the comment is the base64 of the JSON text of the object so
    left. *)
Theorem source_map_rewrite_touches_only_sources cwd sourceMap root sources paths :
  JSON.get "sources" sourceMap = Some (JSON.Array (JSON.Str <$> sources)) ->
  mapM NodeUrl.fileURLToPath_string sources = Normal paths ->
  exists comment rewritten,
    sourceMapToUrlComment cwd sourceMap root = Normal (comment, rewritten)
    /\ JSON.get "sources" rewritten
       = Some (JSON.Array (JSON.Str <$> (NodePath.relative cwd root <$> paths)))
    /\ (forall key, key <> "sources" -> JSON.get key rewritten = JSON.get key sourceMap)
    /\ rewritten.*1 = sourceMap.*1
    /\ comment
       = "/*# sourceMappingURL=data:application/json;charset=utf-8;base64,"
           +:+ Buffer.toString_base64
                 (Buffer.from_utf8 (JSON.stringify (JSON.Object rewritten)))
           +:+ " */".
Proof.
  intros Hsources Hpaths. eexists _, _.
  split; [by apply (sourceMapToUrlComment_rewrites cwd sourceMap root sources paths)|].
  split; [apply get_set|]. split; [intros key Hkey; by apply get_set_other|].
  split; [by eapply set_keys|done].
Qed.

Lemma toLowerCase_append (s t : string) :
  Js.toLowerCase (s +:+ t) = Js.toLowerCase s +:+ Js.toLowerCase t.
Proof.
  induction s as [|c s IH]; [done|]. rewrite append_cons. cbn [Js.toLowerCase].
  by rewrite IH.
Qed.

Lemma scan_scheme_append (s scheme after : string) :
  NodeUrl.scan_scheme s = Some (scheme, after) -> s = scheme +:+ String ":"%char after.
Proof.
  revert scheme. induction s as [|c s IH]; intros scheme; [done|]. cbn [NodeUrl.scan_scheme].
  destruct (Ascii.eqb_spec c ":"%char) as [->|_]; [by intros [= <- <-]|].
  destruct (NodeUrl.is_scheme_char c); [|done].
  destruct (NodeUrl.scan_scheme s) as [[scheme' after']|]; [|done].
  intros [= <- <-]. by rewrite append_cons, <- (IH scheme').
Qed.

Lemma prefix_append (s t : string) : String.prefix s (s +:+ t) = true.
Proof.
  induction s as [|c s IH]; [by destruct t|]. rewrite append_cons. simpl.
  by destruct (ascii_dec c c).
Qed.

(** A string that is not a [file:] URL is refused by [fileURLToPath]. *)
Lemma fileURLToPath_relative (source : string) :
  relative_source source = true ->
  NodeUrl.fileURLToPath_string source = Throw Js.TypeError.
Proof.
  unfold relative_source. intros Hrelative%negb_true_iff.
  unfold NodeUrl.fileURLToPath_string, NodeUrl.parseURL. cbv zeta.
  destruct (NodeUrl.clean source) as [|c0 rest]; [done|].
  destruct (NodeUrl.is_alpha c0); [|done]. cbn [negb].
  destruct (NodeUrl.scan_scheme (String c0 rest)) as [[scheme after]|] eqn:Hscan; [|done].
  apply scan_scheme_append in Hscan.
  destruct (String.eqb_spec (Js.toLowerCase scheme +:+ ":") "file:") as [Hfile|Hother].
  - exfalso. rewrite Hscan, toLowerCase_append in Hrelative.
    change (Js.toLowerCase (String ":"%char after))
      with (":" +:+ Js.toLowerCase after) in Hrelative.
    rewrite <- append_assoc, Hfile in Hrelative.
    unfold Js.startsWith in Hrelative. by rewrite prefix_append in Hrelative.
  - cbn. unfold NodeUrl.fileURLToPath. cbn [protocol].
    by destruct (String.eqb_spec (Js.toLowerCase scheme +:+ ":") "file:").
Qed.

(** What [fileURLToPath] throws is a [TypeError] or a [URIError]. *)
Lemma decodeURIComponent_throws (s : string) error :
  NodeUrl.decodeURIComponent s = Throw error -> error = Js.URIError.
Proof.
  remember (String.length s) as n eqn:Hn. revert s error Hn.
  induction n as [n IH] using lt_wf_ind. intros s error ->.
  destruct s as [|c rest]; [done|]. cbn [NodeUrl.decodeURIComponent].
  destruct (Ascii.eqb c "%"%char).
  - destruct rest as [|h [|l rest']]; [by intros [= <-]..|].
    destruct (NodeUrl.hex_value h), (NodeUrl.hex_value l); try by intros [= <-].
    destruct (NodeUrl.decodeURIComponent rest') eqn:Hrest; [done|].
    intros [= <-]. apply (IH (String.length rest') ltac:(simpl; lia) rest'); done.
  - destruct (NodeUrl.decodeURIComponent rest) eqn:Hrest; [done|].
    intros [= <-]. apply (IH (String.length rest) ltac:(simpl; lia) rest); done.
Qed.

Lemma fileURLToPath_string_throws (source : string) error :
  NodeUrl.fileURLToPath_string source = Throw error ->
  error = Js.TypeError \/ error = Js.URIError.
Proof.
  unfold NodeUrl.fileURLToPath_string.
  destruct (NodeUrl.parseURL source) as [url|error'] eqn:Hparse.
  - cbn. unfold NodeUrl.fileURLToPath.
    repeat (case_match; [by intros [= <-]; left|]).
    intros ?%decodeURIComponent_throws. by right.
  - cbn. intros [= <-]. left. revert Hparse. unfold NodeUrl.parseURL.
    repeat case_match; by intros [= <-].
Qed.

(** C8 (amended).  The rewrite of the sources is a one-shot conversion and
    not idempotent: applied to a source map of which a source is already a
    relative path - not a [file:] URL - it throws instead of keeping the
    path, the [TypeError] of [fileURLToPath] when that source is the
    first, and rewrites nothing. *)
Theorem source_map_rewrite_refuses_relative_sources cwd sourceMap root source sources :
  JSON.get "sources" sourceMap = Some (JSON.Array sources) ->
  JSON.Str source ∈ sources ->
  relative_source source = true ->
  (exists error,
     sourceMapToUrlComment cwd sourceMap root = Throw error
     /\ (error = Js.TypeError \/ error = Js.URIError))
  /\ (hd_error sources = Some (JSON.Str source) ->
      sourceMapToUrlComment cwd sourceMap root = Throw Js.TypeError).
Proof.
  intros Hsources Hsource Hrelative. unfold sourceMapToUrlComment. rewrite Hsources.
  split.
  - clear Hsources. induction sources as [|first rest IH]; [by apply elem_of_nil in Hsource|].
    cbn [mapM]. destruct first as [| | |first| |]; try (eexists; split; [done|by left]).
    destruct (NodeUrl.fileURLToPath_string first) as [path|error] eqn:Hfirst.
    + apply elem_of_cons in Hsource as [[= <-]|Hsource].
      { by rewrite (fileURLToPath_relative source Hrelative) in Hfirst. }
      destruct (IH Hsource) as (error & Hthrow & Herror). exists error. split; [|done].
      cbn. cbn in Hthrow. by destruct (mapM _ rest).
    + exists error. split; [done|]. by apply (fileURLToPath_string_throws first).
  - destruct sources as [|first rest]; [done|]. intros [= ->].
    cbn [mapM]. by rewrite (fileURLToPath_relative source Hrelative).
Qed.

(** ** [compileString]: claims C2 and C7 *)

(** C2.  When the compiler rejects: an exception of the compiler - an
    object with a [sassMessage] - becomes a load result with exactly one
    error, carrying the exception's message, no contents, the warnings
    pushed before the failure, and as only watched file the file of the
    exception's span when the span has a URL; anything else is thrown
    again. *)
Theorem compiler_exception_becomes_one_error
  cwd sassService {C} data filePath syntax options resolveUrl (w : World C)
  error warnings :
  let stringOptions := compileOptions cwd filePath syntax options resolveUrl in
  let run := SassService.compileStringAsync (worker sassService w) data stringOptions in
  let outcome :=
    (compileString cwd sassService data (Some filePath) syntax options resolveUrl w).1 in
  SassService.settled run = SassService.Rejected error ->
  logged (SassService.warned run) [] = (warnings, None) ->
  (isSassException error = false -> outcome = Throw error)
  /\ (isSassException error = true ->
      exists exception,
        error = js_Exception exception
        /\ (Sass.span_url (Sass.span exception) = None ->
            outcome = Normal (failure (Sass.message exception) warnings None))
        /\ (forall url file,
              Sass.span_url (Sass.span exception) = Some url ->
              NodeUrl.fileURLToPath url = Normal file ->
              file <> "" ->
              outcome = Normal (failure (Sass.message exception) warnings (Some [file])))).
Proof.
  intros stringOptions run outcome Hrejected Hwarnings. subst outcome.
  rewrite compileString_Some. fold stringOptions. fold run.
  rewrite Hwarnings, Hrejected. cbn [fst snd Js.try_catch]. split.
  - intros Hguard. unfold compileString_catch. by rewrite Hguard.
  - intros Hguard. destruct (proj1 (isSassException_Exception error) Hguard) as [exception ->].
    exists exception. split; [done|]. unfold compileString_catch. rewrite Hguard. split.
    + by intros ->.
    + intros url file -> -> Hfile. cbn. unfold failure. do 2 f_equal.
      unfold Js.nonempty. by destruct (String.eqb_spec file "").
Qed.

(** C7.  When the compiler resolves, the contents are its CSS followed,
    exactly when it produced a source map, by a line break and the comment
    [/*# sourceMappingURL=data:application/json;charset=utf-8;base64,... */]
    whose payload is the base64 of the JSON text of the source map with
    its sources rewritten; with the [sourcemap] option off, and a compiler
    that then produces no source map, the contents are the CSS alone. *)
Theorem source_map_comment_follows_css
  cwd sassService {C} data filePath syntax options resolveUrl (w : World C)
  result warnings watchFiles :
  let stringOptions := compileOptions cwd filePath syntax options resolveUrl in
  let run := SassService.compileStringAsync (worker sassService w) data stringOptions in
  let outcome :=
    (compileString cwd sassService data (Some filePath) syntax options resolveUrl w).1 in
  SassService.settled run = SassService.Resolved result ->
  logged (SassService.warned run) [] = (warnings, None) ->
  mapM NodeUrl.fileURLToPath (SassService.loadedUrls result) = Normal watchFiles ->
  (SassService.result_sourceMap result = None ->
   outcome = Normal (success (SassService.css result) warnings watchFiles))
  /\ (forall sourceMap sources paths,
        SassService.result_sourceMap result = Some sourceMap ->
        JSON.get "sources" sourceMap = Some (JSON.Array (JSON.Str <$> sources)) ->
        mapM NodeUrl.fileURLToPath_string sources = Normal paths ->
        let rewritten :=
          JSON.set "sources"
            (JSON.Array
               (JSON.Str <$> (NodePath.relative cwd (NodePath.dirname filePath) <$> paths)))
            sourceMap in
        outcome
        = Normal
            (success
               (SassService.css result +:+ newline
                  +:+ "/*# sourceMappingURL=data:application/json;charset=utf-8;base64,"
                  +:+ Buffer.toString_base64
                        (Buffer.from_utf8 (JSON.stringify (JSON.Object rewritten)))
                  +:+ " */")
               warnings watchFiles))
  /\ (SassService.sourceMap stringOptions = sourcemap options
      /\ ((SassService.sourceMap stringOptions = false ->
           SassService.result_sourceMap result = None) ->
          sourcemap options = false ->
          outcome = Normal (success (SassService.css result) warnings watchFiles))).
Proof.
  intros stringOptions run outcome Hresolved Hwarnings Hwatch. subst outcome.
  rewrite compileString_Some. fold stringOptions. fold run.
  rewrite Hwarnings, Hresolved. cbn [fst snd].
  assert (Hplain : SassService.result_sourceMap result = None ->
    Js.try_catch
      (contents ← match SassService.result_sourceMap result with
                  | Some sourceMap =>
                      comment ← sourceMapToUrlComment cwd sourceMap
                                  (NodePath.dirname filePath);
                      mret (SassService.css result +:+ newline +:+ comment.1)
                  | None => mret (SassService.css result)
                  end;
       watchFiles ← mapM NodeUrl.fileURLToPath (SassService.loadedUrls result);
       mret (success contents warnings watchFiles))
      (compileString_catch warnings)
    = Normal (success (SassService.css result) warnings watchFiles)).
  { intros ->. by rewrite Hwatch. }
  split; [done|]. split.
  - intros sourceMap sources paths HsourceMap Hsources Hpaths. cbv zeta.
    rewrite HsourceMap.
    rewrite (sourceMapToUrlComment_rewrites cwd sourceMap _ sources paths Hsources Hpaths).
    by rewrite Hwatch.
  - split; [done|]. intros Hhonours Hoff. apply Hplain, Hhonours. exact Hoff.
Qed.

(** ** The load handlers: claims C1 and C5 *)

(** Runs the first [bind] of a handler, and a lookup in the cache. *)
Ltac handler_step := unfold mbind at 1, Handler_bind.

Ltac cache_lookup key w :=
  handler_step; unfold cache_get; fold (cached key w).

Section Handlers.

Context (cwd : string) (sassService : SassService.SassWorkerImplementation).
Context {C : Type} `{LoadResultCache C}.
Context (options : SassPluginOptions).
Context (resolveUrl : string -> option (list string) -> Resolving Esbuild.ResolveResult).

Lemma load_file_hit (args : Esbuild.OnLoadArgs) (w : World C) result :
  cached (Esbuild.args_path args) w = Some result ->
  onLoad_file cwd sassService options resolveUrl args w = (Normal result, w).
Proof.
  intros Hhit. unfold onLoad_file. cache_lookup (Esbuild.args_path args) w.
  by rewrite Hhit.
Qed.

Lemma load_component_hit (args : Esbuild.OnLoadArgs) (w : World C) data result :
  inline_data options args = Some data ->
  cached data w = Some result ->
  onLoad_component cwd sassService options resolveUrl args w = (Normal result, w).
Proof.
  intros Hdata Hhit. unfold onLoad_component. handler_step. unfold settle.
  fold (inline_data options args). rewrite Hdata.
  cache_lookup data w. by rewrite Hhit.
Qed.

Lemma load_file_miss (args : Esbuild.OnLoadArgs) (w : World C) data :
  cached (Esbuild.args_path args) w = None ->
  files w !! Esbuild.args_path args = Some data ->
  let syntax := file_syntax (Esbuild.args_path args) in
  onLoad_file cwd sassService options resolveUrl args w
  = finish (Esbuild.args_path args)
      (compileString cwd sassService data (Some (Esbuild.args_path args)) syntax
         options resolveUrl w).1
      (compiled sassService data
         (compileOptions cwd (Esbuild.args_path args) syntax options resolveUrl) w).
Proof.
  intros Hmiss Hfile syntax. subst syntax. unfold file_syntax.
  unfold onLoad_file. cache_lookup (Esbuild.args_path args) w. rewrite Hmiss.
  handler_step. unfold readFile. rewrite Hfile.
  handler_step. rewrite compileString_Some. cbn [fst].
  unfold finish. destruct (Js.try_catch _ _) as [result|error]; [|done].
  by destruct (Esbuild.errors result).
Qed.

Lemma load_component_miss (args : Esbuild.OnLoadArgs) (w : World C) data filePath :
  inline_data options args = Some data ->
  cached data w = None ->
  component_filePath (Esbuild.args_path args) = Some filePath ->
  let syntax := component_syntax (Esbuild.args_path args) in
  onLoad_component cwd sassService options resolveUrl args w
  = finish data
      (compileString cwd sassService data (Some filePath) syntax options resolveUrl w).1
      (compiled sassService data
         (compileOptions cwd filePath syntax options resolveUrl) w).
Proof.
  intros Hdata Hmiss Hpath syntax. subst syntax.
  unfold component_syntax. unfold component_filePath in Hpath.
  unfold onLoad_component. handler_step. unfold settle.
  fold (inline_data options args). rewrite Hdata.
  cache_lookup data w. rewrite Hmiss.
  rewrite Hpath. handler_step. rewrite compileString_Some. cbn [fst].
  unfold finish. destruct (Js.try_catch _ _) as [result|error]; [|done].
  by destruct (Esbuild.errors result).
Qed.

(** Without a third piece in its path the inline handler throws. *)
Lemma load_component_no_path (args : Esbuild.OnLoadArgs) (w : World C) data :
  inline_data options args = Some data ->
  cached data w = None ->
  component_filePath (Esbuild.args_path args) = None ->
  (onLoad_component cwd sassService options resolveUrl args w).1 = Throw Js.TypeError.
Proof.
  intros Hdata Hmiss Hpath. unfold component_filePath in Hpath.
  unfold onLoad_component. handler_step. unfold settle.
  fold (inline_data options args). rewrite Hdata.
  cache_lookup data w. rewrite Hmiss.
  rewrite Hpath. handler_step.
  destruct (compileString_None cwd sassService data
              (if bool_decide (Js.split_limit ";"%char 3 (Esbuild.args_path args) !! 0%nat
                               = Some "sass")
               then Sass.indented else Sass.scss) options resolveUrl w)
    as (w' & -> & _). done.
Qed.

(** What [finish] says of the cache and of the compilations. *)
Lemma finish_spec (key : string) completion (w1 w' : World C) result :
  finish key completion w1 = (Normal result, w') ->
  completion = Normal result
  /\ (forall error errors,
        Esbuild.errors result = Some (error :: errors) -> w' = w1)
  /\ (Esbuild.errors result = None -> w' = stored key result w1).
Proof.
  unfold finish. destruct completion as [result'|error]; [|done].
  destruct (Esbuild.errors result') as [errors|] eqn:Herrors;
    intros [= <- <-]; rewrite Herrors; by repeat split.
Qed.

Lemma finish_compilations (key : string) completion (w1 : World C) :
  compilations (finish key completion w1).2 = compilations w1.
Proof.
  unfold finish. destruct completion as [result|error]; [|done].
  by destruct (Esbuild.errors result).
Qed.

(** A file that cannot be read makes its handler throw. *)
Lemma load_file_unreadable (args : Esbuild.OnLoadArgs) (w : World C) :
  cached (Esbuild.args_path args) w = None ->
  files w !! Esbuild.args_path args = None ->
  (onLoad_file cwd sassService options resolveUrl args w).1 = Throw (js_Error "Error").
Proof.
  intros Hmiss Hfile. unfold onLoad_file.
  cache_lookup (Esbuild.args_path args) w. rewrite Hmiss.
  handler_step. unfold readFile. by rewrite Hfile.
Qed.

End Handlers.

Lemma cached_compiled {C} `{LoadResultCache C} sassService key data stringOptions
  (w : World C) :
  cached key (compiled sassService data stringOptions w) = cached key w.
Proof. reflexivity. Qed.

Lemma cached_stored {C} `{LoadResultCache C} key result (w : World C) store :
  (forall store key result, get (put store key result) key = Some result) ->
  cache w = Some store ->
  cached key (stored key result w) = Some result.
Proof. intros Hlaw Hstore. unfold cached, stored. cbn. rewrite Hstore. cbn. apply Hlaw. Qed.

(** C5.  When the cache holds a result under the identity of a load - the
    path of a file, the text of an inline style - the handler returns that
    result as it is and leaves the world as it was: nothing is compiled.
    With a cache that gives back what was put, this is the case after a
    load that compiled without errors. *)
Theorem cached_result_returned_without_compiling
  cwd sassService {C} `{LoadResultCache C} options resolveUrl args (w w' : World C)
  result :
  (cached (Esbuild.args_path args) w = Some result ->
   onLoad_file cwd sassService options resolveUrl args w = (Normal result, w))
  /\ (forall data,
        inline_data options args = Some data ->
        cached data w = Some result ->
        onLoad_component cwd sassService options resolveUrl args w = (Normal result, w))
  /\ ((forall store key result, get (put store key result) key = Some result) ->
      is_Some (cache w) ->
      Esbuild.errors result = None ->
      (cached (Esbuild.args_path args) w = None ->
       onLoad_file cwd sassService options resolveUrl args w = (Normal result, w') ->
       onLoad_file cwd sassService options resolveUrl args w' = (Normal result, w'))
      /\ (forall data,
            inline_data options args = Some data ->
            cached data w = None ->
            onLoad_component cwd sassService options resolveUrl args w = (Normal result, w') ->
            onLoad_component cwd sassService options resolveUrl args w'
            = (Normal result, w'))).
Proof.
  split; [apply load_file_hit|]. split; [intros data; apply load_component_hit|].
  intros Hlaw [store Hstore] Hsuccess. split.
  - intros Hmiss Hload. apply load_file_hit.
    destruct (files w !! Esbuild.args_path args) as [data|] eqn:Hfile.
    + rewrite (load_file_miss cwd sassService options resolveUrl args w data Hmiss Hfile)
        in Hload. apply finish_spec in Hload as (_ & _ & Hstored).
      rewrite (Hstored Hsuccess). by apply (cached_stored _ _ _ store).
    + pose proof (load_file_unreadable cwd sassService options resolveUrl args w Hmiss Hfile)
        as Hthrow. by rewrite Hload in Hthrow.
  - intros data Hdata Hmiss Hload. apply (load_component_hit _ _ _ _ _ _ data); [done|].
    destruct (component_filePath (Esbuild.args_path args)) as [filePath|] eqn:Hpath.
    + rewrite (load_component_miss cwd sassService options resolveUrl args w data filePath
                 Hdata Hmiss Hpath) in Hload. apply finish_spec in Hload as (_ & _ & Hstored).
      rewrite (Hstored Hsuccess). by apply (cached_stored _ _ _ store).
    + pose proof (load_component_no_path cwd sassService options resolveUrl args w data
                    Hdata Hmiss Hpath) as Hthrow.
      by rewrite Hload in Hthrow.
Qed.


(** C1.  A load that compiled - the cache held nothing under its identity
    - and whose result carries errors leaves the cache as it was, so the
    next load of that identity asks the compiler again; a result without
    errors is put in the cache under the identity: the path for a file,
    the text for an inline style.  A result has no errors or exactly
    one. *)
Theorem results_with_errors_are_not_cached
  cwd sassService {C} `{LoadResultCache C} options resolveUrl args (w w' : World C)
  result :
  (cached (Esbuild.args_path args) w = None ->
   onLoad_file cwd sassService options resolveUrl args w = (Normal result, w') ->
   exists data stringOptions,
     files w !! Esbuild.args_path args = Some data
     /\ (forall error errors,
           Esbuild.errors result = Some (error :: errors) ->
           cache w' = cache w
           /\ compilations w' = compilations w ++ [(data, stringOptions)]
           /\ compilations (onLoad_file cwd sassService options resolveUrl args w').2
              = compilations w' ++ [(data, stringOptions)])
     /\ (Esbuild.errors result = None ->
         cache w' = (fun store => put store (Esbuild.args_path args) result) <$> cache w)
     /\ (Esbuild.errors result = None
         \/ exists error, Esbuild.errors result = Some [error]))
  /\ (forall data,
        inline_data options args = Some data ->
        cached data w = None ->
        onLoad_component cwd sassService options resolveUrl args w = (Normal result, w') ->
        exists stringOptions,
          (forall error errors,
             Esbuild.errors result = Some (error :: errors) ->
             cache w' = cache w
             /\ compilations w' = compilations w ++ [(data, stringOptions)]
             /\ compilations (onLoad_component cwd sassService options resolveUrl args w').2
                = compilations w' ++ [(data, stringOptions)])
          /\ (Esbuild.errors result = None ->
              cache w' = (fun store => put store data result) <$> cache w)
          /\ (Esbuild.errors result = None
              \/ exists error, Esbuild.errors result = Some [error])).
Proof.
  split.
  - intros Hmiss Hload.
    destruct (files w !! Esbuild.args_path args) as [data|] eqn:Hfile.
    + pose proof (load_file_miss cwd sassService options resolveUrl args w data Hmiss Hfile)
        as Hfinish. cbv zeta in Hfinish.
      exists data, (compileOptions cwd (Esbuild.args_path args)
                      (file_syntax (Esbuild.args_path args)) options resolveUrl).
      split; [done|]. rewrite Hfinish in Hload.
      apply finish_spec in Hload as (Hcompleted & Herrors & Hsuccess).
      split; [|split].
      * intros error errors ->%Herrors. split; [done|]. split; [done|].
        rewrite (load_file_miss cwd sassService options resolveUrl args _ data) by done.
        by rewrite finish_compilations.
      * by intros ->%Hsuccess.
      * by eapply compileString_errors.
    + pose proof (load_file_unreadable cwd sassService options resolveUrl args w Hmiss Hfile)
        as Hthrow. by rewrite Hload in Hthrow.
  - intros data Hdata Hmiss Hload.
    destruct (component_filePath (Esbuild.args_path args)) as [filePath|] eqn:Hpath.
    + pose proof (load_component_miss cwd sassService options resolveUrl args w data filePath
                    Hdata Hmiss Hpath) as Hfinish. cbv zeta in Hfinish.
      exists (compileOptions cwd filePath (component_syntax (Esbuild.args_path args))
                options resolveUrl).
      rewrite Hfinish in Hload.
      apply finish_spec in Hload as (Hcompleted & Herrors & Hsuccess).
      split; [|split].
      * intros error errors ->%Herrors. split; [done|]. split; [done|].
        rewrite (load_component_miss cwd sassService options resolveUrl args _ data filePath)
          by done.
        by rewrite finish_compilations.
      * by intros ->%Hsuccess.
      * by eapply compileString_errors.
    + pose proof (load_component_no_path cwd sassService options resolveUrl args w data
                    Hdata Hmiss Hpath) as Hthrow.
      by rewrite Hload in Hthrow.
Qed.

(** ** The claims on the demonstration project *)

Lemma importer_tries_strategies_in_order_witness :
  (Demo.importer "nothing/here" (Some ["/proj/.yarn/dep"])).2 = Normal None.
Proof.
  apply (proj2 (proj2 (importer_tries_strategies_in_order Demo.cwd Demo.build
                         "nothing/here" (Run.importer_options (Some ["/proj/.yarn/dep"]))))).
  intros []; reflexivity.
Defined.

Lemma deep_import_reports_join_with_manifest_directory_witness :
  Demo.importer "@scope/pkg/sub/path" None
  = ([("@scope/pkg/sub/path", Run.from_project);
      ("@scope/pkg/package.json", Run.from_project)],
     Normal (Some (mkURL "file:" "" "/proj/node_modules/@scope/pkg/sub/path")))
  /\ Demo.importer "pkg/sub/path" None
     = ([("pkg/sub/path", Run.from_project); ("pkg/package.json", Run.from_project)],
        Normal (Some (mkURL "file:" "" "/proj/node_modules/pkg/sub/path"))).
Proof.
  split.
  - apply (proj1 (proj2 (deep_import_reports_join_with_manifest_directory
                           Demo.cwd Demo.build (Run.importer_options None)
                           (Order.Scoped "@scope" "pkg") ["sub"; "path"]
                           ["proj"; "node_modules"; "@scope"; "pkg"]
                           "/proj/node_modules/@scope/pkg/package.json"
                           [("@scope/pkg/sub/path", Run.from_project)]
                           [("@scope/pkg/package.json", Run.from_project)]
                           eq_refl eq_refl eq_refl eq_refl eq_refl))).
    reflexivity.
  - apply (proj1 (proj2 (deep_import_reports_join_with_manifest_directory
                           Demo.cwd Demo.build (Run.importer_options None)
                           (Order.Unscoped "pkg") ["sub"; "path"]
                           ["proj"; "node_modules"; "pkg"]
                           "/proj/node_modules/pkg/package.json"
                           [("pkg/sub/path", Run.from_project)]
                           [("pkg/package.json", Run.from_project)]
                           eq_refl eq_refl eq_refl eq_refl eq_refl))).
    reflexivity.
Defined.

Lemma plain_package_reports_manifest_directory_witness :
  Demo.importer "pkg" None
  = ([asked "pkg" (Some "/proj"); asked "pkg/package.json" (Some "/proj")],
     Normal (Some (mkURL "file:" "" "/proj/node_modules/pkg")))
  /\ Demo.importer "hidden" (Some ["/proj/.yarn/dep"])
     = ([asked "hidden" (Some "/proj"); asked "hidden/package.json" (Some "/proj");
         asked "hidden" (Some "/proj"); asked "hidden" (Some "/proj/.yarn/dep");
         asked "hidden/package.json" (Some "/proj");
         asked "hidden/package.json" (Some "/proj/.yarn/dep")],
        Normal (Some (mkURL "file:" "" "/proj/.yarn/hidden"))).
Proof.
  split.
  - refine (proj1 (proj2 (proj1 (proj2 (proj2
              (plain_package_reports_manifest_directory Demo.cwd Demo.build "pkg"
                 (Run.importer_options None)))) _)) _ _); reflexivity.
  - refine (proj2 (proj2 (proj1 (proj2 (proj2
              (plain_package_reports_manifest_directory Demo.cwd Demo.build "hidden"
                 (Run.importer_options (Some ["/proj/.yarn/dep"]))))) _))
              [] "/proj/.yarn/dep" [] _ _ _ _ _);
      first [reflexivity | repeat constructor].
Defined.

Lemma results_with_errors_are_not_cached_witness :
  cache Run.failed_load.2 = cache Demo.world
  /\ cache Run.good_load.2
     = Some (put (∅ : gmap string Esbuild.OnLoadResult) "/proj/src/ok.scss" Run.good_result)
  /\ cache Run.inline_load.2
     = Some (put (∅ : gmap string Esbuild.OnLoadResult) "a { b: c }" Run.inline_result).
Proof.
  split; [|split].
  - destruct (proj1 (results_with_errors_are_not_cached Demo.cwd Demo.compiler
                       (Demo.options false) (resolveUrl Demo.build)
                       (Demo.file_args "/proj/src/a.scss") Demo.world Run.failed_load.2
                       Run.failed_result))
      as (data & stringOptions & _ & Herrors & _); [reflexivity..|].
    refine (proj1 (Herrors _ _ _)). reflexivity.
  - destruct (proj1 (results_with_errors_are_not_cached Demo.cwd Demo.compiler
                       (Demo.options false) (resolveUrl Demo.build)
                       (Demo.file_args "/proj/src/ok.scss") Demo.world Run.good_load.2
                       Run.good_result))
      as (data & stringOptions & _ & _ & Hsuccess & _); [reflexivity..|].
    apply Hsuccess. reflexivity.
  - destruct (proj2 (results_with_errors_are_not_cached Demo.cwd Demo.compiler
                       (Demo.options false) (resolveUrl Demo.build)
                       (Demo.component_args "scss;comp-1;/proj/src/comp.ts") Demo.world
                       Run.inline_load.2 Run.inline_result) "a { b: c }")
      as (stringOptions & _ & Hsuccess & _); [reflexivity..|].
    apply Hsuccess. reflexivity.
Defined.

Lemma compiler_exception_becomes_one_error_witness :
  Run.failed_load.1
  = Normal
      (failure "expected }."
         [{| Esbuild.text := Some "Deprecation";
             Esbuild.location :=
               Some {| Esbuild.file := Some "/proj/src/a.scss";
                       Esbuild.lineText := Some "a { b: c / d }";
                       Esbuild.line := Some 1%Z;
                       Esbuild.column := Some 7%Z |};
             Esbuild.notes :=
               Some [{| Esbuild.note_text := Some "Using / for division is deprecated." |}] |}]
         (Some ["/proj/src/a.scss"])).
Proof.
  destruct (proj2 (compiler_exception_becomes_one_error Demo.cwd Demo.compiler
                     "a {" "/proj/src/a.scss" Sass.scss (Demo.options false)
                     (resolveUrl Demo.build) Demo.world
                     (js_Exception
                        (Demo.syntax_error (NodeUrl.pathToFileURL Demo.cwd "/proj/src/a.scss")))
                     _ eq_refl eq_refl) eq_refl)
    as (exception & Hexception & _ & Hfile).
  injection Hexception as <-.
  apply (Hfile (NodeUrl.pathToFileURL Demo.cwd "/proj/src/a.scss") "/proj/src/a.scss").
  - reflexivity.
  - reflexivity.
  - discriminate.
Defined.

Lemma cached_result_returned_without_compiling_witness :
  Demo.load_file false "/proj/src/ok.scss" Run.good_load.2
  = (Normal Run.good_result, Run.good_load.2).
Proof.
  apply (proj1 (cached_result_returned_without_compiling Demo.cwd Demo.compiler
                  (Demo.options false) (resolveUrl Demo.build)
                  (Demo.file_args "/proj/src/ok.scss") Run.good_load.2 Run.good_load.2
                  Run.good_result)).
  reflexivity.
Defined.

Lemma warnings_translated_witness :
  exists message,
    warn "Using / for division is deprecated."
      (Demo.division_warning (NodeUrl.pathToFileURL Demo.cwd "/proj/src/a.scss")).2 []
    = Normal ([] ++ [message])
    /\ Translates
         (Demo.division_warning (NodeUrl.pathToFileURL Demo.cwd "/proj/src/a.scss"))
         message.
Proof.
  refine (proj1 (warnings_translated "Using / for division is deprecated."
                   (Demo.division_warning
                      (NodeUrl.pathToFileURL Demo.cwd "/proj/src/a.scss")).2 [] [] _ _)).
  - intros span url [= <-] [= <-]. exists "/proj/src/a.scss". reflexivity.
  - constructor.
Defined.

Lemma source_map_comment_follows_css_witness :
  (Demo.load_file true "/proj/src/ok.scss" Demo.world).1
  = Normal
      (success
         ("a { b: c }" +:+ newline
            +:+ "/*# sourceMappingURL=data:application/json;charset=utf-8;base64,"
            +:+ Buffer.toString_base64
                  (Buffer.from_utf8 (JSON.stringify (JSON.Object Run.ok_map_rewritten)))
            +:+ " */")
         [] ["/proj/src/ok.scss"])
  /\ (Demo.load_file false "/proj/src/ok.scss" Demo.world).1
     = Normal (success "a { b: c }" [] ["/proj/src/ok.scss"]).
Proof.
  split.
  - apply (proj1 (proj2 (source_map_comment_follows_css Demo.cwd Demo.compiler
                           "a { b: c }" "/proj/src/ok.scss" Sass.scss (Demo.options true)
                           (resolveUrl Demo.build) Demo.world _ [] ["/proj/src/ok.scss"]
                           eq_refl eq_refl eq_refl))
             Run.ok_map ["file:///proj/src/ok.scss"] ["/proj/src/ok.scss"]);
      reflexivity.
  - apply (proj2 (proj2 (proj2 (source_map_comment_follows_css Demo.cwd Demo.compiler
                           "a { b: c }" "/proj/src/ok.scss" Sass.scss (Demo.options false)
                           (resolveUrl Demo.build) Demo.world _ [] ["/proj/src/ok.scss"]
                           eq_refl eq_refl eq_refl))));
      reflexivity.
Defined.

Lemma source_map_rewrite_touches_only_sources_witness :
  exists comment rewritten,
    sourceMapToUrlComment Demo.cwd Run.ok_map "/proj/src" = Normal (comment, rewritten)
    /\ JSON.get "sources" rewritten
       = Some (JSON.Array (JSON.Str <$> (NodePath.relative Demo.cwd "/proj/src"
                                           <$> ["/proj/src/ok.scss"])))
    /\ (forall key, key <> "sources" -> JSON.get key rewritten = JSON.get key Run.ok_map)
    /\ rewritten.*1 = Run.ok_map.*1
    /\ comment
       = "/*# sourceMappingURL=data:application/json;charset=utf-8;base64,"
           +:+ Buffer.toString_base64
                 (Buffer.from_utf8 (JSON.stringify (JSON.Object rewritten)))
           +:+ " */".
Proof.
  apply (source_map_rewrite_touches_only_sources Demo.cwd Run.ok_map "/proj/src"
           ["file:///proj/src/ok.scss"] ["/proj/src/ok.scss"]); reflexivity.
Defined.

Lemma source_map_rewrite_refuses_relative_sources_witness :
  sourceMapToUrlComment Demo.cwd Run.ok_map_rewritten "/proj/src" = Throw Js.TypeError.
Proof.
  apply (proj2 (source_map_rewrite_refuses_relative_sources Demo.cwd Run.ok_map_rewritten
                  "/proj/src" "ok.scss" [JSON.Str "ok.scss"] eq_refl
                  ltac:(apply list_elem_of_here) eq_refl)).
  reflexivity.
Defined.

(** C8, as first stated, fails: the source map left by one rewrite has
    its source relative to the output directory, and the rewrite applied
    to it throws instead of keeping that path. *)
Lemma rewrite_of_rewritten_source_map_throws :
  (exists comment,
     sourceMapToUrlComment Demo.cwd Run.ok_map "/proj/src"
     = Normal (comment, Run.ok_map_rewritten))
  /\ JSON.get "sources" Run.ok_map_rewritten = Some (JSON.Array [JSON.Str "ok.scss"])
  /\ NodePath.relative Demo.cwd "/proj/src" "/proj/src/ok.scss" = "ok.scss"
  /\ sourceMapToUrlComment Demo.cwd Run.ok_map_rewritten "/proj/src" = Throw Js.TypeError
  /\ ~ (exists comment rewritten,
          sourceMapToUrlComment Demo.cwd Run.ok_map_rewritten "/proj/src"
          = Normal (comment, rewritten)
          /\ JSON.get "sources" rewritten = JSON.get "sources" Run.ok_map_rewritten).
Proof.
  split; [by eexists|]. repeat split. by intros (comment & rewritten & Hthrown & _).
Qed.

(** * Further properties of the code *)

(** ** [resolveUrl] *)

Lemma resolvePrevious_misses build url (missed rest : list string) result0 :
  Forall (fun root => resolves build url (Some root) = false) missed ->
  resolvePrevious build url (missed ++ rest) result0
  = ((asked url ∘ Some <$> missed)
       ++ (resolvePrevious build url rest
             (default result0 (answer build url ∘ Some <$> last missed))).1,
     (resolvePrevious build url rest
        (default result0 (answer build url ∘ Some <$> last missed))).2).
Proof.
  intros Hmissed. revert result0.
  induction Hmissed as [|root missed Hroot _ IH]; intros result0.
  - cbn. by destruct (resolvePrevious build url rest result0).
  - change ((root :: missed) ++ rest) with (root :: (missed ++ rest)).
    rewrite resolvePrevious_cons, Resolving_bind_ask.
    unfold resolves, answer, Order.from in Hroot. rewrite Hroot.
    rewrite IH. cbn [fst snd]. rewrite fmap_cons.
    replace (default (Esbuild.resolve build url
                        {| Esbuild.kind := "import-rule"; Esbuild.resolveDir := Some root |})
               (answer build url ∘ Some <$> last missed))
      with (default result0 (answer build url ∘ Some <$> last (root :: missed))); [done|].
    destruct missed as [|next missed]; [reflexivity|].
    change (last (root :: next :: missed)) with (last (next :: missed)).
    destruct (last (next :: missed)) as [module|] eqn:Hlast; [done|].
    by apply last_None in Hlast.
Qed.

(** X1.  When the bundler finds the URL from the working directory, or
    when there are no previously resolved modules, [resolveUrl] makes that
    one call and returns its result. *)
Theorem resolveUrl_asks_working_directory_first build url previous :
  resolves build url (Order.primary build) = true \/ default [] previous = [] ->
  resolveUrl build url previous
  = ([asked url (Order.primary build)], Normal (answer build url (Order.primary build))).
Proof.
  intros Hone. unfold resolveUrl. rewrite Resolving_bind_ask. fold (Order.primary build).
  fold (Order.from (Order.primary build)). fold (answer build url (Order.primary build)).
  fold (resolves build url (Order.primary build)).
  destruct previous as [[|root rest]|]; try done.
  destruct Hone as [->|]; done.
Qed.

(** X2.  When the working directory misses, [resolveUrl] asks the
    previously resolved modules in order and stops at the first that finds
    the URL: the later ones are not asked, and the result is that
    module's. *)
Theorem resolveUrl_stops_at_first_module build url missed root later :
  resolves build url (Order.primary build) = false ->
  Forall (fun root => resolves build url (Some root) = false) missed ->
  resolves build url (Some root) = true ->
  resolveUrl build url (Some (missed ++ root :: later))
  = (asked url (Order.primary build) :: (asked url ∘ Some <$> (missed ++ [root])),
     Normal (answer build url (Some root))).
Proof.
  intros Hprimary Hmissed Hroot. unfold resolveUrl. rewrite Resolving_bind_ask.
  fold (Order.primary build). fold (Order.from (Order.primary build)).
  fold (answer build url (Order.primary build)). fold (resolves build url (Order.primary build)).
  rewrite Hprimary. cbn [negb fst snd].
  assert (Hloop : forall result0,
    resolvePrevious build url (missed ++ root :: later) result0
    = ((asked url ∘ Some <$> (missed ++ [root])), Normal (answer build url (Some root)))).
  { intros result0. rewrite resolvePrevious_misses by done.
    rewrite resolvePrevious_cons, Resolving_bind_ask.
    fold (Order.from (Some root)). fold (answer build url (Some root)).
    fold (resolves build url (Some root)). rewrite Hroot. cbn [fst snd].
    by rewrite fmap_app. }
  destruct missed as [|first missed]; cbn [app]; by rewrite Hloop.
Qed.

(** X3.  When neither the working directory nor any previously resolved
    module finds the URL, every one of them was asked, in order, and the
    result returned is the one of the last module asked. *)
Theorem resolveUrl_total_miss_returns_last_result build url modules module :
  resolves build url (Order.primary build) = false ->
  Forall (fun root => resolves build url (Some root) = false) (modules ++ [module]) ->
  resolveUrl build url (Some (modules ++ [module]))
  = (asked url (Order.primary build) :: (asked url ∘ Some <$> (modules ++ [module])),
     Normal (answer build url (Some module))).
Proof.
  intros Hprimary Hmissed. unfold resolveUrl. rewrite Resolving_bind_ask.
  fold (Order.primary build). fold (Order.from (Order.primary build)).
  fold (answer build url (Order.primary build)). fold (resolves build url (Order.primary build)).
  rewrite Hprimary. cbn [negb fst snd].
  assert (Hloop : forall result0,
    resolvePrevious build url (modules ++ [module]) result0
    = ((asked url ∘ Some <$> (modules ++ [module])), Normal (answer build url (Some module)))).
  { intros result0.
    rewrite <- (app_nil_r (modules ++ [module])) at 1.
    rewrite resolvePrevious_misses by done. cbn [resolvePrevious fst snd mret Resolving_ret].
    by rewrite app_nil_r, last_snoc. }
  destruct modules as [|first modules]; cbn [app]; by rewrite Hloop.
Qed.

Lemma resolveUrl_asks_working_directory_first_witness :
  resolveUrl Demo.build "./theme" (Some ["/proj/.yarn/dep"])
  = ([asked "./theme" (Some "/proj")],
     Normal {| Esbuild.path := "/proj/src/theme.scss"; Esbuild.resolve_errors := [] |}).
Proof.
  apply (resolveUrl_asks_working_directory_first Demo.build "./theme"
           (Some ["/proj/.yarn/dep"])).
  left. reflexivity.
Defined.

Lemma resolveUrl_stops_at_first_module_witness :
  resolveUrl Demo.build "pnp/theme" (Some ["/proj/.yarn/other"; "/proj/.yarn/dep"; "/elsewhere"])
  = ([asked "pnp/theme" (Some "/proj"); asked "pnp/theme" (Some "/proj/.yarn/other");
      asked "pnp/theme" (Some "/proj/.yarn/dep")],
     Normal {| Esbuild.path := "/proj/.yarn/pnp/theme.scss"; Esbuild.resolve_errors := [] |}).
Proof.
  apply (resolveUrl_stops_at_first_module Demo.build "pnp/theme" ["/proj/.yarn/other"]
           "/proj/.yarn/dep" ["/elsewhere"]).
  - reflexivity.
  - repeat constructor.
  - reflexivity.
Defined.

Lemma resolveUrl_total_miss_returns_last_result_witness :
  resolveUrl Demo.build "nothing/here" (Some ["/proj/.yarn/other"; "/proj/.yarn/dep"])
  = ([asked "nothing/here" (Some "/proj"); asked "nothing/here" (Some "/proj/.yarn/other");
      asked "nothing/here" (Some "/proj/.yarn/dep")],
     Normal (answer Demo.build "nothing/here" (Some "/proj/.yarn/dep"))).
Proof.
  apply (resolveUrl_total_miss_returns_last_result Demo.build "nothing/here"
           ["/proj/.yarn/other"] "/proj/.yarn/dep").
  - reflexivity.
  - repeat constructor.
Defined.

(** ** The importer's calls of the bundler *)

Lemma first_resolved_calls build url roots :
  (Order.first_resolved build url roots).1 `prefix_of` (asked url <$> roots)
  /\ ((Order.first_resolved build url roots).2 = Normal None ->
      (Order.first_resolved build url roots).1 = asked url <$> roots).
Proof.
  induction roots as [|root rest [IHprefix IHall]]; [done|].
  rewrite first_resolved_cons, Resolving_bind_ask, fmap_cons. cbn [fst snd].
  fold (Order.from root). fold (asked url root).
  destruct (Js.nonempty _).
  - split; [|done]. apply prefix_cons, prefix_nil.
  - split; [by apply prefix_cons|]. intros Hnone. f_equal. by apply IHall.
Qed.

(** X4.  When the bundler finds the specifier from the working directory,
    the importer reports the path found and asks nothing else: the
    package manifest is not looked for. *)
Theorem importer_direct_hit_asks_once cwd build url options :
  resolves build url (Order.primary build) = true ->
  findFileUrl cwd (resolveUrl build) url options
  = ([asked url (Order.primary build)],
     Normal (Some (NodeUrl.pathToFileURL cwd
                     (Esbuild.path (answer build url (Order.primary build)))))).
Proof.
  intros Hfound. rewrite findFileUrl_resolution.
  unfold Order.resolution, Order.strategies. rewrite !fmap_cons.
  cbn [Order.first_found Order.attempt]. fold (Order.primary build).
  by rewrite (first_resolved_hit build url _ [] Hfound).
Qed.

(** X5.  Without previously resolved modules the two last strategies
    repeat the calls of the two first and cannot find more: a specifier
    found neither directly nor through its manifest costs four calls, all
    from the working directory, and is reported not-found. *)
Theorem importer_without_modules_repeats_its_calls cwd build url options :
  default [] (SassService.previousResolvedModules options) = [] ->
  let root := Order.primary build in
  let manifest := Order.manifestOf url in
  findFileUrl cwd (resolveUrl build) url options
  = if resolves build url root then
      ([asked url root],
       Normal (Some (NodeUrl.pathToFileURL cwd (Esbuild.path (answer build url root)))))
    else if resolves build manifest root then
      ([asked url root; asked manifest root],
       Normal (Some (Order.deepImport cwd url (Esbuild.path (answer build manifest root)))))
    else
      ([asked url root; asked manifest root; asked url root; asked manifest root],
       Normal None).
Proof.
  intros Hnone root manifest. rewrite findFileUrl_resolution.
  unfold Order.resolution, Order.strategies. rewrite !fmap_cons.
  cbn [Order.first_found Order.attempt fmap list_fmap]. fold (Order.primary build).
  fold root. fold manifest. rewrite Hnone. cbn [fmap list_fmap].
  destruct (resolves build url root) eqn:Hurl.
  - by rewrite (first_resolved_hit build url _ [] Hurl).
  - rewrite (first_resolved_missed build url _ Hurl).
    destruct (resolves build manifest root) eqn:Hmanifest.
    + by rewrite (first_resolved_hit build manifest _ [] Hmanifest).
    + by rewrite (first_resolved_missed build manifest _ Hmanifest).
Qed.

(** X6.  Whatever the bundler answers, the calls the importer makes are an
    initial part of one fixed plan: the specifier and its manifest from
    the working directory, then the specifier over the search roots, then
    the manifest over them.  So the bundler is asked at most
    [4 + 2 * n] times for [n] previously resolved modules, and only for
    the specifier and for its package manifest - never for the path the
    importer reports. *)
Theorem importer_calls_follow_plan cwd build url options :
  let previous := SassService.previousResolvedModules options in
  let calls := (findFileUrl cwd (resolveUrl build) url options).1 in
  calls `prefix_of` importer_plan build url previous
  /\ List.length calls <= 4 + 2 * List.length (default [] previous)
  /\ Forall (fun call => call.1 = url \/ call.1 = Order.manifestOf url) calls.
Proof.
  intros previous calls.
  assert (Hprefix : calls `prefix_of` importer_plan build url previous).
  { subst calls. rewrite findFileUrl_resolution.
    unfold Order.resolution, Order.strategies, importer_plan.
    cbn [fmap list_fmap Order.first_found Order.attempt]. fold (Order.primary build).
    fold previous.
    change (Order.primary build :: (Some <$> default [] previous))
      with (search_roots build previous).
    generalize (search_roots build previous). intros roots.
    destruct (first_resolved_calls build url [Order.primary build]) as [_ H1].
    destruct (first_resolved_calls build (Order.manifestOf url) [Order.primary build])
      as [_ H2].
    destruct (first_resolved_calls build url roots) as [P3 H3].
    destruct (first_resolved_calls build (Order.manifestOf url) roots) as [P4 H4].
    destruct (first_resolved_returns build url [Order.primary build]) as (c1 & f1 & E1).
    destruct (first_resolved_returns build (Order.manifestOf url) [Order.primary build])
      as (c2 & f2 & E2).
    destruct (first_resolved_returns build url roots) as (c3 & f3 & E3).
    destruct (first_resolved_returns build (Order.manifestOf url) roots) as (c4 & f4 & E4).
    rewrite E1, E2, E3, E4 in *. cbn [fst snd] in *.
    assert (Hc1 : c1 = [asked url (Order.primary build)]).
    { rewrite first_resolved_single in E1. by injection E1 as <- _. }
    assert (Hc2 : c2 = [asked (Order.manifestOf url) (Order.primary build)]).
    { rewrite first_resolved_single in E2. by injection E2 as <- _. }
    subst c1 c2. unfold mbind, Resolving_bind, mret, Resolving_ret.
    destruct f1 as [p1|]; cbn [fmap option_fmap option_map fst].
    { apply prefix_cons, prefix_nil. }
    destruct f2 as [p2|]; cbn [fmap option_fmap option_map fst].
    { cbn [app]. apply prefix_cons, prefix_cons, prefix_nil. }
    destruct f3 as [p3|]; cbn [fmap option_fmap option_map fst].
    { rewrite !app_nil_r. cbn [app]. do 2 apply prefix_cons. by apply prefix_app_r. }
    rewrite (H3 eq_refl).
    destruct f4 as [p4|]; cbn [fmap option_fmap option_map fst];
      rewrite ?app_nil_r; cbn [app]; do 2 apply prefix_cons; by apply prefix_app. }
  split; [done|]. split.
  - apply prefix_length in Hprefix. etrans; [exact Hprefix|].
    unfold importer_plan, search_roots. rewrite !length_app, !length_fmap.
    cbn [List.length]. rewrite length_fmap. lia.
  - destruct Hprefix as [later Hplan].
    assert (Hall : Forall (fun call : ResolveCall =>
                             call.1 = url \/ call.1 = Order.manifestOf url)
                     (importer_plan build url previous)).
    { unfold importer_plan. apply Forall_app_2; [|apply Forall_app_2].
      - apply Forall_cons_2; [by left|]. apply Forall_cons_2; [by right|]. constructor.
      - apply Forall_fmap, Forall_forall. intros root _. by left.
      - apply Forall_fmap, Forall_forall. intros root _. by right. }
    rewrite Hplan in Hall. by apply Forall_app in Hall as [? _].
Qed.

Lemma importer_direct_hit_asks_once_witness :
  Demo.importer "./theme" (Some ["/proj/.yarn/dep"])
  = ([asked "./theme" (Some "/proj")],
     Normal (Some (mkURL "file:" "" "/proj/src/theme.scss"))).
Proof.
  apply (importer_direct_hit_asks_once Demo.cwd Demo.build "./theme"
           (Run.importer_options (Some ["/proj/.yarn/dep"]))).
  reflexivity.
Defined.

Lemma importer_without_modules_repeats_its_calls_witness :
  Demo.importer "nothing/here" None
  = ([asked "nothing/here" (Some "/proj"); asked "nothing/package.json" (Some "/proj");
      asked "nothing/here" (Some "/proj"); asked "nothing/package.json" (Some "/proj")],
     Normal None).
Proof.
  apply (importer_without_modules_repeats_its_calls Demo.cwd Demo.build "nothing/here"
           (Run.importer_options None)).
  reflexivity.
Defined.

(** ** File URLs and paths *)

Lemma decodeURIComponent_encodePath (s : string) :
  NodeUrl.decodeURIComponent (NodeUrl.encodePath s) = Normal s.
Proof.
  induction s as [|c rest IH]; [reflexivity|].
  cbn [NodeUrl.encodePath].
  destruct (NodeUrl.escaped_in_path c) eqn:Hescaped.
  - cbn [NodeUrl.decodeURIComponent]. change (Ascii.eqb "%" "%") with true. cbn match.
    assert (Hhex : NodeUrl.hex_value (NodeUrl.hex_digit (nat_of_ascii c / 16))
                   = Some (nat_of_ascii c / 16)
                   /\ NodeUrl.hex_value (NodeUrl.hex_digit (nat_of_ascii c mod 16))
                      = Some (nat_of_ascii c mod 16)
                   /\ ascii_of_nat (16 * (nat_of_ascii c / 16) + nat_of_ascii c mod 16) = c).
    { clear. destruct c as [[] [] [] [] [] [] [] []]; vm_compute; done. }
    destruct Hhex as (-> & -> & ->). by rewrite IH.
  - cbn [NodeUrl.decodeURIComponent].
    assert (Hplain : Ascii.eqb c "%" = false).
    { clear -Hescaped. destruct c as [[] [] [] [] [] [] [] []]; vm_compute in *; done. }
    rewrite Hplain. by rewrite IH.
Qed.

Lemma has_encoded_slash_encodePath (s : string) :
  NodeUrl.has_encoded_slash (NodeUrl.encodePath s) = false.
Proof.
  induction s as [|c rest IH]; [reflexivity|].
  cbn [NodeUrl.encodePath]. revert IH. generalize (NodeUrl.encodePath rest). intros tail IH.
  assert (Hstep : NodeUrl.has_encoded_slash
                    (if NodeUrl.escaped_in_path c
                     then String "%" (String (NodeUrl.hex_digit (nat_of_ascii c / 16))
                                        (String (NodeUrl.hex_digit (nat_of_ascii c mod 16)) tail))
                     else String c tail)
                  = NodeUrl.has_encoded_slash tail).
  { clear. destruct c as [[] [] [] [] [] [] [] []]; reflexivity. }
  by rewrite Hstep.
Qed.

Lemma fileURLToPath_pathToFileURL (cwd filepath : string) :
  NodeUrl.fileURLToPath (NodeUrl.pathToFileURL cwd filepath) = Normal (url_path cwd filepath).
Proof.
  unfold NodeUrl.fileURLToPath, NodeUrl.pathToFileURL. cbn [protocol hostname pathname].
  rewrite has_encoded_slash_encodePath. cbn [negb]. apply decodeURIComponent_encodePath.
Qed.

Lemma resolution_reports_path cwd build url fallback calls reported :
  Order.resolution cwd build url fallback = (calls, Normal (Some reported)) ->
  exists filepath, reported = NodeUrl.pathToFileURL cwd filepath.
Proof.
  unfold Order.resolution, Order.strategies. rewrite !fmap_cons.
  cbn [Order.first_found Order.attempt fmap list_fmap]. unfold Order.deepImport.
  repeat match goal with
         | |- context [Order.first_resolved ?b ?u ?r] =>
             let found := fresh "found" in
             destruct (first_resolved_returns b u r) as (? & found & ->);
             unfold mbind at 1 2, Resolving_bind, mret, Resolving_ret;
             destruct found; cbn [fmap option_fmap option_map];
             [intros [= _ <-]; by eexists|]
         end.
  done.
Qed.

(** X7.  Every URL the importer reports is a [file:] URL without a host
    that [fileURLToPath] - which [compileString] later applies to the
    loaded URLs - turns back into a path without throwing, whatever the
    bundler answered and whatever characters the path holds. *)
Theorem importer_reports_convertible_file_urls cwd build url options reported :
  (findFileUrl cwd (resolveUrl build) url options).2 = Normal (Some reported) ->
  protocol reported = "file:" /\ hostname reported = ""
  /\ exists filepath,
       reported = NodeUrl.pathToFileURL cwd filepath
       /\ NodeUrl.fileURLToPath reported = Normal (url_path cwd filepath).
Proof.
  rewrite findFileUrl_resolution.
  destruct (Order.resolution cwd build url _) as [calls completion] eqn:Hresolution.
  cbn [snd]. intros ->.
  apply resolution_reports_path in Hresolution as [filepath ->].
  repeat split. exists filepath. split; [done|]. apply fileURLToPath_pathToFileURL.
Qed.

Lemma importer_reports_convertible_file_urls_witness :
  protocol (mkURL "file:" "" "/proj/node_modules/@scope/pkg/sub/path") = "file:"
  /\ hostname (mkURL "file:" "" "/proj/node_modules/@scope/pkg/sub/path") = ""
  /\ exists filepath,
       mkURL "file:" "" "/proj/node_modules/@scope/pkg/sub/path"
       = NodeUrl.pathToFileURL Demo.cwd filepath
       /\ NodeUrl.fileURLToPath (mkURL "file:" "" "/proj/node_modules/@scope/pkg/sub/path")
          = Normal (url_path Demo.cwd filepath).
Proof.
  apply (importer_reports_convertible_file_urls Demo.cwd Demo.build "@scope/pkg/sub/path"
           (Run.importer_options None)).
  reflexivity.
Defined.

(** ** What [compileString] does to the world, and what it returns *)

(** X8.  [compileString] acts on the worker alone: it leaves the worker
    started - the one that was, or a new one - and the cache and the files
    as they were, and it asks the worker for exactly one compilation, of
    the text it was given, or for none when it has no file path. *)
Theorem compileString_touches_only_the_worker
  cwd sassService {C} data filePath syntax options resolveUrl (w : World C) :
  let after := (compileString cwd sassService data filePath syntax options resolveUrl w).2 in
  sassWorkerPool after = Some (worker sassService w)
  /\ cache after = cache w
  /\ files after = files w
  /\ compilations after
     = compilations w ++ requested cwd data filePath syntax options resolveUrl.
Proof.
  destruct filePath as [filePath|]; cbn zeta.
  - by rewrite compileString_Some.
  - unfold compileString, mbind, Handler_bind, ensureWorkerPool, worker, requested.
    destruct w as [[pool|] store fs done]; cbn; by rewrite app_nil_r.
Qed.

Lemma compileString_catch_shape warnings error result :
  compileString_catch warnings error = Normal result ->
  exists message watchFiles,
    result = failure message warnings watchFiles
    /\ (watchFiles = None \/ exists file, watchFiles = Some [file] /\ file <> "").
Proof.
  unfold compileString_catch. destruct (isSassException error); [|done].
  destruct error as [| | | | |exception|]; try done.
  destruct (Sass.span_url (Sass.span exception)) as [url|].
  - destruct (NodeUrl.fileURLToPath url) as [file|]; [|done]. cbn.
    intros [= <-]. eexists _, _. split; [reflexivity|].
    unfold Js.nonempty. destruct (String.eqb_spec file ""); [by left|].
    right. by exists file.
  - cbn. intros [= <-]. eexists _, _. split; [reflexivity|by left].
Qed.

(** X9.  Whatever the compiler does, a result [compileString] returns is
    of one of two shapes: CSS contents with the watched files and no
    errors, or exactly one error without location, no contents, and at
    most one watched file; both carry the loader [css] and a list of
    warnings. *)
Theorem compileString_returns_success_or_one_error
  cwd sassService {C} data filePath syntax options resolveUrl (w : World C) result :
  (compileString cwd sassService data filePath syntax options resolveUrl w).1
    = Normal result ->
  exists warnings,
    (exists contents watchFiles, result = success contents warnings watchFiles)
    \/ (exists message watchFiles,
          result = failure message warnings watchFiles
          /\ (watchFiles = None \/ exists file, watchFiles = Some [file] /\ file <> "")).
Proof.
  destruct filePath as [filePath|].
  - rewrite compileString_Some. cbn [fst].
    set (run := SassService.compileStringAsync _ _ _).
    destruct (logged (SassService.warned run) []) as [warnings thrown]. cbn [fst snd].
    intros Hresult. exists warnings. revert Hresult.
    destruct thrown as [error|]; [|destruct (SassService.settled run) as [compiled|error]];
      cbn [Js.try_catch]; try (by right; apply (compileString_catch_shape _ error)).
    destruct (_ ≫= _) as [result'|error] eqn:Hpost; cbn [Js.try_catch] in *.
    + intros [= <-]. left.
      destruct (match SassService.result_sourceMap compiled with Some _ => _ | None => _ end)
        as [contents|]; [|done].
      cbn in Hpost. destruct (mapM _ _) as [watchFiles|]; [|done].
      cbn in Hpost. injection Hpost as <-. by eexists _, _.
    + intros Hcatch. right. by apply (compileString_catch_shape _ error).
  - destruct (compileString_None cwd sassService data syntax options resolveUrl w)
      as (w' & -> & _). done.
Qed.

Lemma compileString_returns_success_or_one_error_witness :
  exists warnings,
    (exists contents watchFiles, Run.failed_result = success contents warnings watchFiles)
    \/ (exists message watchFiles,
          Run.failed_result = failure message warnings watchFiles
          /\ (watchFiles = None \/ exists file, watchFiles = Some [file] /\ file <> "")).
Proof.
  apply (compileString_returns_success_or_one_error Demo.cwd Demo.compiler "a {"
           (Some "/proj/src/a.scss") Sass.scss (Demo.options false) (resolveUrl Demo.build)
           Demo.world).
  reflexivity.
Defined.

(** ** Conversions that fail *)

Lemma fileURLToPath_throws (url : URL) error :
  NodeUrl.fileURLToPath url = Throw error -> conversion_error error.
Proof.
  unfold NodeUrl.fileURLToPath, conversion_error.
  repeat (case_match; [by intros [= <-]; left|]).
  intros ?%decodeURIComponent_throws. by right.
Qed.

Lemma conversion_error_rethrown warnings error :
  conversion_error error -> compileString_catch warnings error = Throw error.
Proof. by intros [-> | ->]. Qed.

Lemma mapM_fileURLToPath_throws (urls : list URL) :
  forallb convertible urls = false ->
  exists error, mapM NodeUrl.fileURLToPath urls = Throw error /\ conversion_error error.
Proof.
  induction urls as [|url rest IH]; [done|]. cbn [forallb mapM]. unfold convertible at 1.
  destruct (NodeUrl.fileURLToPath url) as [path|error] eqn:Hurl.
  - cbn [andb]. intros (error & -> & Herror)%IH. by exists error.
  - intros _. exists error. split; [done|]. by apply fileURLToPath_throws in Hurl.
Qed.

Lemma sourceMapToUrlComment_throws cwd sourceMap root error :
  sourceMapToUrlComment cwd sourceMap root = Throw error -> conversion_error error.
Proof.
  unfold sourceMapToUrlComment.
  destruct (JSON.get "sources" sourceMap) as [[| | | |sources|]|];
    try (by intros [= <-]; left).
  destruct (mapM _ sources) as [paths|error'] eqn:Hsources; [done|].
  cbn. intros [= <-]. revert error' Hsources.
  induction sources as [|source rest IH]; [done|]. intros error. cbn [mapM].
  destruct source as [| | |source| |]; try (by intros [= <-]; left).
  destruct (NodeUrl.fileURLToPath_string source) as [path|error'] eqn:Hsource.
  - cbn. destruct (mapM _ rest) as [paths|error'] eqn:Hrest; [done|].
    cbn. intros [= <-]. by apply IH.
  - cbn. intros [= <-]. by apply fileURLToPath_string_throws in Hsource.
Qed.

(** X10.  When the compiler resolves but one of the URLs it loaded is not
    one [fileURLToPath] accepts - not a [file:] URL, say - the compiled
    CSS is lost: [compileString] throws a [TypeError] or a [URIError]
    instead of returning a result, with or without errors. *)
Theorem unconvertible_loaded_url_discards_the_css
  cwd sassService {C} data filePath syntax options resolveUrl (w : World C)
  compiled warnings :
  let stringOptions := compileOptions cwd filePath syntax options resolveUrl in
  let run := SassService.compileStringAsync (worker sassService w) data stringOptions in
  SassService.settled run = SassService.Resolved compiled ->
  logged (SassService.warned run) [] = (warnings, None) ->
  forallb convertible (SassService.loadedUrls compiled) = false ->
  exists error,
    (compileString cwd sassService data (Some filePath) syntax options resolveUrl w).1
      = Throw error
    /\ conversion_error error.
Proof.
  intros stringOptions run Hresolved Hwarnings Hurls.
  rewrite compileString_Some. fold stringOptions. fold run.
  rewrite Hwarnings, Hresolved. cbn [fst snd].
  destruct (mapM_fileURLToPath_throws _ Hurls) as (error & Hthrows & Herror).
  destruct (match SassService.result_sourceMap compiled with Some _ => _ | None => _ end)
    as [contents|error'] eqn:Hcontents.
  - exists error. split; [|done]. cbn. rewrite Hthrows. cbn.
    by apply conversion_error_rethrown.
  - assert (Herror' : conversion_error error').
    { destruct (SassService.result_sourceMap compiled) as [sourceMap|]; [|done].
      destruct (sourceMapToUrlComment cwd sourceMap _) as [comment|error''] eqn:Hcomment;
        [done|].
      cbn in Hcontents. injection Hcontents as <-.
      by apply sourceMapToUrlComment_throws in Hcomment. }
    exists error'. split; [|done]. cbn. by apply conversion_error_rethrown.
Qed.

(** X11.  A source map without an array of [sources] makes
    [sourceMapToUrlComment] throw a [TypeError], and with it
    [compileString]: the CSS the compiler produced is not returned. *)
Theorem source_map_without_sources_is_a_type_error
  cwd sassService {C} data filePath syntax options resolveUrl (w : World C)
  compiled sourceMap warnings :
  let stringOptions := compileOptions cwd filePath syntax options resolveUrl in
  let run := SassService.compileStringAsync (worker sassService w) data stringOptions in
  has_sources sourceMap = false ->
  (forall root, sourceMapToUrlComment cwd sourceMap root = Throw Js.TypeError)
  /\ (SassService.settled run = SassService.Resolved compiled ->
      logged (SassService.warned run) [] = (warnings, None) ->
      SassService.result_sourceMap compiled = Some sourceMap ->
      (compileString cwd sassService data (Some filePath) syntax options resolveUrl w).1
        = Throw Js.TypeError).
Proof.
  intros stringOptions run Hsources.
  assert (Hcomment : forall root,
            sourceMapToUrlComment cwd sourceMap root = Throw Js.TypeError).
  { intros root. unfold sourceMapToUrlComment. unfold has_sources in Hsources.
    by destruct (JSON.get "sources" sourceMap) as [[| | | |sources|]|]. }
  split; [done|]. intros Hresolved Hwarnings HsourceMap.
  rewrite compileString_Some. fold stringOptions. fold run.
  rewrite Hwarnings, Hresolved, HsourceMap, Hcomment. done.
Qed.

(** X12.  A compiler exception whose span carries a URL that
    [fileURLToPath] does not accept is not reported as an error of the
    stylesheet: the conversion throws inside the [catch] clause, and
    [compileString] throws a [TypeError] or a [URIError] in place of the
    exception. *)
Theorem exception_with_unconvertible_span_is_masked
  cwd sassService {C} data filePath syntax options resolveUrl (w : World C)
  exception url warnings :
  let stringOptions := compileOptions cwd filePath syntax options resolveUrl in
  let run := SassService.compileStringAsync (worker sassService w) data stringOptions in
  SassService.settled run = SassService.Rejected (js_Exception exception) ->
  logged (SassService.warned run) [] = (warnings, None) ->
  Sass.span_url (Sass.span exception) = Some url ->
  convertible url = false ->
  exists error,
    (compileString cwd sassService data (Some filePath) syntax options resolveUrl w).1
      = Throw error
    /\ conversion_error error.
Proof.
  intros stringOptions run Hrejected Hwarnings Hspan Hurl.
  rewrite compileString_Some. fold stringOptions. fold run.
  rewrite Hwarnings, Hrejected. cbn [fst snd Js.try_catch].
  unfold compileString_catch. cbn [isSassException]. rewrite Hspan.
  unfold convertible in Hurl.
  destruct (NodeUrl.fileURLToPath url) as [path|error] eqn:Hpath; [done|].
  exists error. split; [done|]. by apply fileURLToPath_throws in Hpath.
Qed.

Lemma unconvertible_loaded_url_discards_the_css_witness :
  exists error, (Remote.compile "a { b: c }").1 = Throw error /\ conversion_error error.
Proof.
  apply (unconvertible_loaded_url_discards_the_css Demo.cwd Remote.compiler "a { b: c }"
           "/proj/src/ok.scss" Sass.scss (Demo.options true) (resolveUrl Demo.build)
           Demo.world
           {| SassService.css := "a { b: c }";
              SassService.result_sourceMap := None;
              SassService.loadedUrls :=
                [NodeUrl.pathToFileURL Demo.cwd "/proj/src/ok.scss"; Remote.url] |} []).
  - reflexivity.
  - reflexivity.
  - reflexivity.
Defined.

Lemma source_map_without_sources_is_a_type_error_witness :
  (Remote.compile "map").1 = Throw Js.TypeError.
Proof.
  refine (proj2 (source_map_without_sources_is_a_type_error Demo.cwd Remote.compiler "map"
                   "/proj/src/ok.scss" Sass.scss (Demo.options true) (resolveUrl Demo.build)
                   Demo.world
                   {| SassService.css := "map";
                      SassService.result_sourceMap := Some [("version", JSON.Number 3)];
                      SassService.loadedUrls :=
                        [NodeUrl.pathToFileURL Demo.cwd "/proj/src/ok.scss"] |}
                   [("version", JSON.Number 3)] [] _) _ _ _); reflexivity.
Defined.

Lemma exception_with_unconvertible_span_is_masked_witness :
  exists error, (Remote.compile "a {").1 = Throw error /\ conversion_error error.
Proof.
  apply (exception_with_unconvertible_span_is_masked Demo.cwd Remote.compiler "a {"
           "/proj/src/ok.scss" Sass.scss (Demo.options true) (resolveUrl Demo.build)
           Demo.world (Demo.syntax_error Remote.url) Remote.url []).
  - reflexivity.
  - reflexivity.
  - reflexivity.
  - reflexivity.
Defined.

(** ** Paths that come back from their URLs *)

Lemma url_path_nonempty (cwd filepath : string) : url_path cwd filepath <> "".
Proof.
  unfold url_path, NodePath.resolve. cbv zeta.
  match goal with |- context [Js.join "/" ?segments] => generalize (Js.join "/" segments) end.
  intros body. change ("/" +:+ body) with (String "/"%char body).
  by destruct (_ && _).
Qed.

Lemma resolve_absolute (cwd : string) (segments : list string) :
  Forall Order.plain segments ->
  NodePath.resolve cwd (Order.absolute segments) = Order.absolute segments.
Proof.
  intros Hall. unfold NodePath.resolve, Order.absolute. cbv zeta.
  change ("/" +:+ Js.join "/" segments) with (String "/"%char (Js.join "/" segments)).
  rewrite isAbsolute_slash.
  destruct (decide (segments = [])) as [->|Hcons]; [reflexivity|].
  assert (Hsplit : Js.split NodePath.slash (String "/"%char (Js.join "/" segments))
                   = "" :: segments).
  { cbn [Js.split]. unfold NodePath.slash. rewrite Ascii.eqb_refl. f_equal.
    apply (split_join "/"%char); [done|]. by apply plain_slash_free. }
  rewrite Hsplit. cbn [NodePath.normalizeSegments String.eqb orb].
  by rewrite normalizeSegments_plain.
Qed.

Lemma url_path_absolute (cwd : string) (segments : list string) :
  Forall Order.plain segments ->
  url_path cwd (Order.absolute segments) = Order.absolute segments.
Proof.
  intros Hall. unfold url_path. cbv zeta. rewrite resolve_absolute by done.
  by destruct (Js.endsWith "/" (Order.absolute segments)).
Qed.

Lemma mapM_fileURLToPath_pathToFileURL (cwd : string) (paths : list string) :
  mapM NodeUrl.fileURLToPath (NodeUrl.pathToFileURL cwd <$> paths)
  = Normal (url_path cwd <$> paths).
Proof.
  induction paths as [|path rest IH]; [done|].
  rewrite !fmap_cons. cbn [mapM]. rewrite fileURLToPath_pathToFileURL, IH. done.
Qed.

(** X13.  When the URLs the compiler loaded are the ones the plugin made
    itself - the URL of the compiled file, and what the importer reported -
    their conversion cannot fail: every result returned watches exactly
    the resolved paths of those files, in order, and without a source map
    the compilation always returns. *)
Theorem watch_files_are_the_loaded_paths
  cwd sassService {C} data filePath syntax options resolveUrl (w : World C)
  compiled warnings paths :
  let stringOptions := compileOptions cwd filePath syntax options resolveUrl in
  let run := SassService.compileStringAsync (worker sassService w) data stringOptions in
  let outcome :=
    (compileString cwd sassService data (Some filePath) syntax options resolveUrl w).1 in
  SassService.settled run = SassService.Resolved compiled ->
  logged (SassService.warned run) [] = (warnings, None) ->
  SassService.loadedUrls compiled = NodeUrl.pathToFileURL cwd <$> paths ->
  (forall result,
     outcome = Normal result ->
     Esbuild.watchFiles result = Some (url_path cwd <$> paths)
     /\ Esbuild.errors result = None)
  /\ (SassService.result_sourceMap compiled = None ->
      outcome
      = Normal (success (SassService.css compiled) warnings (url_path cwd <$> paths))).
Proof.
  intros stringOptions run outcome Hresolved Hwarnings Hurls. subst outcome.
  rewrite compileString_Some. fold stringOptions. fold run.
  rewrite Hwarnings, Hresolved, Hurls, mapM_fileURLToPath_pathToFileURL. cbn [fst snd].
  split.
  - intros result.
    destruct (SassService.result_sourceMap compiled) as [sourceMap|]; [|by intros [= <-]].
    destruct (sourceMapToUrlComment cwd sourceMap _) as [comment|error] eqn:Hcomment.
    + cbn. by intros [= <-].
    + apply sourceMapToUrlComment_throws in Hcomment. cbn.
      by rewrite conversion_error_rethrown.
  - by intros ->.
Qed.

Lemma watch_files_are_the_loaded_paths_witness :
  (compileString Demo.cwd Demo.compiler "a { b: c }" (Some "/proj/src/ok.scss") Sass.scss
     (Demo.options false) (resolveUrl Demo.build) Demo.world).1
  = Normal (success "a { b: c }" [] ["/proj/src/ok.scss"]).
Proof.
  refine (proj2 (watch_files_are_the_loaded_paths Demo.cwd Demo.compiler "a { b: c }"
                   "/proj/src/ok.scss" Sass.scss (Demo.options false) (resolveUrl Demo.build)
                   Demo.world
                   {| SassService.css := "a { b: c }";
                      SassService.result_sourceMap := None;
                      SassService.loadedUrls :=
                        [NodeUrl.pathToFileURL Demo.cwd "/proj/src/ok.scss"] |}
                   [] ["/proj/src/ok.scss"] _ _ _) _); reflexivity.
Defined.

(** X14.  A compiler exception located in a file whose URL the plugin
    made - the compiled file, or a file the importer reported - becomes an
    error result that watches that one file, by its resolved path; for a
    normalized absolute path, the path itself. *)
Theorem error_in_a_loaded_file_watches_it
  cwd sassService {C} data filePath syntax options resolveUrl (w : World C)
  exception warnings path :
  let stringOptions := compileOptions cwd filePath syntax options resolveUrl in
  let run := SassService.compileStringAsync (worker sassService w) data stringOptions in
  let outcome :=
    (compileString cwd sassService data (Some filePath) syntax options resolveUrl w).1 in
  SassService.settled run = SassService.Rejected (js_Exception exception) ->
  logged (SassService.warned run) [] = (warnings, None) ->
  Sass.span_url (Sass.span exception) = Some (NodeUrl.pathToFileURL cwd path) ->
  outcome = Normal (failure (Sass.message exception) warnings (Some [url_path cwd path]))
  /\ (forall segments,
        forallb Order.is_plain segments = true ->
        path = Order.absolute segments ->
        outcome = Normal (failure (Sass.message exception) warnings (Some [path]))).
Proof.
  intros stringOptions run outcome Hrejected Hwarnings Hspan.
  assert (Houtcome : outcome
            = Normal (failure (Sass.message exception) warnings (Some [url_path cwd path]))).
  { subst outcome. rewrite compileString_Some. fold stringOptions. fold run.
    rewrite Hwarnings, Hrejected. cbn [fst snd Js.try_catch].
    unfold compileString_catch. cbn [isSassException]. rewrite Hspan.
    rewrite fileURLToPath_pathToFileURL. cbn. unfold failure. do 2 f_equal.
    unfold Js.nonempty.
    by destruct (String.eqb_spec (url_path cwd path) "") as [?%url_path_nonempty|]. }
  split; [done|]. intros segments Hplain%is_plain_plain ->.
  by rewrite Houtcome, url_path_absolute.
Qed.

Lemma error_in_a_loaded_file_watches_it_witness :
  (compileString Demo.cwd Demo.compiler "a {" (Some "src/a.scss") Sass.scss
     (Demo.options false) (resolveUrl Demo.build) Demo.world).1
  = Normal
      (failure "expected }."
         [{| Esbuild.text := Some "Deprecation";
             Esbuild.location :=
               Some {| Esbuild.file := Some "/proj/src/a.scss";
                       Esbuild.lineText := Some "a { b: c / d }";
                       Esbuild.line := Some 1%Z;
                       Esbuild.column := Some 7%Z |};
             Esbuild.notes :=
               Some [{| Esbuild.note_text := Some "Using / for division is deprecated." |}] |}]
         (Some ["/proj/src/a.scss"])).
Proof.
  refine (proj1 (error_in_a_loaded_file_watches_it Demo.cwd Demo.compiler "a {"
                   "src/a.scss" Sass.scss (Demo.options false) (resolveUrl Demo.build)
                   Demo.world
                   (Demo.syntax_error (NodeUrl.pathToFileURL Demo.cwd "src/a.scss"))
                   _ "src/a.scss" _ _ _)); reflexivity.
Defined.

(** X15.  The location of a warning names the file of its span: no file
    when the span has no URL, the resolved path when the URL is one the
    plugin made; and a URL that [fileURLToPath] does not accept makes the
    [logger.warn] callback itself throw, a [TypeError] or a [URIError],
    without pushing a warning. *)
Theorem warning_location_names_the_file text options warnings span :
  SassService.span options = Some span ->
  (Sass.span_url span = None ->
   exists message location,
     warn text options warnings = Normal (warnings ++ [message])
     /\ Esbuild.location message = Some location
     /\ Esbuild.file location = None)
  /\ (forall cwd path,
        Sass.span_url span = Some (NodeUrl.pathToFileURL cwd path) ->
        exists message location,
          warn text options warnings = Normal (warnings ++ [message])
          /\ Esbuild.location message = Some location
          /\ Esbuild.file location = Some (url_path cwd path))
  /\ (forall url,
        Sass.span_url span = Some url ->
        convertible url = false ->
        exists error,
          warn text options warnings = Throw error /\ conversion_error error).
Proof.
  intros Hspan. unfold warn. rewrite Hspan. repeat split.
  - intros ->. by eexists _, _.
  - intros cwd path ->. rewrite fileURLToPath_pathToFileURL. by eexists _, _.
  - intros url -> Hurl. unfold convertible in Hurl.
    destruct (NodeUrl.fileURLToPath url) as [path|error] eqn:Hpath; [done|].
    exists error. split; [done|]. by apply fileURLToPath_throws in Hpath.
Qed.

Lemma warning_location_names_the_file_witness :
  exists message location,
    warn "Using / for division is deprecated."
      (Demo.division_warning (NodeUrl.pathToFileURL Demo.cwd "src/a.scss")).2 []
    = Normal ([] ++ [message])
    /\ Esbuild.location message = Some location
    /\ Esbuild.file location = Some "/proj/src/a.scss".
Proof.
  refine (proj1 (proj2 (warning_location_names_the_file
                          "Using / for division is deprecated."
                          (Demo.division_warning
                             (NodeUrl.pathToFileURL Demo.cwd "src/a.scss")).2 []
                          (Demo.span_at (NodeUrl.pathToFileURL Demo.cwd "src/a.scss") 0 7)
                          _)) Demo.cwd "src/a.scss" _); reflexivity.
Defined.

(** ** The load handlers *)

Section Loads.

Context (cwd : string) (sassService : SassService.SassWorkerImplementation).
Context {C : Type} `{LoadResultCache C}.
Context (options : SassPluginOptions).
Context (resolveUrl : string -> option (list string) -> Resolving Esbuild.ResolveResult).

Lemma compileString_without_path data syntax (w : World C) :
  compileString cwd sassService data None syntax options resolveUrl w
  = (Throw Js.TypeError, started sassService w).
Proof.
  unfold compileString, mbind, Handler_bind, ensureWorkerPool, started, worker.
  by destruct w as [[pool|] store fs done].
Qed.

Lemma load_component_unregistered (args : Esbuild.OnLoadArgs) (w : World C) :
  inline_data options args = None ->
  onLoad_component cwd sassService options resolveUrl args w = (Throw Js.AssertionError, w).
Proof.
  intros Hdata. unfold onLoad_component. handler_step. unfold settle.
  fold (inline_data options args). by rewrite Hdata.
Qed.

Lemma load_file_unreadable_world (args : Esbuild.OnLoadArgs) (w : World C) :
  cached (Esbuild.args_path args) w = None ->
  files w !! Esbuild.args_path args = None ->
  onLoad_file cwd sassService options resolveUrl args w = (Throw (js_Error "Error"), w).
Proof.
  intros Hmiss Hfile. unfold onLoad_file.
  cache_lookup (Esbuild.args_path args) w. rewrite Hmiss.
  handler_step. unfold readFile. by rewrite Hfile.
Qed.

Lemma load_component_without_path (args : Esbuild.OnLoadArgs) (w : World C) data :
  inline_data options args = Some data ->
  cached data w = None ->
  component_filePath (Esbuild.args_path args) = None ->
  onLoad_component cwd sassService options resolveUrl args w
  = (Throw Js.TypeError, started sassService w).
Proof.
  intros Hdata Hmiss Hpath. unfold component_filePath in Hpath.
  unfold onLoad_component. handler_step. unfold settle.
  fold (inline_data options args). rewrite Hdata.
  cache_lookup data w. rewrite Hmiss.
  rewrite Hpath. handler_step. by rewrite compileString_without_path.
Qed.

(** X16.  A load that fails before anything is compiled changes nothing:
    an inline style that is not registered - or no registered styles at
    all - fails the assertion, and a file that is not cached and cannot be
    read throws the error of [readFile]; in both cases the worker is not
    started and the cache is as it was. *)
Theorem loads_that_fail_early_change_nothing (args : Esbuild.OnLoadArgs) (w : World C) :
  (inline_data options args = None ->
   onLoad_component cwd sassService options resolveUrl args w
   = (Throw Js.AssertionError, w))
  /\ (cached (Esbuild.args_path args) w = None ->
      files w !! Esbuild.args_path args = None ->
      onLoad_file cwd sassService options resolveUrl args w
      = (Throw (js_Error "Error"), w)).
Proof.
  split; [apply load_component_unregistered|apply load_file_unreadable_world].
Qed.

(** X17.  An inline style whose path has fewer than three pieces between
    semicolons names no file: its load throws a [TypeError] after the
    worker was started, with nothing compiled and nothing cached. *)
Theorem inline_path_without_file_is_a_type_error
  (args : Esbuild.OnLoadArgs) (w : World C) data :
  inline_data options args = Some data ->
  cached data w = None ->
  (List.length (Js.split ";"%char (Esbuild.args_path args)) < 3)%nat ->
  onLoad_component cwd sassService options resolveUrl args w
  = (Throw Js.TypeError, started sassService w).
Proof.
  intros Hdata Hmiss Hshort. apply (load_component_without_path args w data Hdata Hmiss).
  unfold component_filePath, Js.split_limit. apply lookup_ge_None.
  rewrite length_take. lia.
Qed.

Lemma load_changes_finish (key : string) completion (w w1 : World C) request :
  files w1 = files w ->
  cache w1 = cache w ->
  sassWorkerPool w1 = Some (worker sassService w) ->
  compilations w1 = compilations w ++ request ->
  (List.length request <= 1)%nat ->
  load_changes sassService w (finish key completion w1).
Proof.
  intros Hfiles Hcache Hpool Hcompilations Hlength.
  assert (Hworker : sassWorkerPool w1 = sassWorkerPool w
                    \/ sassWorkerPool w = None /\ sassWorkerPool w1 = Some sassService).
  { rewrite Hpool. unfold worker. destruct (sassWorkerPool w); [by left|by right]. }
  unfold load_changes, finish. destruct completion as [result|error].
  - destruct (Esbuild.errors result) eqn:Herrors;
      cbn [fst snd stored sassWorkerPool cache files compilations].
    + repeat split; [done..|by exists request|by left].
    + repeat split; [done..|by exists request|].
      right. exists key, result. by rewrite Hcache.
  - cbn [fst snd]. repeat split; [done..|by exists request|by left].
Qed.

Lemma load_changes_nothing completion (w : World C) :
  load_changes sassService w (completion, w).
Proof.
  unfold load_changes. cbn [fst snd]. split; [done|]. split; [by left|].
  split; [|by left]. exists []. split; [by rewrite app_nil_r|cbn; lia].
Qed.

Lemma load_changes_started error (w : World C) :
  load_changes sassService w (Throw error, started sassService w).
Proof.
  unfold load_changes, started, worker. cbn [fst snd sassWorkerPool cache files compilations].
  split; [done|]. split; [destruct (sassWorkerPool w); [by left|by right]|].
  split; [|by left]. exists []. split; [by rewrite app_nil_r|cbn; lia].
Qed.

(** X18.  Of a load followed alone, from its start to its end with no
    other load in flight: whatever its arguments and however it ends, a
    load of either handler never changes the files, never stops or
    replaces a started worker, asks for at most one compilation, and
    writes to the cache only the result it returns, and only when that
    result has no errors.  With two loads in flight this is not so for the
    worker: the lazy start tests and assigns it across an [await], so both
    loads can find none started and the later assignment replaces the
    worker the other one started. *)
Theorem loads_change_little (args : Esbuild.OnLoadArgs) (w : World C) :
  load_changes sassService w (onLoad_file cwd sassService options resolveUrl args w)
  /\ load_changes sassService w
       (onLoad_component cwd sassService options resolveUrl args w).
Proof.
  split.
  - destruct (cached (Esbuild.args_path args) w) as [result|] eqn:Hcached.
    { rewrite (load_file_hit cwd sassService options resolveUrl args w result Hcached).
      apply load_changes_nothing. }
    destruct (files w !! Esbuild.args_path args) as [data|] eqn:Hfile.
    + rewrite (load_file_miss cwd sassService options resolveUrl args w data Hcached Hfile).
      by eapply load_changes_finish.
    + rewrite (load_file_unreadable_world args w Hcached Hfile).
      apply load_changes_nothing.
  - destruct (inline_data options args) as [data|] eqn:Hdata.
    2: { rewrite (load_component_unregistered args w Hdata). apply load_changes_nothing. }
    destruct (cached data w) as [result|] eqn:Hcached.
    { rewrite (load_component_hit cwd sassService options resolveUrl args w data result
                 Hdata Hcached).
      apply load_changes_nothing. }
    destruct (component_filePath (Esbuild.args_path args)) as [filePath|] eqn:Hpath.
    + rewrite (load_component_miss cwd sassService options resolveUrl args w data filePath
                 Hdata Hcached Hpath).
      by eapply load_changes_finish.
    + rewrite (load_component_without_path args w data Hdata Hcached Hpath).
      apply load_changes_started.
Qed.

End Loads.

Lemma loads_that_fail_early_change_nothing_witness :
  Demo.load_file false "/proj/src/missing.scss" Demo.world
  = (Throw (js_Error "Error"), Demo.world).
Proof.
  apply (proj2 (loads_that_fail_early_change_nothing Demo.cwd Demo.compiler
                  (Demo.options false) (resolveUrl Demo.build)
                  (Demo.file_args "/proj/src/missing.scss") Demo.world)).
  - reflexivity.
  - reflexivity.
Defined.

Lemma inline_path_without_file_is_a_type_error_witness :
  onLoad_component Demo.cwd Demo.compiler
    {| sourcemap := false; loadPaths := None;
       inlineComponentData := Some {[ "scss;comp-1" := "a { b: c }" ]} |}
    (resolveUrl Demo.build) (Demo.component_args "scss;comp-1") Demo.world
  = (Throw Js.TypeError, started Demo.compiler Demo.world).
Proof.
  apply (inline_path_without_file_is_a_type_error Demo.cwd Demo.compiler
           {| sourcemap := false; loadPaths := None;
              inlineComponentData := Some {[ "scss;comp-1" := "a { b: c }" ]} |}
           (resolveUrl Demo.build) (Demo.component_args "scss;comp-1") Demo.world
           "a { b: c }").
  - reflexivity.
  - reflexivity.
  - cbn. lia.
Defined.

(** ** Loads that follow one another *)

Section Sequences.

Context (cwd : string) (sassService : SassService.SassWorkerImplementation).
Context {C : Type} `{LoadResultCache C}.
Context (options : SassPluginOptions).
Context (resolveUrl : string -> option (list string) -> Resolving Esbuild.ResolveResult).

(** X19.  The cache of inline styles is keyed by the text alone.  Once an
    inline style has compiled without errors, any other inline style with
    the same text - under another path, another file, even the other
    dialect - gets that same result back, and nothing is compiled for
    it. *)
Theorem inline_styles_with_the_same_text_share_a_result
  (args args' : Esbuild.OnLoadArgs) (w w' : World C) data result :
  (forall store key result, get (put store key result) key = Some result) ->
  cache w <> None ->
  inline_data options args = Some data ->
  inline_data options args' = Some data ->
  onLoad_component cwd sassService options resolveUrl args w = (Normal result, w') ->
  Esbuild.errors result = None ->
  onLoad_component cwd sassService options resolveUrl args' w' = (Normal result, w').
Proof.
  intros Hlaw Hcache Hdata Hdata' Hload Herrors.
  apply (load_component_hit cwd sassService options resolveUrl args' w' data result Hdata').
  destruct (cached data w) as [hit|] eqn:Hcached.
  { rewrite (load_component_hit cwd sassService options resolveUrl args w data hit
               Hdata Hcached) in Hload.
    by injection Hload as <- <-. }
  destruct (component_filePath (Esbuild.args_path args)) as [filePath|] eqn:Hpath.
  - rewrite (load_component_miss cwd sassService options resolveUrl args w data filePath
               Hdata Hcached Hpath) in Hload.
    apply finish_spec in Hload as (_ & _ & Hstored). rewrite (Hstored Herrors).
    destruct (cache w) as [store|] eqn:Hstore; [|done].
    by apply (cached_stored data result _ store).
  - by rewrite (load_component_without_path cwd sassService options resolveUrl args w data
                  Hdata Hcached Hpath) in Hload.
Qed.

(** X20.  Without a cache nothing is remembered: a readable file is
    compiled at every load, so two loads of it in a row ask the worker for
    the same compilation twice, whatever the first load returned. *)
Theorem without_cache_every_load_compiles (args : Esbuild.OnLoadArgs) (w : World C) data :
  cache w = None ->
  files w !! Esbuild.args_path args = Some data ->
  let load := onLoad_file cwd sassService options resolveUrl args in
  let request :=
    (data, compileOptions cwd (Esbuild.args_path args)
             (file_syntax (Esbuild.args_path args)) options resolveUrl) in
  compilations (load w).2 = compilations w ++ [request]
  /\ compilations (load (load w).2).2 = compilations w ++ [request; request]
  /\ cache (load (load w).2).2 = None.
Proof.
  intros Hcache Hfile load request.
  assert (Hstep : forall w0 : World C,
            cache w0 = None -> files w0 !! Esbuild.args_path args = Some data ->
            compilations (load w0).2 = compilations w0 ++ [request]
            /\ cache (load w0).2 = None
            /\ files (load w0).2 = files w0).
  { intros w0 Hcache0 Hfile0. subst load. cbv beta.
    rewrite (load_file_miss cwd sassService options resolveUrl args w0 data);
      [|by unfold cached; rewrite Hcache0|done].
    cbv zeta. rewrite finish_compilations. split; [done|].
    unfold finish. destruct (compileString _ _ _ _ _ _ _ _).1 as [result|error]; [|done].
    destruct (Esbuild.errors result); cbn; by rewrite ?Hcache0. }
  destruct (Hstep w Hcache Hfile) as (Hone & Hcache1 & Hfiles1).
  split; [done|].
  destruct (Hstep (load w).2 Hcache1) as (Htwo & Hcache2 & _); [by rewrite Hfiles1|].
  split; [|done]. by rewrite Htwo, Hone, <- app_assoc.
Qed.

(** X21.  [shutdownSassWorkerPool] forgets the worker and nothing else.
    The cache outlives it: a load that hits the cache after a shutdown
    returns the cached result and starts no worker; a load that has to
    compile starts a new worker, whatever worker ran before, and asks it
    for the one compilation. *)
Theorem shutdown_keeps_the_cache_and_renews_the_worker
  (args : Esbuild.OnLoadArgs) (w : World C) :
  let stopped := (shutdownSassWorkerPool w).2 in
  let load := onLoad_file cwd sassService options resolveUrl args in
  sassWorkerPool stopped = None
  /\ cache stopped = cache w /\ files stopped = files w
  /\ compilations stopped = compilations w
  /\ (forall result,
        cached (Esbuild.args_path args) w = Some result ->
        load stopped = (Normal result, stopped))
  /\ (forall data,
        cached (Esbuild.args_path args) w = None ->
        files w !! Esbuild.args_path args = Some data ->
        sassWorkerPool (load stopped).2 = Some sassService
        /\ compilations (load stopped).2
           = compilations w
               ++ [(data, compileOptions cwd (Esbuild.args_path args)
                            (file_syntax (Esbuild.args_path args)) options resolveUrl)]).
Proof.
  intros stopped load. repeat split.
  - intros result Hhit.
    by apply (load_file_hit cwd sassService options resolveUrl args stopped result).
  - subst load. cbv beta.
    rewrite (load_file_miss cwd sassService options resolveUrl args stopped data); [|done..].
    cbv zeta. unfold finish.
    destruct (compileString _ _ _ _ _ _ _ _).1 as [result|error]; [|done].
    by destruct (Esbuild.errors result).
  - subst load. cbv beta.
    rewrite (load_file_miss cwd sassService options resolveUrl args stopped data); [|done..].
    cbv zeta. by rewrite finish_compilations.
Qed.

End Sequences.

Lemma inline_styles_with_the_same_text_share_a_result_witness :
  Twins.load "sass;comp-2;/proj/src/two.ts" Twins.first_load.2
  = (Normal (success "a { b: c }" [] ["/proj/src/one.ts"]), Twins.first_load.2).
Proof.
  apply (inline_styles_with_the_same_text_share_a_result Demo.cwd Demo.compiler
           Twins.options (resolveUrl Demo.build)
           (Demo.component_args "scss;comp-1;/proj/src/one.ts")
           (Demo.component_args "sass;comp-2;/proj/src/two.ts")
           Demo.world Twins.first_load.2 "a { b: c }").
  - intros store key result. apply lookup_insert_eq.
  - discriminate.
  - reflexivity.
  - reflexivity.
  - reflexivity.
  - reflexivity.
Defined.

Lemma without_cache_every_load_compiles_witness :
  let w := {| sassWorkerPool := None; cache := @None (gmap string Esbuild.OnLoadResult);
              files := files Demo.world; compilations := [] |} in
  let request :=
    ("a { b: c }",
     compileOptions Demo.cwd "/proj/src/ok.scss" Sass.scss (Demo.options false)
       (resolveUrl Demo.build)) in
  compilations (Demo.load_file false "/proj/src/ok.scss"
                  (Demo.load_file false "/proj/src/ok.scss" w).2).2
  = [request; request].
Proof.
  intros w request.
  refine (proj1 (proj2 (without_cache_every_load_compiles Demo.cwd Demo.compiler
                          (Demo.options false) (resolveUrl Demo.build)
                          (Demo.file_args "/proj/src/ok.scss") w "a { b: c }" _ _)));
    reflexivity.
Defined.

Lemma shutdown_keeps_the_cache_and_renews_the_worker_witness :
  Demo.load_file false "/proj/src/ok.scss" (shutdownSassWorkerPool Run.good_load.2).2
  = (Normal Run.good_result, (shutdownSassWorkerPool Run.good_load.2).2).
Proof.
  refine (proj1 (proj2 (proj2 (proj2 (proj2
            (shutdown_keeps_the_cache_and_renews_the_worker Demo.cwd Demo.compiler
               (Demo.options false) (resolveUrl Demo.build)
               (Demo.file_args "/proj/src/ok.scss") Run.good_load.2))))) Run.good_result _).
  reflexivity.
Defined.

(** ** Paths and dialects *)

Lemma endsWith_append (stem suffix : string) : Js.endsWith suffix (stem +:+ suffix) = true.
Proof.
  unfold Js.endsWith. apply bool_decide_eq_true. rewrite chars_append.
  by exists (list_ascii_of_string stem).
Qed.

Lemma component_path_pieces (language id file : string) :
  Js.contains ";"%char language = false ->
  Js.contains ";"%char id = false ->
  Js.split ";"%char (component_path language id file)
  = language :: id :: Js.split ";"%char file.
Proof.
  intros Hlanguage Hid. unfold component_path.
  change (language +:+ ";" +:+ id +:+ ";" +:+ file)
    with (language +:+ String ";"%char (id +:+ String ";"%char file)).
  by rewrite !split_app.
Qed.

(** X22.  The path of an inline style is read by its pieces between
    semicolons, of which only the first three count: the first piece
    chooses the dialect, indented for [sass] and SCSS for anything else,
    and the third is the file - cut at its first semicolon, if the file's
    path holds one. *)
Theorem inline_path_is_read_by_pieces (language id file : string) :
  Js.contains ";"%char language = false ->
  Js.contains ";"%char id = false ->
  component_syntax (component_path language id file)
  = (if String.eqb language "sass" then Sass.indented else Sass.scss)
  /\ (Js.contains ";"%char file = false ->
      component_filePath (component_path language id file) = Some file)
  /\ (forall before after,
        Js.contains ";"%char before = false ->
        file = before +:+ ";" +:+ after ->
        component_filePath (component_path language id file) = Some before).
Proof.
  intros Hlanguage Hid. unfold component_syntax, component_filePath, Js.split_limit.
  rewrite component_path_pieces by done.
  destruct (split_nonempty ";"%char file) as (piece & pieces & Hfile). rewrite Hfile.
  cbn [firstn lookup list_lookup]. repeat split.
  - destruct (String.eqb_spec language "sass") as [->|Hother]; [done|].
    case_bool_decide as Hsome; [|done]. by injection Hsome.
  - intros Hplain. rewrite split_plain in Hfile by done. by injection Hfile as <- _.
  - intros before after Hbefore ->.
    change (before +:+ ";" +:+ after) with (before +:+ String ";"%char after) in Hfile.
    rewrite split_app in Hfile by done. by injection Hfile as <- _.
Qed.

Lemma inline_path_is_read_by_pieces_witness :
  component_syntax "sass;comp-2;/proj/src/a;b.ts" = Sass.indented
  /\ component_filePath "sass;comp-2;/proj/src/a;b.ts" = Some "/proj/src/a".
Proof.
  destruct (inline_path_is_read_by_pieces "sass" "comp-2" "/proj/src/a;b.ts")
    as (Hsyntax & _ & Hcut); [reflexivity..|].
  split; [exact Hsyntax|].
  apply (Hcut "/proj/src/a" "b.ts"); reflexivity.
Defined.

Lemma rev_basename_component (chars : list ascii) :
  NodePath.rev_basename (rev chars) false = []
  <-> chars = [] \/ exists before, chars = before ++ [NodePath.slash].
Proof.
  destruct (decide (chars = [])) as [->|Hcons]; [by split; [left|]|].
  destruct (exists_last Hcons) as (before & c & ->). rewrite rev_unit.
  cbn [NodePath.rev_basename]. destruct (Ascii.eqb_spec c NodePath.slash) as [->|Hc].
  - split; [|done]. intros _. right. by exists before.
  - split; [done|]. intros [Hnil|[before' Heq]].
    + by destruct before.
    + by apply app_inj_tail in Heq as [_ ->].
Qed.

Lemma extname_with_extension (stem : string) (c1 c2 c3 c4 : ascii) :
  let extension := String "."%char (String c1 (String c2 (String c3 (String c4 "")))) in
  Forall (fun c => Ascii.eqb c NodePath.slash = false /\ Ascii.eqb c NodePath.dot = false)
    [c1; c2; c3; c4] ->
  NodePath.extname (stem +:+ extension)
  = if Js.nonempty stem && negb (Js.endsWith "/" stem) then extension else "".
Proof.
  intros extension Hchars. subst extension.
  apply Forall_cons in Hchars as [[S1 D1] Hchars].
  apply Forall_cons in Hchars as [[S2 D2] Hchars].
  apply Forall_cons in Hchars as [[S3 D3] Hchars].
  apply Forall_cons in Hchars as [[S4 D4] _].
  unfold NodePath.extname. rewrite chars_append, rev_app_distr.
  cbn [list_ascii_of_string rev app NodePath.rev_basename].
  rewrite S1, S2, S3, S4. cbn [NodePath.rev_basename].
  change (Ascii.eqb NodePath.dot NodePath.slash) with false. cbn match.
  cbn [NodePath.split_last_dot]. rewrite D1, D2, D3, D4.
  change (Ascii.eqb NodePath.dot NodePath.dot) with true. cbn match.
  pose proof (rev_basename_component (list_ascii_of_string stem)) as Hcomponent.
  destruct (NodePath.rev_basename (rev (list_ascii_of_string stem)) false)
    as [|c rest] eqn:Hbase.
  - destruct (proj1 Hcomponent eq_refl) as [Hnil|[before Hbefore]].
    + by destruct stem.
    + assert (Hends : Js.endsWith "/" stem = true).
      { unfold Js.endsWith. apply bool_decide_eq_true. rewrite Hbefore. by exists before. }
      rewrite Hends. by rewrite andb_false_r.
  - assert (Hne : Js.nonempty stem = true).
    { destruct stem; [|done]. done. }
    assert (Hends : Js.endsWith "/" stem = false).
    { unfold Js.endsWith. apply bool_decide_eq_false. intros [before Hbefore].
      assert (Hnil : c :: rest = []); [|done].
      apply Hcomponent. right. by exists before. }
    rewrite Hne, Hends. by destruct rest.
Qed.

(** X23.  The file rule takes every path that ends in [.sass] or [.scss],
    and the dialect follows the extension as [extname] reads it: a path
    that ends in [.scss] is SCSS, and one that ends in [.sass] is indented
    - except a file whose whole name is [.sass], which has no extension
    for [extname] and is compiled as SCSS. *)
Theorem file_dialect_follows_extname
  cwd sassService {C} `{LoadResultCache C} options build (stem : string) :
  let rules := setup (createSassPlugin cwd sassService options) build in
  accepted rules None (stem +:+ ".sass") = true
  /\ accepted rules None (stem +:+ ".scss") = true
  /\ file_syntax (stem +:+ ".scss") = Sass.scss
  /\ file_syntax (stem +:+ ".sass")
     = if Js.nonempty stem && negb (Js.endsWith "/" stem) then Sass.indented else Sass.scss.
Proof.
  intros rules. subst rules. unfold accepted, file_syntax.
  cbn [setup createSassPlugin existsb rule_namespace rule_filter].
  rewrite !endsWith_append. repeat split.
  - by rewrite orb_true_r.
  - rewrite (extname_with_extension stem "s" "c" "s" "s") by (repeat constructor).
    by destruct (_ && _).
  - rewrite (extname_with_extension stem "s" "a" "s" "s") by (repeat constructor).
    by destruct (_ && _).
Qed.

(** ** The source map comment *)

Lemma sextet_not_star (n : N) : Ascii.eqb "*" (Buffer.sextet n) = false.
Proof.
  unfold Buffer.sextet.
  destruct (nth_in_or_default (N.to_nat (n mod 64)) Buffer.alphabet "="%char) as [Hin| ->];
    [|done].
  revert Hin. generalize (nth (N.to_nat (n mod 64)) Buffer.alphabet "="%char).
  intros c Hin. vm_compute in Hin.
  repeat (destruct Hin as [<-|Hin]; [done|]). done.
Qed.

Lemma base64_without_star (bytes : list ascii) :
  Js.contains "*"%char (Buffer.toString_base64 bytes) = false.
Proof.
  remember (List.length bytes) as n eqn:Hn. revert bytes Hn.
  induction n as [n IH] using lt_wf_ind. intros bytes ->.
  destruct bytes as [|a [|b [|c rest]]]; cbn [Buffer.toString_base64]; cbv zeta;
    rewrite ?contains_cons, ?sextet_not_star; cbn [orb]; try done.
  apply (IH (List.length rest)); [cbn; lia|done].
Qed.

Lemma base64_length (bytes : list ascii) :
  String.length (Buffer.toString_base64 bytes) = (4 * ((List.length bytes + 2) / 3))%nat.
Proof.
  remember (List.length bytes) as n eqn:Hn. revert bytes Hn.
  induction n as [n IH] using lt_wf_ind. intros bytes ->.
  destruct bytes as [|a [|b [|c rest]]]; cbn [Buffer.toString_base64]; cbv zeta; try done.
  cbn [String.length List.length]. rewrite (IH (List.length rest)) by (cbn; lia || done).
  replace (S (S (S (List.length rest))) + 2)%nat with (1 * 3 + (List.length rest + 2))%nat
    by lia.
  rewrite Nat.div_add_l by done. lia.
Qed.

(** X24.  Whatever the source map holds, the comment made of it is the
    fixed head, a payload, and the closing [ */]; the payload is padded
    base64 - its length a multiple of four - and holds no [*], so that
    nothing in the source map can close the comment early. *)
Theorem source_map_comment_is_closed_only_at_its_end cwd sourceMap root comment rewritten :
  sourceMapToUrlComment cwd sourceMap root = Normal (comment, rewritten) ->
  exists payload,
    comment = comment_head +:+ payload +:+ " */"
    /\ Js.contains "*"%char payload = false
    /\ (String.length payload mod 4 = 0)%nat.
Proof.
  intros Hcomment.
  exists (Buffer.toString_base64
            (Buffer.from_utf8 (JSON.stringify (JSON.Object rewritten)))).
  split; [|split].
  - revert Hcomment. unfold sourceMapToUrlComment.
    destruct (match JSON.get "sources" sourceMap with Some _ => _ | None => _ end)
      as [sources|]; [|done].
    unfold mbind, Completion_bind, mret, Completion_ret. by intros [= <- <-].
  - apply base64_without_star.
  - rewrite base64_length, Nat.mul_comm. apply Nat.Div0.mod_mul.
Qed.

Lemma source_map_comment_is_closed_only_at_its_end_witness :
  exists payload,
    urlComment Run.ok_map_rewritten = comment_head +:+ payload +:+ " */"
    /\ Js.contains "*"%char payload = false
    /\ (String.length payload mod 4 = 0)%nat.
Proof.
  apply (source_map_comment_is_closed_only_at_its_end Demo.cwd Run.ok_map "/proj/src"
           (urlComment Run.ok_map_rewritten) Run.ok_map_rewritten).
  reflexivity.
Defined.

(** ** Deep imports that climb *)

Lemma normalizeSegments_app (allowAboveRoot : bool) (segments rest res : list string) :
  Forall Order.plain segments ->
  NodePath.normalizeSegments allowAboveRoot (segments ++ rest) res
  = NodePath.normalizeSegments allowAboveRoot rest (rev segments ++ res).
Proof.
  revert res. induction segments as [|segment segments IH]; intros res Hall; [done|].
  apply Forall_cons in Hall as [(Hne & Hdot & Hdots & _) Hrest].
  cbn [app NodePath.normalizeSegments].
  destruct (String.eqb_spec segment ""); [done|].
  destruct (String.eqb_spec segment "."); [done|].
  destruct (String.eqb_spec segment ".."); [done|]. cbn [orb].
  rewrite IH by done. cbn [rev]. by rewrite <- app_assoc.
Qed.

Lemma endsWith_slash_segment (before segment : string) :
  segment <> "" -> Js.contains "/"%char segment = false ->
  Js.endsWith "/" (before +:+ segment) = false.
Proof.
  intros Hne Hslash. unfold Js.endsWith.
  apply bool_decide_eq_false. intros [k Hk].
  rewrite chars_append in Hk. apply contains_elem_of in Hslash.
  destruct (decide (list_ascii_of_string segment = [])) as [Hnil|Hcons].
  - by destruct segment.
  - destruct (exists_last Hcons) as (cs & c & Hseg). rewrite Hseg in Hk, Hslash.
    rewrite app_assoc in Hk. apply app_inj_tail in Hk as [_ ->].
    apply Hslash. set_solver.
Qed.

(** Normalizing an absolute path in which [..] follows a folder drops
    both. *)
Lemma normalize_absolute_up (dir : list string) (folder : string) (path : list string) :
  Forall Order.plain dir -> Order.plain folder -> Forall Order.plain path ->
  NodePath.normalize (Order.absolute (dir ++ folder :: ".." :: path))
  = Order.absolute (dir ++ path).
Proof.
  intros Hdir Hfolder Hpath. unfold NodePath.normalize, Order.absolute.
  set (segments := dir ++ folder :: ".." :: path).
  change ("/" +:+ Js.join "/" segments) with (String "/"%char (Js.join "/" segments)).
  rewrite isAbsolute_slash. cbn [String.eqb negb].
  assert (Hfree : Forall (fun piece => Js.contains "/"%char piece = false) segments).
  { subst segments. apply Forall_app. split; [by apply plain_slash_free|].
    constructor; [by destruct Hfolder as (_ & _ & _ & ?)|].
    constructor; [done|by apply plain_slash_free]. }
  assert (Hsplit : Js.split NodePath.slash (String "/"%char (Js.join "/" segments))
                   = "" :: segments).
  { cbn [Js.split]. unfold NodePath.slash. rewrite Ascii.eqb_refl. f_equal.
    apply (split_join "/"%char); [subst segments; by destruct dir|done]. }
  rewrite Hsplit. cbn [NodePath.normalizeSegments String.eqb orb].
  subst segments. rewrite normalizeSegments_app, app_nil_r by done.
  cbn [NodePath.normalizeSegments]. destruct Hfolder as (Hne & Hdot & Hdots & Hslash).
  destruct (String.eqb_spec folder ""); [done|].
  destruct (String.eqb_spec folder "."); [done|].
  destruct (String.eqb_spec folder ".."); [done|]. cbn [orb String.eqb Ascii.eqb Bool.eqb].
  rewrite normalizeSegments_plain, rev_involutive by done.
  assert (Hend : Js.endsWith "/"
                   (String "/"%char (Js.join "/" (dir ++ folder :: ".." :: path))) = false).
  { destruct (decide (path = [])) as [->|Hcons].
    - change (dir ++ [folder; ".."]) with (dir ++ [folder] ++ [".."]).
      rewrite app_assoc, join_snoc, <- append_assoc, <- append_cons by (by destruct dir).
      by apply endsWith_slash_segment.
    - destruct (exists_last Hcons) as (before & segment & ->).
      apply Forall_app in Hpath as [_ (Hne' & _ & _ & Hslash')%Forall_inv].
      change (dir ++ folder :: ".." :: before ++ [segment])
        with (dir ++ [folder; ".."] ++ before ++ [segment]).
      rewrite !app_assoc, join_snoc, <- append_assoc, <- append_cons by (by destruct dir).
      by apply endsWith_slash_segment. }
  rewrite Hend.
  destruct (String.eqb_spec (Js.join "/" (dir ++ path)) "") as [->|_]; [done|].
  by rewrite append_nil_r.
Qed.

Lemma join_absolute_up (dir : list string) (folder : string) (path : list string) :
  Forall Order.plain dir -> Order.plain folder -> Forall Order.plain path ->
  NodePath.join (Order.absolute (dir ++ [folder]) :: ".." :: path)
  = Order.absolute (dir ++ path).
Proof.
  intros Hdir Hfolder Hpath. unfold NodePath.join.
  rewrite !filter_cons, plain_nonempty by done.
  change (Js.nonempty (Order.absolute (dir ++ [folder]))) with true.
  change (Js.nonempty "..") with true. case_decide; [|done].
  rewrite join_cons by done. unfold Order.absolute at 1.
  rewrite append_assoc, <- join_app by (done || by destruct dir).
  rewrite <- app_assoc. by apply normalize_absolute_up.
Qed.

Lemma specifier_pieces (package : Order.Package) (path : list string) :
  Order.is_package package = true ->
  Forall (fun piece => Js.contains "/"%char piece = false) path ->
  Order.manifestOf (Order.specifier package path) = Order.manifest_specifier package
  /\ Order.remainingSegments (Order.specifier package path) = path.
Proof.
  intros Hpackage Hpath.
  unfold Order.manifestOf, Order.manifest_specifier, Order.packageName,
    Order.remainingSegments, Order.scoped, Order.specifier.
  rewrite (split_join "/"%char).
  - destruct package as [scope name|name]; simpl in *.
    + apply andb_true_iff in Hpackage as [[-> _]%andb_true_iff _]. done.
    + apply andb_true_iff in Hpackage as [->%negb_true_iff _].
      by destruct path.
  - by destruct package.
  - apply Forall_app. split; [|done].
    destruct package as [scope name|name]; simpl in Hpackage.
    + apply andb_true_iff in Hpackage as [[_ ?%negb_true_iff]%andb_true_iff ?%negb_true_iff].
      by repeat constructor.
    + apply andb_true_iff in Hpackage as [_ ?%negb_true_iff]. by repeat constructor.
Qed.

(** X25.  The importer does not keep a deep import inside its package.
    When the path after the package name starts with [..], and the
    bundler finds the manifest in the folder [dir/folder] but not the
    specifier itself, the importer reports [dir/path]: a file beside the
    package's folder, not in it. *)
Theorem deep_import_may_leave_the_package
  cwd build options package (dir : list string) (folder : string) (path : list string) :
  let url := Order.specifier package (".." :: path) in
  let manifest :=
    Esbuild.path (answer build (Order.manifest_specifier package) (Order.primary build)) in
  Order.is_package package = true ->
  forallb Order.is_plain (dir ++ folder :: path) = true ->
  resolves build url (Order.primary build) = false ->
  resolves build (Order.manifest_specifier package) (Order.primary build) = true ->
  NodePath.dirname manifest = Order.absolute (dir ++ [folder]) ->
  findFileUrl cwd (resolveUrl build) url options
  = ([asked url (Order.primary build);
      asked (Order.manifest_specifier package) (Order.primary build)],
     Normal (Some (NodeUrl.pathToFileURL cwd (Order.absolute (dir ++ path))))).
Proof.
  intros url manifest Hpackage Hplain%is_plain_plain Hurl Hmanifest Hdirname.
  apply Forall_app in Hplain as [Hdir [Hfolder Hpath]%Forall_cons].
  destruct (specifier_pieces package (".." :: path) Hpackage) as [HmanifestOf Hremaining].
  { constructor; [done|by apply plain_slash_free]. }
  rewrite (findFileUrl_manifest cwd build url options manifest
             [asked url (Order.primary build)]
             [asked (Order.manifest_specifier package) (Order.primary build)]).
  - unfold Order.deepImport. fold url in Hremaining. rewrite Hremaining, Hdirname.
    by rewrite join_absolute_up.
  - by apply first_resolved_missed.
  - fold url in HmanifestOf. rewrite HmanifestOf. by apply first_resolved_hit.
Qed.

Lemma deep_import_may_leave_the_package_witness :
  Demo.importer "pkg/../other/theme" None
  = ([asked "pkg/../other/theme" (Some "/proj"); asked "pkg/package.json" (Some "/proj")],
     Normal (Some (mkURL "file:" "" "/proj/node_modules/other/theme"))).
Proof.
  apply (deep_import_may_leave_the_package Demo.cwd Demo.build (Run.importer_options None)
           (Order.Unscoped "pkg") ["proj"; "node_modules"] "pkg" ["other"; "theme"]).
  - reflexivity.
  - reflexivity.
  - reflexivity.
  - reflexivity.
  - reflexivity.
Defined.
